(** * Embed session controller of the dashboard viewers

    A shallow embedding of the two most elaborate [DashboardViewer]
    components of the front-end:

    - [Radical]: the "limpeza radical" viewer (radicalCleanup,
      validateEmbedUrl returning a ValidationResult, performEmbed);
    - [Viewer]: the session-based viewer (performHygiene, getEmbedToken
      with its token cache, validateEmbedUrl, embedReport and the widget
      handlers handleLoaded / handleRendered / handleError and the render
      timeout).

    React refs are fields of an explicit state record, asynchronous
    functions are cut at every [await] / [setTimeout] into steps that the
    event loop resumes one at a time, and everything the browser, the
    network or the embedding SDK decides is an input of the step.

    The embedding comes first, then the definitions the properties are
    stated with, then the facts about the two viewers and the properties
    C1 to C10, and last further facts and properties of the code around
    them. *)

From Stdlib Require Import ZArith Bool Ascii String List Lia.
From stdpp Require Import base option list strings pretty gmap relations.

Local Open Scope Z_scope.

(** ** JavaScript strings and the platform URL parser *)

(** A JavaScript string is modelled by the bytes of its UTF-8 encoding.
    Operations that count UTF-16 code units ([length], [substring])
    count one unit for a character of one to three bytes and two for a
    character of four bytes. *)
Module Js.

(** [s.startsWith(p)] *)
Definition startsWith (p s : string) : bool := String.prefix p s.

(** [s.includes(needle)] *)
Fixpoint includes (needle s : string) : bool :=
  String.prefix needle s ||
  match s with
  | EmptyString => false
  | String _ s' => includes needle s'
  end.

Definition byte (c : ascii) : nat := nat_of_ascii c.

(** A continuation byte, and what a leading byte announces: the number
    of continuation bytes and the number of UTF-16 code units. *)
Definition is_cont (c : ascii) : bool := (128 <=? byte c)%nat && (byte c <=? 191)%nat.

Definition followers (c : ascii) : nat :=
  if (byte c <? 192)%nat then 0%nat
  else if (byte c <? 224)%nat then 1%nat
  else if (byte c <? 240)%nat then 2%nat
  else 3%nat.

Definition units (c : ascii) : nat := if (byte c <? 240)%nat then 1%nat else 2%nat.

(** The first half of the surrogate pair of the four-byte character that
    starts with [c] and goes on with [rest], written in the three-byte
    form of its code unit: what is left when [substring] cuts the pair. *)
Definition high_surrogate (c : ascii) (rest : string) : string :=
  match rest with
  | String b1 (String b2 _) =>
      let top := ((byte c mod 8) * 256 + (byte b1 mod 64) * 4 + (byte b2 mod 64) / 16)%nat in
      let v := (top - 64)%nat in
      String (ascii_of_nat 237)
        (String (ascii_of_nat (160 + v / 64)) (String (ascii_of_nat (128 + v mod 64)) EmptyString))
  | _ => EmptyString
  end.

Fixpoint substring0_go (skip n : nat) (s : string) : string :=
  match s with
  | EmptyString => EmptyString
  | String c s' =>
      if (0 <? skip)%nat && is_cont c then String c (substring0_go (skip - 1) n s')
      else
        match n with
        | O => EmptyString
        | S n' =>
            if (byte c <? 240)%nat then String c (substring0_go (followers c) n' s')
            else
              match n' with
              | O => high_surrogate c s'
              | S n'' => String c (substring0_go 3 n'' s')
              end
        end
  end.

(** [s.substring(0, n)] *)
Definition substring0 (n : nat) (s : string) : string := substring0_go 0 n s.

Fixpoint strlen_go (skip : nat) (s : string) : nat :=
  match s with
  | EmptyString => 0%nat
  | String c s' =>
      if (0 <? skip)%nat && is_cont c then strlen_go (skip - 1) s'
      else (units c + strlen_go (followers c) s')%nat
  end.

(** [s.length] *)
Definition strlen (s : string) : nat := strlen_go 0 s.

(** The white space and the line terminators of the language beyond
    ASCII, in UTF-8: U+00A0, then U+1680, U+2000 to U+200A, U+2028,
    U+2029, U+202F, U+205F, U+3000 and U+FEFF. *)
Definition space2 (a b : ascii) : bool := (byte a =? 194)%nat && (byte b =? 160)%nat.

Definition space3 (a b c : ascii) : bool :=
  let x := byte a in
  let y := byte b in
  let z := byte c in
  ((x =? 225) && (y =? 154) && (z =? 128)
   || (x =? 226) && (y =? 128)
      && ((128 <=? z) && (z <=? 138) || (z =? 168) || (z =? 169) || (z =? 175))
   || (x =? 226) && (y =? 129) && (z =? 159)
   || (x =? 227) && (y =? 128) && (z =? 128)
   || (x =? 239) && (y =? 187) && (z =? 191))%nat.

(** The white space at the front of [s] removed; with [back], the same
    on a reversed string, whose characters have their bytes reversed. *)
Fixpoint strip (back : bool) (s : string) : string :=
  match s with
  | String a s1 =>
      if Ascii.is_space a then strip back s1
      else
        match s1 with
        | String b s2 =>
            if (if back then space2 b a else space2 a b) then strip back s2
            else
              match s2 with
              | String c s3 =>
                  if (if back then space3 c b a else space3 a b c) then strip back s3 else s
              | EmptyString => s
              end
        | EmptyString => s
        end
  | EmptyString => EmptyString
  end.

(** [s.trimStart()] *)
Definition trimStart (s : string) : string := strip false s.

(** [s.trim()] *)
Definition trim (s : string) : string :=
  String.rev (strip true (String.rev (strip false s))).

(** Truthiness of a string: [!s] holds exactly for the empty string. *)
Definition truthy (s : string) : bool := negb (String.eqb s EmptyString).

Definition lower_ascii (c : ascii) : ascii :=
  let n := nat_of_ascii c in
  if ((65 <=? n) && (n <=? 90))%nat then ascii_of_nat (n + 32) else c.

Fixpoint toLowerCase (s : string) : string :=
  match s with
  | EmptyString => EmptyString
  | String c s' => String (lower_ascii c) (toLowerCase s')
  end.

(** The fields of a [URL] object the viewers read. *)
Record URL := { protocol : string; hostname : string; pathname : string; search : string }.

(** [new URL(s)] either yields an object or throws a [TypeError]. *)
Inductive Parsed := Ok (u : URL) | Threw (message : string).

(** [break_at stop s]: the longest prefix without a character of [stop],
    and the rest (starting at the stop character, if any). *)
Fixpoint break_at (stop : ascii -> bool) (s : string) : string * string :=
  match s with
  | EmptyString => (EmptyString, EmptyString)
  | String c s' =>
      if stop c then (EmptyString, s)
      else let '(a, b) := break_at stop s' in (String c a, b)
  end.

Definition is_char (x : ascii) (c : ascii) : bool := Ascii.eqb x c.

Definition drop1 (s : string) : string :=
  match s with String _ s' => s' | EmptyString => EmptyString end.

(** The control characters and the space the URL parser removes from
    both ends of its input. *)
Fixpoint strip_c0 (s : string) : string :=
  match s with
  | String c s' => if (byte c <=? 32)%nat then strip_c0 s' else s
  | EmptyString => EmptyString
  end.

(** A model of the platform's URL parser on the fragment the viewers
    meet: absolute [scheme://host/path?query#fragment] locators in
    printable ASCII, without user info, port, dot segments or characters
    the parser would escape.  The scheme and the host are lower-cased
    and an empty path reads ["/"], as the platform does for http(s).
    Anything else throws.  The viewers take the parser as a parameter;
    this one instantiates it in the examples. *)
Definition parseURL (s : string) : Parsed :=
  let s := String.rev (strip_c0 (String.rev (strip_c0 s))) in
  let '(scheme, rest) := break_at (is_char ":") s in
  if negb (truthy scheme) || negb (String.prefix "://" rest) then Threw "Invalid URL"
  else
    let rest := String.substring 3 (String.length rest) rest in
    let '(host, rest) :=
      break_at (fun c => is_char "/" c || is_char "?" c || is_char "#" c) rest in
    if negb (truthy host) then Threw "Invalid URL"
    else
      let '(path, rest) := break_at (fun c => is_char "?" c || is_char "#" c) rest in
      let '(query, _) := break_at (is_char "#") rest in
      Ok {| protocol := toLowerCase scheme +:+ ":";
            hostname := toLowerCase host;
            pathname := if truthy path then path else "/";
            search := if String.eqb query "?" then EmptyString else query |}.

Fixpoint split_on_go (sep : ascii) (cur : string) (s : string) : list string :=
  match s with
  | EmptyString => [String.rev cur]
  | String c s' =>
      if Ascii.eqb c sep then String.rev cur :: split_on_go sep EmptyString s'
      else split_on_go sep (String c cur) s'
  end.

(** [s.split(sep)] for a one-character separator. *)
Definition split_on (sep : ascii) (s : string) : list string :=
  split_on_go sep EmptyString s.

(** The decoding of a name or a value of a query, in the three steps of
    the URL standard: every [+] becomes a space, every [%] followed by
    two hexadecimal digits becomes the byte they denote, and the bytes
    are read as UTF-8, each ill-formed part giving U+FFFD. *)
Fixpoint plus_to_space (s : string) : string :=
  match s with
  | EmptyString => EmptyString
  | String c s' => String (if is_char "+" c then " "%char else c) (plus_to_space s')
  end.

Definition hex (c : ascii) : option nat :=
  let n := byte c in
  if ((48 <=? n) && (n <=? 57))%nat then Some (n - 48)%nat
  else if ((65 <=? n) && (n <=? 70))%nat then Some (n - 55)%nat
  else if ((97 <=? n) && (n <=? 102))%nat then Some (n - 87)%nat
  else None.

Fixpoint percent_decode (s : string) : string :=
  match s with
  | EmptyString => EmptyString
  | String c t =>
      match t with
      | String a (String b s') =>
          match (if is_char "%" c then hex a else None), hex b with
          | Some x, Some y => String (ascii_of_nat (16 * x + y)) (percent_decode s')
          | _, _ => String c (percent_decode t)
          end
      | _ => String c (percent_decode t)
      end
  end.

(** U+FFFD *)
Definition replacement : string :=
  String (ascii_of_nat 239) (String (ascii_of_nat 191) (String (ascii_of_nat 189) EmptyString)).

(** What the UTF-8 decoder holds inside a character: the bytes read, how
    many are missing, and the bounds of the next one. *)
Definition Partial : Type := string * nat * nat * nat.

(** The decoder on a byte that starts a character: what it emits and
    what it holds. *)
Definition utf8_lead (c : ascii) : string * option Partial :=
  let n := byte c in
  if (n <? 128)%nat then (String c EmptyString, None)
  else if ((194 <=? n) && (n <=? 223))%nat then
    (EmptyString, Some (String c EmptyString, 1, 128, 191)%nat)
  else if ((224 <=? n) && (n <=? 239))%nat then
    (EmptyString,
     Some (String c EmptyString, 2, if n =? 224 then 160 else 128,
           if n =? 237 then 159 else 191)%nat)
  else if ((240 <=? n) && (n <=? 244))%nat then
    (EmptyString,
     Some (String c EmptyString, 3, if n =? 240 then 144 else 128,
           if n =? 244 then 143 else 191)%nat)
  else (replacement, None).

Fixpoint utf8_decode_go (held : option Partial) (s : string) : string :=
  match s with
  | EmptyString => match held with Some _ => replacement | None => EmptyString end
  | String c s' =>
      match held with
      | Some (seen, needed, lo, hi) =>
          if ((lo <=? byte c) && (byte c <=? hi))%nat then
            match needed with
            | 1%nat => seen +:+ String c (utf8_decode_go None s')
            | _ => utf8_decode_go (Some (seen +:+ String c EmptyString, needed - 1, 128, 191)%nat) s'
            end
          else
            let '(out, held') := utf8_lead c in
            replacement +:+ out +:+ utf8_decode_go held' s'
      | None =>
          let '(out, held') := utf8_lead c in out +:+ utf8_decode_go held' s'
      end
  end.

Definition form_decode (s : string) : string :=
  utf8_decode_go None (percent_decode (plus_to_space s)).

(** [new URLSearchParams(search)]: the list of name/value pairs, in
    order, decoded; one leading [?] is dropped, empty pieces are skipped
    and a piece without [=] has the empty value. *)
Definition URLSearchParams (search : string) : list (string * string) :=
  let q := if String.prefix "?" search then drop1 search else search in
  omap (fun piece =>
          if truthy piece then
            let '(k, v) := break_at (is_char "=") piece in
            Some (form_decode k, form_decode (drop1 v))
          else None)
       (split_on "&" q).

(** [params.get(name)]: the first value bound to [name], or [null]. *)
Fixpoint get (name : string) (params : list (string * string)) : option string :=
  match params with
  | [] => None
  | (k, v) :: rest => if String.eqb k name then Some v else get name rest
  end.

End Js.

(** ** The DOM and the embedding SDK, as far as the viewers touch them *)

Module Dom.

(** A child node of the container (the subtree is kept flat): its tag
    name (["iframe"], ["div"], ["#text"], ...) and, for frames, its
    [src]. *)
Record Node := { tag : string; src : string }.

(** The container element: child nodes, attributes ([className] is the
    attribute ["class"]) and the properties of its inline [style]. *)
Record Element := {
  children : list Node;
  attributes : gmap string string;
  style : gmap string string
}.

Definition is_iframe (n : Node) : bool := String.eqb (tag n) "iframe".

(** matches the selector [iframe[src*="powerbi"]] *)
Definition is_powerbi_iframe (n : Node) : bool :=
  is_iframe n && Js.includes "powerbi" (src n).

(** A DOM node that is an element (counted by [children.length]). *)
Definition is_element (n : Node) : bool := negb (String.prefix "#" (tag n)).

Definition setAttribute (k v : string) (e : Element) : Element :=
  {| children := children e; attributes := <[k := v]> (attributes e); style := style e |}.

Definition removeAttribute (k : string) (e : Element) : Element :=
  {| children := children e; attributes := delete k (attributes e); style := style e |}.

Definition setChildren (c : list Node) (e : Element) : Element :=
  {| children := c; attributes := attributes e; style := style e |}.

(** [e.style.prop = v] *)
Definition setStyle (prop v : string) (e : Element) : Element :=
  {| children := children e; attributes := attributes e; style := <[prop := v]> (style e) |}.

(** [e.style.cssText = "prop: v;"] replaces the whole inline style. *)
Definition setCssText (prop v : string) (e : Element) : Element :=
  {| children := children e; attributes := attributes e; style := {[prop := v]} |}.

(** What a call into the SDK did: it returned or it threw, and in both
    cases left the container in some state. *)
Inductive SdkOutcome := Returns (e : Element) | Throws (e : Element).

Definition after (o : SdkOutcome) : Element :=
  match o with Returns e | Throws e => e end.

End Dom.

(** ** The viewer with the radical cleanup *)

Module Radical.
Import Dom.

Inductive LogType := info | error | success.

Record ValidationResult :=
  { isValid : bool; errors : list string; warnings : list string }.

(** What [JSON.parse] can hand to [validateEmbedUrl] as [rawUrl]. *)
Inductive JsValue := JsString (s : string) | JsOther (typeof : string).

Record State := {
  logs : list string;
  embedRef : option Element;
  reportRef : option nat;
  serviceRef : option nat;
  mountedRef : bool;
  (** [Some aborted]: the controller held, and whether it was aborted *)
  abortControllerRef : option bool;
  isCleaningRef : bool
}.

(** Answers of the environment during one synchronous step. *)
Record Env := {
  timeString : string;               (* new Date().toLocaleTimeString() *)
  abort_throws : bool;               (* abortController.abort() *)
  off_throws : bool;                 (* report.off(...) *)
  sdk_reset : Element -> SdkOutcome  (* service.reset(container) *)
}.

Definition set_logs (l : list string) (st : State) : State :=
  {| logs := l; embedRef := embedRef st; reportRef := reportRef st;
     serviceRef := serviceRef st; mountedRef := mountedRef st;
     abortControllerRef := abortControllerRef st; isCleaningRef := isCleaningRef st |}.
Definition set_embedRef (e : option Element) (st : State) : State :=
  {| logs := logs st; embedRef := e; reportRef := reportRef st;
     serviceRef := serviceRef st; mountedRef := mountedRef st;
     abortControllerRef := abortControllerRef st; isCleaningRef := isCleaningRef st |}.
Definition set_reportRef (r : option nat) (st : State) : State :=
  {| logs := logs st; embedRef := embedRef st; reportRef := r;
     serviceRef := serviceRef st; mountedRef := mountedRef st;
     abortControllerRef := abortControllerRef st; isCleaningRef := isCleaningRef st |}.
Definition set_serviceRef (s : option nat) (st : State) : State :=
  {| logs := logs st; embedRef := embedRef st; reportRef := reportRef st;
     serviceRef := s; mountedRef := mountedRef st;
     abortControllerRef := abortControllerRef st; isCleaningRef := isCleaningRef st |}.
Definition set_mountedRef (b : bool) (st : State) : State :=
  {| logs := logs st; embedRef := embedRef st; reportRef := reportRef st;
     serviceRef := serviceRef st; mountedRef := b;
     abortControllerRef := abortControllerRef st; isCleaningRef := isCleaningRef st |}.
Definition set_abortControllerRef (a : option bool) (st : State) : State :=
  {| logs := logs st; embedRef := embedRef st; reportRef := reportRef st;
     serviceRef := serviceRef st; mountedRef := mountedRef st;
     abortControllerRef := a; isCleaningRef := isCleaningRef st |}.
Definition set_isCleaningRef (b : bool) (st : State) : State :=
  {| logs := logs st; embedRef := embedRef st; reportRef := reportRef st;
     serviceRef := serviceRef st; mountedRef := mountedRef st;
     abortControllerRef := abortControllerRef st; isCleaningRef := b |}.

(** [prev.slice(-n)] *)
Definition slice_last {A} (n : nat) (l : list A) : list A :=
  drop (length l - n) l.

Definition emoji (type : LogType) : string :=
  match type with error => "❌" | success => "✅" | info => "ℹ️" end.

(** addLog: the sink keeps the last five entries. *)
Definition addLog (env : Env) (message : string) (type : LogType) (st : State) : State :=
  let logMessage := "[" +:+ timeString env +:+ "] " +:+ emoji type +:+ " " +:+ message in
  set_logs (slice_last 4 (logs st) ++ [logMessage]) st.

Definition bool_str (b : bool) : string := if b then "true" else "false".

Section WithParser.
(** [new URL(...)], the platform's parser. *)
Variable newURL : string -> Js.Parsed.

(** validateEmbedUrl; [report_id] is [dashboard.report_id]. *)
Definition validateEmbedUrl (env : Env) (report_id : string) (url : JsValue)
           (st : State) : ValidationResult * State :=
  let st := addLog env "🔍 Validando URL..." info st in
  match url with
  | JsOther ty =>
      ({| isValid := false;
          errors := ["URL não é string (tipo: " +:+ ty +:+ ")"];
          warnings := [] |}, st)
  | JsString url =>
      if negb (Js.truthy url) || (Js.strlen (Js.trim url) =? 0)%nat then
        ({| isValid := false; errors := ["URL está vazia"]; warnings := [] |}, st)
      else
        let errors : list string := [] in
        let warnings : list string := [] in
        let errors :=
          if negb (Js.startsWith "https://" url)
          then errors ++ ["Protocolo inválido: " +:+ Js.substring0 10 url]
          else errors in
        let '(errors, warnings, st) :=
          match newURL url with
          | Js.Ok urlObj =>
              let errors :=
                if negb (Js.includes "powerbi.com" (Js.hostname urlObj))
                then errors ++ ["Domínio inválido: " +:+ Js.hostname urlObj]
                else errors in
              let warnings :=
                if negb (String.eqb (Js.hostname urlObj) "app.powerbi.com")
                then warnings ++ ["Domínio diferente do esperado: " +:+ Js.hostname urlObj]
                else warnings in
              let errors :=
                if negb (Js.includes "/reportEmbed" (Js.pathname urlObj))
                then errors ++ ["Path inválido: " +:+ Js.pathname urlObj]
                else errors in
              let params := Js.URLSearchParams (Js.search urlObj) in
              let reportId := Js.get "reportId" params in
              let groupId := Js.get "groupId" params in
              let errors :=
                match reportId with
                | Some rid =>
                    if negb (Js.truthy rid) then errors ++ ["reportId ausente na URL"]
                    else if negb (String.eqb rid report_id) then
                      errors ++ ["reportId não corresponde: esperado " +:+ report_id
                                 +:+ ", recebido " +:+ rid]
                    else errors
                | None => errors ++ ["reportId ausente na URL"]
                end in
              let warnings :=
                match groupId with
                | Some g => if negb (Js.truthy g)
                            then warnings ++ ["groupId ausente na URL"] else warnings
                | None => warnings ++ ["groupId ausente na URL"]
                end in
              let st :=
                addLog env ("Validação: " +:+ pretty (length errors) +:+ " erros, "
                            +:+ pretty (length warnings) +:+ " avisos")
                       (if (0 <? length errors)%nat then error else success) st in
              (errors, warnings, st)
          | Js.Threw e => (errors ++ ["URL malformada: " +:+ e], warnings, st)
          end in
        ({| isValid := (length errors =? 0)%nat; errors := errors; warnings := warnings |}, st)
  end.
End WithParser.

(** The attributes radicalCleanup strips from the container. *)
Definition is_custom_attribute (name : string) : bool :=
  Js.startsWith "powerbi-" name || Js.startsWith "data-" name
  || Js.startsWith "aria-" name || String.eqb name "tabindex".

Definition log_removed_iframes (env : Env) (iframes : list Node) (st : State) : State :=
  foldl (fun st idx => addLog env ("iframe " +:+ pretty (idx + 1)%nat +:+ " removido") success st)
        st (seq 0 (length iframes)).

(** Step 4 of radicalCleanup on the element. *)
Definition clear_container (e : Element) : Element :=
  (* iframes removed, then every remaining child, then innerHTML emptied *)
  let e := setChildren (filter (fun n => is_iframe n = false) (children e)) e in
  let e := setChildren [] e in
  let e := {| children := children e;
              attributes := filter (fun kv => is_custom_attribute kv.1 = false) (attributes e);
              style := style e |} in
  let e := setAttribute "class" "flex-1 bg-white" e in
  setCssText "display" "none" e.

(** radicalCleanup up to its [await] of 300 ms.  The result says whether
    the cleanup is now waiting ([true]) or returned at the re-entrancy
    guard ([false]). *)
Definition radicalCleanup_begin (env : Env) (st : State) : State * bool :=
  if isCleaningRef st then
    (addLog env "Limpeza já em andamento, aguardando..." info st, false)
  else
    let st := set_isCleaningRef true st in
    let st := addLog env "🧹 INICIANDO LIMPEZA RADICAL" info st in
    (* 1. abort the pending requests *)
    let st :=
      match abortControllerRef st with
      | Some _ =>
          let st := if abort_throws env
                    then addLog env "Erro ao abortar requisições" error st
                    else addLog env "Requisições HTTP abortadas" success st in
          set_abortControllerRef None st
      | None => st
      end in
    (* 2. detach the report's listeners *)
    let st :=
      match reportRef st with
      | Some _ =>
          let st := if off_throws env
                    then addLog env "Erro ao remover listeners" error st
                    else addLog env "Event listeners removidos" success st in
          set_reportRef None st
      | None => st
      end in
    (* 3. destroy the service *)
    let st :=
      match serviceRef st with
      | Some _ =>
          let st :=
            match embedRef st with
            | Some e =>
                match sdk_reset env e with
                | Returns e' =>
                    addLog env "Service resetado via container" success (set_embedRef (Some e') st)
                | Throws e' =>
                    addLog env "Erro ao resetar service (esperado)" info (set_embedRef (Some e') st)
                end
            | None => st
            end in
          let st := set_serviceRef None st in
          addLog env "Service instance destruída" success st
      | None => st
      end in
    (* 4. empty the container *)
    let st :=
      match embedRef st with
      | Some e =>
          let st := log_removed_iframes env (filter (fun n => is_iframe n = true) (children e)) st in
          let st := set_embedRef (Some (clear_container e)) st in
          addLog env "Container COMPLETAMENTE limpo" success st
      | None => st
      end in
    (st, true).

(** radicalCleanup after the wait: the final verification and the
    [finally] block. *)
Definition radicalCleanup_finish (env : Env) (st : State) : State :=
  let st := addLog env "Aguardando finalização da limpeza..." info st in
  let st :=
    match embedRef st with
    | Some e =>
        let hasChildren := (0 <? length (filter (fun n => is_element n = true) (children e)))%nat in
        let hasIframes := (0 <? length (filter (fun n => is_iframe n = true) (children e)))%nat in
        if hasChildren || hasIframes then
          let st := addLog env ("⚠️ ATENÇÃO: Container ainda tem elementos (children: "
                                +:+ bool_str hasChildren +:+ ", iframes: "
                                +:+ bool_str hasIframes +:+ ")") error st in
          set_embedRef (Some (setChildren [] e)) st
        else addLog env "✅ Container verificado: TOTALMENTE LIMPO" success st
    | None => st
    end in
  let st := addLog env "🎉 LIMPEZA RADICAL CONCLUÍDA" success st in
  set_isCleaningRef false st.

(** The unmount effect, up to the wait inside radicalCleanup:
    [mountedRef.current = false], abort, [radicalCleanup()].  The abort
    is not guarded by a [try] here: [None] is the exception escaping. *)
Definition dispose_begin (env : Env) (st : State) : option (State * bool) :=
  let st := set_mountedRef false st in
  match abortControllerRef st with
  | Some _ =>
      if abort_throws env then None
      else Some (radicalCleanup_begin env (set_abortControllerRef (Some true) st))
  | None => Some (radicalCleanup_begin env st)
  end.

(** One complete, undisturbed [dispose()]: the unmount effect followed by
    the resumption of the cleanup it started. *)
Definition dispose (env1 env2 : Env) (st : State) : option State :=
  match dispose_begin env1 st with
  | Some (st, waiting) => Some (if waiting then radicalCleanup_finish env2 st else st)
  | None => None
  end.

(** What [dispose] is meant to leave clean: the container (children and
    attributes) and the references held. *)
Definition held (st : State)
  : option Element * option nat * option nat * option bool * bool * bool :=
  (embedRef st, reportRef st, serviceRef st, abortControllerRef st,
   mountedRef st, isCleaningRef st).

End Radical.

(** ** The session-based viewer *)

Module Viewer.
Import Dom.

Inductive LogType := LInfo | LSuccess | LError | LWarn | LDebug.

Record LogEntry := { message : string; type : LogType; timestamp : Z }.

Record Dashboard := { report_id : string; dataset_id : string; title : string }.

Record CacheEntry := { token : string; embedUrl : string; expires : Z }.

(** What getEmbedToken resolves to when it does not resolve to [null]. *)
Record TokenData := { td_token : string; td_embedUrl : string }.

Record EnvironmentChecks := {
  iframeClean : bool; domStable : bool; serviceReady : bool;
  tokenValid : bool; urlValidated : bool
}.

(** The terminal notifications of the host: the props [onSuccess] and
    [onError]. *)
Inductive Notification := onSuccess | onError (msg : string).

(** The three lifecycle events of a report handle. *)
Inductive Signal := Loaded | Rendered | Errored (detail_message : option string).

(** The closure created by one successful [service.embed]: its
    [isResolved] flag, the handlers still registered on the report
    handle, and the render timeout while it is pending. *)
Record Closure := {
  isResolved : bool;
  listensLoaded : bool; listensRendered : bool; listensError : bool;
  timeoutDue : option Z
}.

(** performHygiene suspended at one of its two waits; [due] is the time
    at which the timer fires. *)
Inductive HygieneAwait :=
| AwaitIframes (due : Z)
| AwaitSettle (isClean : bool) (due : Z).

(** What a call or a resumption of performHygiene comes to: it returned
    ([undefined] when unmounted, else [isClean]) or it waits again. *)
Inductive HygieneResult :=
| HygReturned (isClean : option bool)
| HygAwait (w : HygieneAwait).

(** Where one invocation of embedReport stands. *)
Inductive Pc :=
| PcStart                                          (* running, before its first await *)
| PcHygiene (deep : bool) (w : HygieneAwait)      (* await performHygiene(...) *)
| PcFetch (abortDue : Z)                           (* await apiFetch(...) *)
| PcBodyText (status : Z) (statusText : string)    (* await response.text() *)
| PcBodyJson                                       (* await response.json() *)
| PcStabilize (tokenData : TokenData) (due : Z)    (* the 200 ms wait *)
| PcEmbedTick (tokenData : TokenData) (due : Z)    (* setTimeout(..., 100) *)
| PcResetWait (tokenData : TokenData) (due : Z)    (* 100 ms after service.reset *)
| PcAttached (c : Closure)                         (* handlers and timeout live *)
| PcDone (result : bool).                          (* returned without a widget *)

(** An invocation of embedReport: the [dashboard] its closures captured
    and where it stands. *)
Record Session := { s_dashboard : Dashboard; s_pc : Pc }.

(** What follows a performHygiene that was not awaited by embedReport. *)
Inductive Kont :=
| KErrRetry (s : nat)       (* handleError of session s: wait 1000, re-check, embedReport(true) *)
| KReload (d : Dashboard)   (* .then(() => setTimeout(() => embedReport(true), 500)) *)
| KNone.                    (* the debug panel's forced cleanup *)

Inductive Job :=
| JHygiene (deep : bool) (w : HygieneAwait) (k : Kont)
| JErrRetryWait (s : nat) (due : Z)
| JReloadTimer (d : Dashboard) (due : Z).

Inductive FetchOutcome :=
| FetchResponse (status : Z) (statusText : string)
| FetchRejected (name message : string).

Inductive TextOutcome := TextBody (body : string) | TextRejected (name message : string).

(** [response.json()]: the two members read from the payload ([None] for
    a missing or [null] member), or a rejection. *)
Inductive JsonOutcome :=
| JsonData (token embedUrl : option string)
| JsonRejected (name message : string).

(** Answers of the environment during one synchronous step. *)
Record Env := {
  now : Z;                             (* Date.now() and performance.now() *)
  off_throws_at : option nat;          (* which of the three report.off calls throws *)
  sdk_reset : Element -> SdkOutcome;   (* service.reset(container) *)
  sdk_get : option bool;               (* service.get(container): found / not found / throws *)
  sdk_embed : Element -> SdkOutcome;   (* service.embed(container, config) *)
  sdk_message : string;                (* the message of what the SDK or the DOM threw *)
  fetch_outcome : FetchOutcome;
  text_outcome : TextOutcome;
  json_outcome : JsonOutcome
}.

Record State := {
  (* React state *)
  isLoading : bool;
  isReady : bool;
  loadingPhase : string;
  loadingProgress : Z;
  error : option string;
  logs : list LogEntry;
  (* props *)
  dashboard : Dashboard;
  (* the DOM: the container, and the frames elsewhere in the document *)
  embedContainerRef : option Element;
  documentIframes : list Node;
  (* refs; a report handle is named by the session that embedded it *)
  powerBiReport : option nat;
  powerBiService : option nat;
  currentSessionId : nat;
  currentReportId : string;
  isMounted : bool;
  tokenCache : gmap string CacheEntry;
  attemptCounter : Z;
  workspaceClean : bool;
  environmentChecks : EnvironmentChecks;
  timerRef : gmap string Z;
  (* the event loop: the embedReport invocations, by session token, and
     the other pending continuations *)
  sessions : gmap nat Session;
  jobs : list Job;
  (* sources of fresh session tokens and service instances *)
  uuidCounter : nat;
  serviceCounter : nat;
  (* what the host and the collaborators observed: the calls of onSuccess /
     onError, tagged with the session token of the invocation that made
     them, the sessions that called service.embed, and the requests
     handed to apiFetch *)
  notifications : list (nat * Notification);
  embedCalls : list nat;
  fetchCalls : list string
}.

Definition set_isLoading (v : bool) (st : State) : State :=
  {| isLoading := v; isReady := isReady st; loadingPhase := loadingPhase st;
     loadingProgress := loadingProgress st; error := error st; logs := logs st;
     dashboard := dashboard st; embedContainerRef := embedContainerRef st;
     documentIframes := documentIframes st; powerBiReport := powerBiReport st;
     powerBiService := powerBiService st; currentSessionId := currentSessionId st;
     currentReportId := currentReportId st; isMounted := isMounted st;
     tokenCache := tokenCache st; attemptCounter := attemptCounter st;
     workspaceClean := workspaceClean st; environmentChecks := environmentChecks st;
     timerRef := timerRef st; sessions := sessions st; jobs := jobs st;
     uuidCounter := uuidCounter st; serviceCounter := serviceCounter st;
     notifications := notifications st; embedCalls := embedCalls st;
     fetchCalls := fetchCalls st |}.
Definition set_isReady (v : bool) (st : State) : State :=
  {| isLoading := isLoading st; isReady := v; loadingPhase := loadingPhase st;
     loadingProgress := loadingProgress st; error := error st; logs := logs st;
     dashboard := dashboard st; embedContainerRef := embedContainerRef st;
     documentIframes := documentIframes st; powerBiReport := powerBiReport st;
     powerBiService := powerBiService st; currentSessionId := currentSessionId st;
     currentReportId := currentReportId st; isMounted := isMounted st;
     tokenCache := tokenCache st; attemptCounter := attemptCounter st;
     workspaceClean := workspaceClean st; environmentChecks := environmentChecks st;
     timerRef := timerRef st; sessions := sessions st; jobs := jobs st;
     uuidCounter := uuidCounter st; serviceCounter := serviceCounter st;
     notifications := notifications st; embedCalls := embedCalls st;
     fetchCalls := fetchCalls st |}.
Definition set_loadingPhase (v : string) (st : State) : State :=
  {| isLoading := isLoading st; isReady := isReady st; loadingPhase := v;
     loadingProgress := loadingProgress st; error := error st; logs := logs st;
     dashboard := dashboard st; embedContainerRef := embedContainerRef st;
     documentIframes := documentIframes st; powerBiReport := powerBiReport st;
     powerBiService := powerBiService st; currentSessionId := currentSessionId st;
     currentReportId := currentReportId st; isMounted := isMounted st;
     tokenCache := tokenCache st; attemptCounter := attemptCounter st;
     workspaceClean := workspaceClean st; environmentChecks := environmentChecks st;
     timerRef := timerRef st; sessions := sessions st; jobs := jobs st;
     uuidCounter := uuidCounter st; serviceCounter := serviceCounter st;
     notifications := notifications st; embedCalls := embedCalls st;
     fetchCalls := fetchCalls st |}.
Definition set_loadingProgress (v : Z) (st : State) : State :=
  {| isLoading := isLoading st; isReady := isReady st; loadingPhase := loadingPhase st;
     loadingProgress := v; error := error st; logs := logs st; dashboard := dashboard st;
     embedContainerRef := embedContainerRef st; documentIframes := documentIframes st;
     powerBiReport := powerBiReport st; powerBiService := powerBiService st;
     currentSessionId := currentSessionId st; currentReportId := currentReportId st;
     isMounted := isMounted st; tokenCache := tokenCache st;
     attemptCounter := attemptCounter st; workspaceClean := workspaceClean st;
     environmentChecks := environmentChecks st; timerRef := timerRef st;
     sessions := sessions st; jobs := jobs st; uuidCounter := uuidCounter st;
     serviceCounter := serviceCounter st; notifications := notifications st;
     embedCalls := embedCalls st; fetchCalls := fetchCalls st |}.
Definition set_error (v : option string) (st : State) : State :=
  {| isLoading := isLoading st; isReady := isReady st; loadingPhase := loadingPhase st;
     loadingProgress := loadingProgress st; error := v; logs := logs st;
     dashboard := dashboard st; embedContainerRef := embedContainerRef st;
     documentIframes := documentIframes st; powerBiReport := powerBiReport st;
     powerBiService := powerBiService st; currentSessionId := currentSessionId st;
     currentReportId := currentReportId st; isMounted := isMounted st;
     tokenCache := tokenCache st; attemptCounter := attemptCounter st;
     workspaceClean := workspaceClean st; environmentChecks := environmentChecks st;
     timerRef := timerRef st; sessions := sessions st; jobs := jobs st;
     uuidCounter := uuidCounter st; serviceCounter := serviceCounter st;
     notifications := notifications st; embedCalls := embedCalls st;
     fetchCalls := fetchCalls st |}.
Definition set_logs (v : list LogEntry) (st : State) : State :=
  {| isLoading := isLoading st; isReady := isReady st; loadingPhase := loadingPhase st;
     loadingProgress := loadingProgress st; error := error st; logs := v;
     dashboard := dashboard st; embedContainerRef := embedContainerRef st;
     documentIframes := documentIframes st; powerBiReport := powerBiReport st;
     powerBiService := powerBiService st; currentSessionId := currentSessionId st;
     currentReportId := currentReportId st; isMounted := isMounted st;
     tokenCache := tokenCache st; attemptCounter := attemptCounter st;
     workspaceClean := workspaceClean st; environmentChecks := environmentChecks st;
     timerRef := timerRef st; sessions := sessions st; jobs := jobs st;
     uuidCounter := uuidCounter st; serviceCounter := serviceCounter st;
     notifications := notifications st; embedCalls := embedCalls st;
     fetchCalls := fetchCalls st |}.
Definition set_dashboard (v : Dashboard) (st : State) : State :=
  {| isLoading := isLoading st; isReady := isReady st; loadingPhase := loadingPhase st;
     loadingProgress := loadingProgress st; error := error st; logs := logs st; dashboard := v;
     embedContainerRef := embedContainerRef st; documentIframes := documentIframes st;
     powerBiReport := powerBiReport st; powerBiService := powerBiService st;
     currentSessionId := currentSessionId st; currentReportId := currentReportId st;
     isMounted := isMounted st; tokenCache := tokenCache st;
     attemptCounter := attemptCounter st; workspaceClean := workspaceClean st;
     environmentChecks := environmentChecks st; timerRef := timerRef st;
     sessions := sessions st; jobs := jobs st; uuidCounter := uuidCounter st;
     serviceCounter := serviceCounter st; notifications := notifications st;
     embedCalls := embedCalls st; fetchCalls := fetchCalls st |}.
Definition set_embedContainerRef (v : option Element) (st : State) : State :=
  {| isLoading := isLoading st; isReady := isReady st; loadingPhase := loadingPhase st;
     loadingProgress := loadingProgress st; error := error st; logs := logs st;
     dashboard := dashboard st; embedContainerRef := v; documentIframes := documentIframes st;
     powerBiReport := powerBiReport st; powerBiService := powerBiService st;
     currentSessionId := currentSessionId st; currentReportId := currentReportId st;
     isMounted := isMounted st; tokenCache := tokenCache st;
     attemptCounter := attemptCounter st; workspaceClean := workspaceClean st;
     environmentChecks := environmentChecks st; timerRef := timerRef st;
     sessions := sessions st; jobs := jobs st; uuidCounter := uuidCounter st;
     serviceCounter := serviceCounter st; notifications := notifications st;
     embedCalls := embedCalls st; fetchCalls := fetchCalls st |}.
Definition set_documentIframes (v : list Node) (st : State) : State :=
  {| isLoading := isLoading st; isReady := isReady st; loadingPhase := loadingPhase st;
     loadingProgress := loadingProgress st; error := error st; logs := logs st;
     dashboard := dashboard st; embedContainerRef := embedContainerRef st;
     documentIframes := v; powerBiReport := powerBiReport st;
     powerBiService := powerBiService st; currentSessionId := currentSessionId st;
     currentReportId := currentReportId st; isMounted := isMounted st;
     tokenCache := tokenCache st; attemptCounter := attemptCounter st;
     workspaceClean := workspaceClean st; environmentChecks := environmentChecks st;
     timerRef := timerRef st; sessions := sessions st; jobs := jobs st;
     uuidCounter := uuidCounter st; serviceCounter := serviceCounter st;
     notifications := notifications st; embedCalls := embedCalls st;
     fetchCalls := fetchCalls st |}.
Definition set_powerBiReport (v : option nat) (st : State) : State :=
  {| isLoading := isLoading st; isReady := isReady st; loadingPhase := loadingPhase st;
     loadingProgress := loadingProgress st; error := error st; logs := logs st;
     dashboard := dashboard st; embedContainerRef := embedContainerRef st;
     documentIframes := documentIframes st; powerBiReport := v;
     powerBiService := powerBiService st; currentSessionId := currentSessionId st;
     currentReportId := currentReportId st; isMounted := isMounted st;
     tokenCache := tokenCache st; attemptCounter := attemptCounter st;
     workspaceClean := workspaceClean st; environmentChecks := environmentChecks st;
     timerRef := timerRef st; sessions := sessions st; jobs := jobs st;
     uuidCounter := uuidCounter st; serviceCounter := serviceCounter st;
     notifications := notifications st; embedCalls := embedCalls st;
     fetchCalls := fetchCalls st |}.
Definition set_powerBiService (v : option nat) (st : State) : State :=
  {| isLoading := isLoading st; isReady := isReady st; loadingPhase := loadingPhase st;
     loadingProgress := loadingProgress st; error := error st; logs := logs st;
     dashboard := dashboard st; embedContainerRef := embedContainerRef st;
     documentIframes := documentIframes st; powerBiReport := powerBiReport st;
     powerBiService := v; currentSessionId := currentSessionId st;
     currentReportId := currentReportId st; isMounted := isMounted st;
     tokenCache := tokenCache st; attemptCounter := attemptCounter st;
     workspaceClean := workspaceClean st; environmentChecks := environmentChecks st;
     timerRef := timerRef st; sessions := sessions st; jobs := jobs st;
     uuidCounter := uuidCounter st; serviceCounter := serviceCounter st;
     notifications := notifications st; embedCalls := embedCalls st;
     fetchCalls := fetchCalls st |}.
Definition set_currentSessionId (v : nat) (st : State) : State :=
  {| isLoading := isLoading st; isReady := isReady st; loadingPhase := loadingPhase st;
     loadingProgress := loadingProgress st; error := error st; logs := logs st;
     dashboard := dashboard st; embedContainerRef := embedContainerRef st;
     documentIframes := documentIframes st; powerBiReport := powerBiReport st;
     powerBiService := powerBiService st; currentSessionId := v;
     currentReportId := currentReportId st; isMounted := isMounted st;
     tokenCache := tokenCache st; attemptCounter := attemptCounter st;
     workspaceClean := workspaceClean st; environmentChecks := environmentChecks st;
     timerRef := timerRef st; sessions := sessions st; jobs := jobs st;
     uuidCounter := uuidCounter st; serviceCounter := serviceCounter st;
     notifications := notifications st; embedCalls := embedCalls st;
     fetchCalls := fetchCalls st |}.
Definition set_currentReportId (v : string) (st : State) : State :=
  {| isLoading := isLoading st; isReady := isReady st; loadingPhase := loadingPhase st;
     loadingProgress := loadingProgress st; error := error st; logs := logs st;
     dashboard := dashboard st; embedContainerRef := embedContainerRef st;
     documentIframes := documentIframes st; powerBiReport := powerBiReport st;
     powerBiService := powerBiService st; currentSessionId := currentSessionId st;
     currentReportId := v; isMounted := isMounted st; tokenCache := tokenCache st;
     attemptCounter := attemptCounter st; workspaceClean := workspaceClean st;
     environmentChecks := environmentChecks st; timerRef := timerRef st;
     sessions := sessions st; jobs := jobs st; uuidCounter := uuidCounter st;
     serviceCounter := serviceCounter st; notifications := notifications st;
     embedCalls := embedCalls st; fetchCalls := fetchCalls st |}.
Definition set_isMounted (v : bool) (st : State) : State :=
  {| isLoading := isLoading st; isReady := isReady st; loadingPhase := loadingPhase st;
     loadingProgress := loadingProgress st; error := error st; logs := logs st;
     dashboard := dashboard st; embedContainerRef := embedContainerRef st;
     documentIframes := documentIframes st; powerBiReport := powerBiReport st;
     powerBiService := powerBiService st; currentSessionId := currentSessionId st;
     currentReportId := currentReportId st; isMounted := v; tokenCache := tokenCache st;
     attemptCounter := attemptCounter st; workspaceClean := workspaceClean st;
     environmentChecks := environmentChecks st; timerRef := timerRef st;
     sessions := sessions st; jobs := jobs st; uuidCounter := uuidCounter st;
     serviceCounter := serviceCounter st; notifications := notifications st;
     embedCalls := embedCalls st; fetchCalls := fetchCalls st |}.
Definition set_tokenCache (v : gmap string CacheEntry) (st : State) : State :=
  {| isLoading := isLoading st; isReady := isReady st; loadingPhase := loadingPhase st;
     loadingProgress := loadingProgress st; error := error st; logs := logs st;
     dashboard := dashboard st; embedContainerRef := embedContainerRef st;
     documentIframes := documentIframes st; powerBiReport := powerBiReport st;
     powerBiService := powerBiService st; currentSessionId := currentSessionId st;
     currentReportId := currentReportId st; isMounted := isMounted st; tokenCache := v;
     attemptCounter := attemptCounter st; workspaceClean := workspaceClean st;
     environmentChecks := environmentChecks st; timerRef := timerRef st;
     sessions := sessions st; jobs := jobs st; uuidCounter := uuidCounter st;
     serviceCounter := serviceCounter st; notifications := notifications st;
     embedCalls := embedCalls st; fetchCalls := fetchCalls st |}.
Definition set_attemptCounter (v : Z) (st : State) : State :=
  {| isLoading := isLoading st; isReady := isReady st; loadingPhase := loadingPhase st;
     loadingProgress := loadingProgress st; error := error st; logs := logs st;
     dashboard := dashboard st; embedContainerRef := embedContainerRef st;
     documentIframes := documentIframes st; powerBiReport := powerBiReport st;
     powerBiService := powerBiService st; currentSessionId := currentSessionId st;
     currentReportId := currentReportId st; isMounted := isMounted st;
     tokenCache := tokenCache st; attemptCounter := v; workspaceClean := workspaceClean st;
     environmentChecks := environmentChecks st; timerRef := timerRef st;
     sessions := sessions st; jobs := jobs st; uuidCounter := uuidCounter st;
     serviceCounter := serviceCounter st; notifications := notifications st;
     embedCalls := embedCalls st; fetchCalls := fetchCalls st |}.
Definition set_workspaceClean (v : bool) (st : State) : State :=
  {| isLoading := isLoading st; isReady := isReady st; loadingPhase := loadingPhase st;
     loadingProgress := loadingProgress st; error := error st; logs := logs st;
     dashboard := dashboard st; embedContainerRef := embedContainerRef st;
     documentIframes := documentIframes st; powerBiReport := powerBiReport st;
     powerBiService := powerBiService st; currentSessionId := currentSessionId st;
     currentReportId := currentReportId st; isMounted := isMounted st;
     tokenCache := tokenCache st; attemptCounter := attemptCounter st; workspaceClean := v;
     environmentChecks := environmentChecks st; timerRef := timerRef st;
     sessions := sessions st; jobs := jobs st; uuidCounter := uuidCounter st;
     serviceCounter := serviceCounter st; notifications := notifications st;
     embedCalls := embedCalls st; fetchCalls := fetchCalls st |}.
Definition set_environmentChecks (v : EnvironmentChecks) (st : State) : State :=
  {| isLoading := isLoading st; isReady := isReady st; loadingPhase := loadingPhase st;
     loadingProgress := loadingProgress st; error := error st; logs := logs st;
     dashboard := dashboard st; embedContainerRef := embedContainerRef st;
     documentIframes := documentIframes st; powerBiReport := powerBiReport st;
     powerBiService := powerBiService st; currentSessionId := currentSessionId st;
     currentReportId := currentReportId st; isMounted := isMounted st;
     tokenCache := tokenCache st; attemptCounter := attemptCounter st;
     workspaceClean := workspaceClean st; environmentChecks := v; timerRef := timerRef st;
     sessions := sessions st; jobs := jobs st; uuidCounter := uuidCounter st;
     serviceCounter := serviceCounter st; notifications := notifications st;
     embedCalls := embedCalls st; fetchCalls := fetchCalls st |}.
Definition set_timerRef (v : gmap string Z) (st : State) : State :=
  {| isLoading := isLoading st; isReady := isReady st; loadingPhase := loadingPhase st;
     loadingProgress := loadingProgress st; error := error st; logs := logs st;
     dashboard := dashboard st; embedContainerRef := embedContainerRef st;
     documentIframes := documentIframes st; powerBiReport := powerBiReport st;
     powerBiService := powerBiService st; currentSessionId := currentSessionId st;
     currentReportId := currentReportId st; isMounted := isMounted st;
     tokenCache := tokenCache st; attemptCounter := attemptCounter st;
     workspaceClean := workspaceClean st; environmentChecks := environmentChecks st;
     timerRef := v; sessions := sessions st; jobs := jobs st; uuidCounter := uuidCounter st;
     serviceCounter := serviceCounter st; notifications := notifications st;
     embedCalls := embedCalls st; fetchCalls := fetchCalls st |}.
Definition set_sessions (v : gmap nat Session) (st : State) : State :=
  {| isLoading := isLoading st; isReady := isReady st; loadingPhase := loadingPhase st;
     loadingProgress := loadingProgress st; error := error st; logs := logs st;
     dashboard := dashboard st; embedContainerRef := embedContainerRef st;
     documentIframes := documentIframes st; powerBiReport := powerBiReport st;
     powerBiService := powerBiService st; currentSessionId := currentSessionId st;
     currentReportId := currentReportId st; isMounted := isMounted st;
     tokenCache := tokenCache st; attemptCounter := attemptCounter st;
     workspaceClean := workspaceClean st; environmentChecks := environmentChecks st;
     timerRef := timerRef st; sessions := v; jobs := jobs st; uuidCounter := uuidCounter st;
     serviceCounter := serviceCounter st; notifications := notifications st;
     embedCalls := embedCalls st; fetchCalls := fetchCalls st |}.
Definition set_jobs (v : list Job) (st : State) : State :=
  {| isLoading := isLoading st; isReady := isReady st; loadingPhase := loadingPhase st;
     loadingProgress := loadingProgress st; error := error st; logs := logs st;
     dashboard := dashboard st; embedContainerRef := embedContainerRef st;
     documentIframes := documentIframes st; powerBiReport := powerBiReport st;
     powerBiService := powerBiService st; currentSessionId := currentSessionId st;
     currentReportId := currentReportId st; isMounted := isMounted st;
     tokenCache := tokenCache st; attemptCounter := attemptCounter st;
     workspaceClean := workspaceClean st; environmentChecks := environmentChecks st;
     timerRef := timerRef st; sessions := sessions st; jobs := v;
     uuidCounter := uuidCounter st; serviceCounter := serviceCounter st;
     notifications := notifications st; embedCalls := embedCalls st;
     fetchCalls := fetchCalls st |}.
Definition set_uuidCounter (v : nat) (st : State) : State :=
  {| isLoading := isLoading st; isReady := isReady st; loadingPhase := loadingPhase st;
     loadingProgress := loadingProgress st; error := error st; logs := logs st;
     dashboard := dashboard st; embedContainerRef := embedContainerRef st;
     documentIframes := documentIframes st; powerBiReport := powerBiReport st;
     powerBiService := powerBiService st; currentSessionId := currentSessionId st;
     currentReportId := currentReportId st; isMounted := isMounted st;
     tokenCache := tokenCache st; attemptCounter := attemptCounter st;
     workspaceClean := workspaceClean st; environmentChecks := environmentChecks st;
     timerRef := timerRef st; sessions := sessions st; jobs := jobs st; uuidCounter := v;
     serviceCounter := serviceCounter st; notifications := notifications st;
     embedCalls := embedCalls st; fetchCalls := fetchCalls st |}.
Definition set_serviceCounter (v : nat) (st : State) : State :=
  {| isLoading := isLoading st; isReady := isReady st; loadingPhase := loadingPhase st;
     loadingProgress := loadingProgress st; error := error st; logs := logs st;
     dashboard := dashboard st; embedContainerRef := embedContainerRef st;
     documentIframes := documentIframes st; powerBiReport := powerBiReport st;
     powerBiService := powerBiService st; currentSessionId := currentSessionId st;
     currentReportId := currentReportId st; isMounted := isMounted st;
     tokenCache := tokenCache st; attemptCounter := attemptCounter st;
     workspaceClean := workspaceClean st; environmentChecks := environmentChecks st;
     timerRef := timerRef st; sessions := sessions st; jobs := jobs st;
     uuidCounter := uuidCounter st; serviceCounter := v; notifications := notifications st;
     embedCalls := embedCalls st; fetchCalls := fetchCalls st |}.
Definition set_notifications (v : list (nat * Notification)) (st : State) : State :=
  {| isLoading := isLoading st; isReady := isReady st; loadingPhase := loadingPhase st;
     loadingProgress := loadingProgress st; error := error st; logs := logs st;
     dashboard := dashboard st; embedContainerRef := embedContainerRef st;
     documentIframes := documentIframes st; powerBiReport := powerBiReport st;
     powerBiService := powerBiService st; currentSessionId := currentSessionId st;
     currentReportId := currentReportId st; isMounted := isMounted st;
     tokenCache := tokenCache st; attemptCounter := attemptCounter st;
     workspaceClean := workspaceClean st; environmentChecks := environmentChecks st;
     timerRef := timerRef st; sessions := sessions st; jobs := jobs st;
     uuidCounter := uuidCounter st; serviceCounter := serviceCounter st; notifications := v;
     embedCalls := embedCalls st; fetchCalls := fetchCalls st |}.
Definition set_embedCalls (v : list nat) (st : State) : State :=
  {| isLoading := isLoading st; isReady := isReady st; loadingPhase := loadingPhase st;
     loadingProgress := loadingProgress st; error := error st; logs := logs st;
     dashboard := dashboard st; embedContainerRef := embedContainerRef st;
     documentIframes := documentIframes st; powerBiReport := powerBiReport st;
     powerBiService := powerBiService st; currentSessionId := currentSessionId st;
     currentReportId := currentReportId st; isMounted := isMounted st;
     tokenCache := tokenCache st; attemptCounter := attemptCounter st;
     workspaceClean := workspaceClean st; environmentChecks := environmentChecks st;
     timerRef := timerRef st; sessions := sessions st; jobs := jobs st;
     uuidCounter := uuidCounter st; serviceCounter := serviceCounter st;
     notifications := notifications st; embedCalls := v; fetchCalls := fetchCalls st |}.
Definition set_fetchCalls (v : list string) (st : State) : State :=
  {| isLoading := isLoading st; isReady := isReady st; loadingPhase := loadingPhase st;
     loadingProgress := loadingProgress st; error := error st; logs := logs st;
     dashboard := dashboard st; embedContainerRef := embedContainerRef st;
     documentIframes := documentIframes st; powerBiReport := powerBiReport st;
     powerBiService := powerBiService st; currentSessionId := currentSessionId st;
     currentReportId := currentReportId st; isMounted := isMounted st;
     tokenCache := tokenCache st; attemptCounter := attemptCounter st;
     workspaceClean := workspaceClean st; environmentChecks := environmentChecks st;
     timerRef := timerRef st; sessions := sessions st; jobs := jobs st;
     uuidCounter := uuidCounter st; serviceCounter := serviceCounter st;
     notifications := notifications st; embedCalls := embedCalls st; fetchCalls := v |}.

Definition set_check_iframeClean (b : bool) (c : EnvironmentChecks) : EnvironmentChecks :=
  {| iframeClean := b; domStable := domStable c; serviceReady := serviceReady c;
     tokenValid := tokenValid c; urlValidated := urlValidated c |}.
Definition set_check_domStable (b : bool) (c : EnvironmentChecks) : EnvironmentChecks :=
  {| iframeClean := iframeClean c; domStable := b; serviceReady := serviceReady c;
     tokenValid := tokenValid c; urlValidated := urlValidated c |}.
Definition set_check_serviceReady (b : bool) (c : EnvironmentChecks) : EnvironmentChecks :=
  {| iframeClean := iframeClean c; domStable := domStable c; serviceReady := b;
     tokenValid := tokenValid c; urlValidated := urlValidated c |}.
Definition set_check_tokenValid (b : bool) (c : EnvironmentChecks) : EnvironmentChecks :=
  {| iframeClean := iframeClean c; domStable := domStable c; serviceReady := serviceReady c;
     tokenValid := b; urlValidated := urlValidated c |}.
Definition set_check_urlValidated (b : bool) (c : EnvironmentChecks) : EnvironmentChecks :=
  {| iframeClean := iframeClean c; domStable := domStable c; serviceReady := serviceReady c;
     tokenValid := tokenValid c; urlValidated := b |}.

(** [prev.slice(-n)] *)
Definition slice_last {A} (n : nat) (l : list A) : list A := drop (length l - n) l.

(** The update of the log state: the sink keeps the last hundred entries. *)
Definition push_log (entry : LogEntry) (prev : list LogEntry) : list LogEntry :=
  let newLogs := prev ++ [entry] in
  if (100 <? length newLogs)%nat then slice_last 100 newLogs else newLogs.

(** logger *)
Definition logger (env : Env) (message : string) (type : LogType) (st : State) : State :=
  let entry := {| message := message; type := type; timestamp := now env |} in
  set_logs (push_log entry (logs st)) st.

Definition startTimer (env : Env) (label : string) (st : State) : State :=
  let st := set_timerRef (<[label := now env]> (timerRef st)) st in
  logger env ("Timer iniciado: " +:+ label) LDebug st.

(** endTimer returns the duration; a label that is absent (or started at
    0, which is falsy) yields 0 and no log entry.  Durations are whole
    milliseconds here, so [toFixed(2)] prints [".00"]. *)
Definition endTimer (env : Env) (label : string) (st : State) : Z * State :=
  match timerRef st !! label with
  | Some t =>
      if t =? 0 then (0, st)
      else
        let duration := now env - t in
        let st := logger env (label +:+ ": " +:+ pretty duration +:+ ".00ms") LDebug st in
        (duration, set_timerRef (delete label (timerRef st)) st)
  | None => (0, st)
  end.

(** The call of a terminal notification by the invocation with session
    token [s]. *)
Definition notify (s : nat) (n : Notification) (st : State) : State :=
  set_notifications (notifications st ++ [(s, n)]) st.

(** [environmentChecks.current.flag = b] *)
Definition check (f : EnvironmentChecks -> EnvironmentChecks) (st : State) : State :=
  set_environmentChecks (f (environmentChecks st)) st.

Definition set_pc (s : nat) (pc : Pc) (st : State) : State :=
  match sessions st !! s with
  | Some ses => set_sessions (<[s := {| s_dashboard := s_dashboard ses; s_pc := pc |}]> (sessions st)) st
  | None => st
  end.

Definition closure_of (s : nat) (st : State) : option Closure :=
  match sessions st !! s with
  | Some {| s_pc := PcAttached c |} => Some c
  | _ => None
  end.

Definition add_job (j : Job) (st : State) : State := set_jobs (jobs st ++ [j]) st.

(** [document.querySelectorAll('iframe[src*="powerbi"]')] *)
Definition powerbi_iframes (st : State) : list Node :=
  filter (fun n => is_powerbi_iframe n = true)
         (from_option children [] (embedContainerRef st) ++ documentIframes st).

(** [iframe.remove()] on each of them *)
Definition remove_powerbi_iframes (st : State) : State :=
  set_documentIframes
    (filter (fun n => is_powerbi_iframe n = false) (documentIframes st))
    (set_embedContainerRef
       ((fun e => setChildren (filter (fun n => is_powerbi_iframe n = false) (children e)) e)
          <$> embedContainerRef st) st).

Definition set_isResolved (b : bool) (c : Closure) : Closure :=
  {| isResolved := b; listensLoaded := listensLoaded c; listensRendered := listensRendered c;
     listensError := listensError c; timeoutDue := timeoutDue c |}.
Definition set_listensLoaded (b : bool) (c : Closure) : Closure :=
  {| isResolved := isResolved c; listensLoaded := b; listensRendered := listensRendered c;
     listensError := listensError c; timeoutDue := timeoutDue c |}.
Definition set_listensRendered (b : bool) (c : Closure) : Closure :=
  {| isResolved := isResolved c; listensLoaded := listensLoaded c; listensRendered := b;
     listensError := listensError c; timeoutDue := timeoutDue c |}.
Definition set_listensError (b : bool) (c : Closure) : Closure :=
  {| isResolved := isResolved c; listensLoaded := listensLoaded c;
     listensRendered := listensRendered c; listensError := b; timeoutDue := timeoutDue c |}.
Definition set_timeoutDue (d : option Z) (c : Closure) : Closure :=
  {| isResolved := isResolved c; listensLoaded := listensLoaded c;
     listensRendered := listensRendered c; listensError := listensError c; timeoutDue := d |}.

(** The three [off] calls on a report handle, of which one may throw;
    the result says whether one did. *)
Definition detach (throws_at : option nat) (c : Closure) : Closure * bool :=
  match throws_at with
  | Some 0%nat => (c, true)
  | Some 1%nat => (set_listensLoaded false c, true)
  | Some 2%nat => (set_listensRendered false (set_listensLoaded false c), true)
  | _ => (set_listensError false (set_listensRendered false (set_listensLoaded false c)), false)
  end.

(** [off] on the handle of session [r]; the result says whether it threw. *)
Definition detach_report (env : Env) (r : nat) (st : State) : State * bool :=
  match closure_of r st with
  | Some c => (set_pc r (PcAttached (detach (off_throws_at env) c).1) st,
               (detach (off_throws_at env) c).2)
  | None => (st, false)
  end.

(** *** performHygiene *)

(** verifyDomSanity *)
Definition verifyDomSanity (env : Env) (st : State) : bool * State :=
  match embedContainerRef st with
  | None => (false, check (set_check_domStable false) st)
  | Some e =>
      let n := length (powerbi_iframes st) in
      let m := length (filter (fun n => is_iframe n = true) (children e)) in
      (domStable (environmentChecks st) && (n =? 0)%nat,
       logger env ("Verificação de sanidade DOM: " +:+ pretty n
                   +:+ " iframes PowerBI no documento, " +:+ pretty m +:+ " no container")
              (if (n =? 0)%nat then LInfo else LWarn)
              (check (set_check_iframeClean (n =? 0)%nat) st))
  end.

(** The attributes performHygiene removes from the container. *)
Definition widget_attributes : list string :=
  ["powerbi-embed-url"; "powerbi-type"; "powerbi-id"].

(** The settle delay of performHygiene (step 6). *)
Definition settle_delay (deep : bool) : Z := if deep then 750 else 200.

(** Step 1: the handlers of the report held are revoked. *)
Definition revoke_report (env : Env) (st : State) : State :=
  match powerBiReport st with
  | Some r =>
      let '(st, threw) := detach_report env r st in
      set_powerBiReport None
        (if threw then st else logger env "Eventos do relatório desconectados" LSuccess st)
  | None => st
  end.

(** Step 2: the service is reset on the container. *)
Definition reset_service (env : Env) (st : State) : State :=
  match powerBiService st with
  | Some _ =>
      match embedContainerRef st with
      | Some e =>
          match sdk_reset env e with
          | Returns e' =>
              logger env "Serviço PowerBI resetado com sucesso" LSuccess
                     (set_embedContainerRef (Some e') st)
          | Throws e' =>
              logger env "Aviso ao resetar serviço (pode ser normal)" LWarn
                     (set_embedContainerRef (Some e') st)
          end
      | None => logger env "Aviso ao resetar serviço (pode ser normal)" LWarn st
      end
  | None => st
  end.

(** Step 3: a new service instance, always on a deep cleanup. *)
Definition renew_service (env : Env) (deep : bool) (st : State) : State :=
  if deep || negb (bool_decide (is_Some (powerBiService st))) then
    check (set_check_serviceReady true)
          (set_serviceCounter (S (serviceCounter st))
             (set_powerBiService (Some (serviceCounter st))
                (logger env "Criando nova instância do PowerBI Service" LInfo st)))
  else st.

(** Step 4: the container is emptied and stripped, not replaced. *)
Definition prepare_container (env : Env) (st : State) : State :=
  match embedContainerRef st with
  | Some e =>
      let e := setChildren [] e in
      let e := setStyle "height" "100%" e in
      let e := setStyle "width" "100%" e in
      let e := foldl (fun e a => removeAttribute a e) e widget_attributes in
      logger env "Container preparado para novo embed" LSuccess (set_embedContainerRef (Some e) st)
  | None => st
  end.

(** performHygiene, steps 4 and 5, up to the settle wait. *)
Definition performHygiene_prepare (env : Env) (deep : bool) (st : State) : State * HygieneResult :=
  let '(isClean, st) := verifyDomSanity env (prepare_container env st) in
  (set_workspaceClean isClean st,
   HygAwait (AwaitSettle isClean (now env + settle_delay deep))).

(** Step 3 (second part): the residual frames, anywhere in the document. *)
Definition remove_residual_frames (env : Env) (deep : bool) (st : State) : State * HygieneResult :=
  let allIframes := powerbi_iframes st in
  if (0 <? length allIframes)%nat || deep then
    (remove_powerbi_iframes
       (logger env ("Removendo " +:+ pretty (length allIframes) +:+ " iframes PowerBI residuais")
               LWarn st),
     HygAwait (AwaitIframes (now env + 100)))
  else performHygiene_prepare env deep st.

(** performHygiene up to its first wait. *)
Definition performHygiene_begin (env : Env) (deep : bool) (st : State) : State * HygieneResult :=
  let st := startTimer env "hygiene" st in
  if negb (isMounted st) then (st, HygReturned None)
  else
    let st := set_workspaceClean false st in
    let st := logger env "Iniciando higienização do ambiente..." (if deep then LWarn else LInfo) st in
    let st := revoke_report env st in
    let st := reset_service env st in
    let st := renew_service env deep st in
    remove_residual_frames env deep st.

(** performHygiene resumed when the timer it waits for has fired. *)
Definition performHygiene_resume (env : Env) (deep : bool) (w : HygieneAwait) (st : State)
  : State * HygieneResult :=
  match w with
  | AwaitIframes _ => performHygiene_prepare env deep st
  | AwaitSettle isClean _ =>
      let '(_, st) := endTimer env "hygiene" st in (st, HygReturned (Some isClean))
  end.

Definition due_of (w : HygieneAwait) : Z :=
  match w with AwaitIframes due | AwaitSettle _ due => due end.

(** *** getEmbedToken *)

Definition cacheKey (d : Dashboard) : string := report_id d +:+ ":" +:+ dataset_id d.

(** The abort timer armed around [apiFetch]. *)
Definition token_timeout : Z := 15000.

(** The life of a cache entry: one hour, less five minutes. *)
Definition tokenExpiresIn : Z := 3600000.
Definition safetyMargin : Z := 300000.

(** [response.ok] *)
Definition response_ok (status : Z) : bool := (200 <=? status) && (status <=? 299).

(** What a call or a resumption of getEmbedToken comes to: it resolved
    (to [null] or to the credential) or it waits for the network. *)
Inductive TokenStep :=
| TokReturned (r : option TokenData)
| TokAwait (pc : Pc).

(** The resource requested from the backend collaborator. *)
Definition token_url (d : Dashboard) : string :=
  "/powerbi/embed-token/" +:+ report_id d +:+ "?datasetId=" +:+ dataset_id d.

(** The request: [apiFetch] with the abort timer armed. *)
Definition token_request (env : Env) (d : Dashboard) (st : State) : State * TokenStep :=
  (set_fetchCalls (fetchCalls st ++ [token_url d])
     (logger env "Solicitando novo token de acesso..." LInfo st),
   TokAwait (PcFetch (now env + token_timeout))).

(** The cached credential is served. *)
Definition token_from_cache (env : Env) (c : CacheEntry) (st : State) : State * TokenStep :=
  let '(_, st) := endTimer env "tokenRequest"
                    (logger env "Token encontrado em cache e ainda válido" LSuccess st) in
  (check (set_check_tokenValid true) st,
   TokReturned (Some {| td_token := token c; td_embedUrl := embedUrl c |})).

(** The cache lookup of getEmbedToken. *)
Definition getEmbedToken_lookup (env : Env) (d : Dashboard) (st : State) : State * TokenStep :=
  let cachedData := tokenCache st !! cacheKey d in
  let isNewDashboard := negb (String.eqb (currentReportId st) (report_id d)) in
  match cachedData with
  | Some c =>
      if negb isNewDashboard && (now env <? expires c) then token_from_cache env c st
      else if isNewDashboard then
        token_request env d
          (set_tokenCache (delete (cacheKey d) (tokenCache st))
             (logger env "Novo dashboard detectado, ignorando cache e buscando novo token"
                     LInfo st))
      else token_request env d st
  | None => token_request env d st
  end.

(** getEmbedToken up to [await apiFetch(...)]. *)
Definition getEmbedToken_begin (env : Env) (d : Dashboard) (st : State) : State * TokenStep :=
  let st := startTimer env "tokenRequest" st in
  if negb (isMounted st) then (st, TokReturned None)
  else getEmbedToken_lookup env d st.

(** The [catch] of getEmbedToken. *)
Definition getEmbedToken_catch (env : Env) (name message : string) (st : State)
  : State * TokenStep :=
  let '(_, st) :=
    endTimer env "tokenRequest"
      (if String.eqb name "AbortError"
       then logger env "Solicitação de token cancelada por timeout" LError st
       else logger env ("Erro ao obter token: " +:+ message) LError st) in
  (st, TokReturned None).

(** getEmbedToken resumed with the outcome of [apiFetch]. *)
Definition getEmbedToken_on_fetch (env : Env) (st : State) : State * TokenStep :=
  match fetch_outcome env with
  | FetchResponse status statusText =>
      if negb (response_ok status) then (st, TokAwait (PcBodyText status statusText))
      else (st, TokAwait PcBodyJson)
  | FetchRejected name message => getEmbedToken_catch env name message st
  end.

(** ... with the outcome of [response.text()] on a failed status. *)
Definition getEmbedToken_on_text (env : Env) (status : Z) (statusText : string) (st : State)
  : State * TokenStep :=
  match text_outcome env with
  | TextBody errorBody =>
      (logger env ("Detalhes do erro: " +:+ errorBody) LError
         (logger env ("Erro HTTP " +:+ pretty status +:+ " ao obter token: " +:+ statusText)
                 LError st),
       TokReturned None)
  | TextRejected name message => getEmbedToken_catch env name message st
  end.

(** The credential is stored with its expiry and returned. *)
Definition token_store (env : Env) (d : Dashboard) (tok url : string) (st : State)
  : State * TokenStep :=
  let entry := {| token := tok; embedUrl := url;
                  expires := now env + tokenExpiresIn - safetyMargin |} in
  let '(_, st) :=
    endTimer env "tokenRequest"
      (logger env ("Token obtido com sucesso (" +:+ Js.substring0 15 tok +:+ "...)") LSuccess
         (check (set_check_tokenValid true)
            (set_tokenCache (<[cacheKey d := entry]> (tokenCache st)) st))) in
  (st, TokReturned (Some {| td_token := tok; td_embedUrl := url |})).

(** ... with the outcome of [response.json()]. *)
Definition getEmbedToken_on_json (env : Env) (d : Dashboard) (st : State) : State * TokenStep :=
  match json_outcome env with
  | JsonData (Some tok) (Some url) =>
      if negb (Js.truthy tok) || negb (Js.truthy url) then
        (logger env "Token ou URL ausentes na resposta" LError st, TokReturned None)
      else token_store env d tok url st
  | JsonData _ _ => (logger env "Token ou URL ausentes na resposta" LError st, TokReturned None)
  | JsonRejected name message => getEmbedToken_catch env name message st
  end.

(** *** The render policy constants *)

Definition render_timeout : Z := 45000.

(** The attempt caps of the two automatic retries. *)
Definition error_retry_cap : Z := 3.
Definition timeout_retry_cap : Z := 2.

Section WithParser.
(** [new URL(...)], the platform's parser. *)
Variable newURL : string -> Js.Parsed.

(** *** validateEmbedUrl *)

(** One check of the progressive validation: an [if] that logs and
    clears [valid]. *)
Definition flag (env : Env) (ok : bool) (message : string) (vs : bool * State) : bool * State :=
  if ok then vs else (false, logger env message LError vs.2).

(** The [try] block: the report identifier of the locator. *)
Definition validate_reportId (env : Env) (d : Dashboard) (url : string) (vs : bool * State)
  : bool * State :=
  match newURL url with
  | Js.Ok urlObj =>
      let expectedId := report_id d in
      match Js.get "reportId" (Js.URLSearchParams (Js.search urlObj)) with
      | Some reportId =>
          if negb (Js.truthy reportId) then
            (false, logger env "URL inválida: reportId ausente" LError vs.2)
          else if negb (String.eqb reportId expectedId) then
            (false, logger env ("URL inválida: reportId " +:+ reportId
                                +:+ " não corresponde ao esperado " +:+ expectedId) LError vs.2)
          else (vs.1, logger env "reportId validado com sucesso" LSuccess vs.2)
      | None => (false, logger env "URL inválida: reportId ausente" LError vs.2)
      end
  | Js.Threw e => (false, logger env ("Erro ao analisar URL: " +:+ e) LError vs.2)
  end.

Definition validate_conclude (env : Env) (vs : bool * State) : bool * State :=
  let '(duration, st) := endTimer env "validateUrl" vs.2 in
  (vs.1,
   check (set_check_urlValidated vs.1)
         (logger env ("URL " +:+ (if vs.1 then "válida ✅" else "inválida ❌")
                      +:+ " (" +:+ pretty duration +:+ "ms)")
                 (if vs.1 then LSuccess else LError) st)).

Definition validateEmbedUrl (env : Env) (d : Dashboard) (url : string) (st : State)
  : bool * State :=
  let st := startTimer env "validateUrl" st in
  if negb (Js.truthy url) || (Js.strlen (Js.trim url) =? 0)%nat then
    (false, logger env "URL inválida: vazia ou não-string" LError st)
  else
    let vs := (true, st) in
    let vs := flag env (Js.startsWith "https://" url)
                   ("URL inválida: deve começar com https:// (encontrado: "
                    +:+ Js.substring0 10 url +:+ "...)") vs in
    (* /^https:\/\/app\.powerbi\.com\//i *)
    let vs := flag env (Js.startsWith "https://app.powerbi.com/" (Js.toLowerCase url))
                   "URL inválida: domínio deve ser app.powerbi.com" vs in
    let vs := flag env (Js.includes "/reportEmbed" url)
                   "URL inválida: deve conter /reportEmbed" vs in
    let vs := validate_reportId env d url vs in
    validate_conclude env vs.

(** *** embedReport *)

(** The outer [catch] of embedReport, in the invocation with token [s]. *)
Definition embed_catch (env : Env) (s : nat) (errorMsg : string) (st : State) : State :=
  let '(_, st) :=
    endTimer env "embedReport"
      (notify s (onError errorMsg)
         (set_isLoading false
            (set_error (Some errorMsg)
               (logger env ("Erro no processo de carregamento: " +:+ errorMsg) LError st)))) in
  set_pc s (PcDone false) st.

(** The [catch] around [service.embed] inside the timeout callback. *)
Definition embed_inner_catch (env : Env) (s : nat) (st : State) : State :=
  let errorMsg := sdk_message env in
  set_pc s (PcDone false)
    (notify s (onError errorMsg)
       (set_isLoading false
          (set_error (Some errorMsg)
             (logger env ("Erro ao executar embed: " +:+ errorMsg) LError st)))).

(** The closure a successful [service.embed] creates: unresolved, its
    three handlers registered and its render timeout armed. *)
Definition new_closure (env : Env) : Closure :=
  {| isResolved := false; listensLoaded := true; listensRendered := true;
     listensError := true; timeoutDue := Some (now env + render_timeout) |}.

(** [service.embed], the registration of the three handlers and the
    arming of the render timeout. *)
Definition embed_attach (env : Env) (s : nat) (td : TokenData) (st : State) : State :=
  match powerBiService st, embedContainerRef st with
  | Some _, Some e =>
      match sdk_embed env e with
      | Returns e' =>
          set_pc s (PcAttached (new_closure env))
            (set_powerBiReport (Some s)
               (set_embedContainerRef (Some e') (set_embedCalls (embedCalls st ++ [s]) st)))
      | Throws e' =>
          embed_inner_catch env s
            (set_embedContainerRef (Some e') (set_embedCalls (embedCalls st ++ [s]) st))
      end
  | Some _, None => embed_inner_catch env s (set_embedCalls (embedCalls st ++ [s]) st)
  | None, _ => embed_inner_catch env s st
  end.

(** The callback of [setTimeout(..., 100)] inside the promise. *)
Definition embed_tick (env : Env) (s : nat) (td : TokenData) (st : State) : State :=
  match embedContainerRef st, powerBiService st with
  | Some e, Some _ =>
      if negb (isMounted st) then set_pc s (PcDone false) st
      else
        match sdk_get env with
        | Some true =>
            match sdk_reset env e with
            | Returns e' =>
                set_pc s (PcResetWait td (now env + 100))
                  (set_embedContainerRef (Some e')
                     (logger env "Removendo embed existente encontrado no elemento" LWarn st))
            | Throws e' =>
                embed_attach env s td
                  (logger env "Nenhum embed existente detectado (normal)" LDebug
                     (set_embedContainerRef (Some e')
                        (logger env "Removendo embed existente encontrado no elemento" LWarn st)))
            end
        | Some false => embed_attach env s td st
        | None =>
            embed_attach env s td
              (logger env "Nenhum embed existente detectado (normal)" LDebug st)
        end
  | _, _ => set_pc s (PcDone false) st
  end.

(** Phase 5 of embedReport, once the session is known to be current. *)
Definition embed_render (env : Env) (s : nat) (td : TokenData) (st : State) : State :=
  match embedContainerRef st with
  | Some e =>
      let st' :=
        logger env "Executando embed do relatório..." LInfo
          (set_embedContainerRef (Some (setStyle "display" "block" e))
             (set_loadingPhase "rendering"
                (set_loadingProgress 70
                   (logger env "Configuração pronta para embed" LSuccess st)))) in
      match powerBiService st with
      | Some _ => set_pc s (PcEmbedTick td (now env + 100)) st'
      | None => set_pc s (PcDone false) st'
      end
  | None =>
      embed_catch env s (sdk_message env)
        (set_loadingPhase "rendering"
           (set_loadingProgress 70 (logger env "Configuração pronta para embed" LSuccess st)))
  end.

(** embedReport after the 200 ms stabilisation wait. *)
Definition embed_after_stabilize (env : Env) (s : nat) (td : TokenData) (st : State) : State :=
  if negb (isMounted st) || negb (s =? currentSessionId st)%nat then
    set_pc s (PcDone false)
           (logger env "Sessão cancelada durante espera de estabilização" LInfo st)
  else embed_render env s td st.

(** Phase 4 of embedReport. *)
Definition embed_configure (env : Env) (s : nat) (td : TokenData) (st : State) : State :=
  match embedContainerRef st, powerBiService st with
  | Some _, Some _ =>
      set_pc s (PcStabilize td (now env + 200))
             (set_loadingPhase "configuring" (set_loadingProgress 55 st))
  | _, _ =>
      embed_catch env s "Container ou serviço não disponível"
                  (set_loadingPhase "configuring" (set_loadingProgress 55 st))
  end.

(** Phase 3 of embedReport. *)
Definition embed_validate (env : Env) (s : nat) (d : Dashboard) (td : TokenData) (st : State)
  : State :=
  let '(isUrlValid, st) :=
    validateEmbedUrl env d (td_embedUrl td)
                     (set_loadingPhase "validating" (set_loadingProgress 40 st)) in
  if negb isUrlValid then embed_catch env s "URL de embed inválida" st
  else embed_configure env s td st.

(** The [throw] after a failed or superseded getEmbedToken. *)
Definition embed_auth_failed (env : Env) (s : nat) (st : State) : State :=
  embed_catch env s "Falha ao obter credenciais de acesso"
              (logger env "Sessão cancelada ou falha na autenticação" LError st).

(** embedReport after [await getEmbedToken()]. *)
Definition embed_after_token (env : Env) (s : nat) (d : Dashboard)
           (tokenData : option TokenData) (st : State) : State :=
  match tokenData with
  | None => embed_auth_failed env s st
  | Some td =>
      if negb (isMounted st) || negb (s =? currentSessionId st)%nat then embed_auth_failed env s st
      else embed_validate env s d td st
  end.

Definition embed_token_step (env : Env) (s : nat) (d : Dashboard) (t : TokenStep) (st : State)
  : State :=
  match t with
  | TokAwait pc => set_pc s pc st
  | TokReturned r => embed_after_token env s d r st
  end.

(** embedReport after [await performHygiene(...)]. *)
Definition embed_after_hygiene (env : Env) (s : nat) (d : Dashboard) (st : State) : State :=
  if negb (isMounted st) || negb (s =? currentSessionId st)%nat then
    set_pc s (PcDone false) (logger env "Sessão cancelada após limpeza" LInfo st)
  else
    let '(st, t) :=
      getEmbedToken_begin env d (set_loadingPhase "authenticating" (set_loadingProgress 25 st)) in
    embed_token_step env s d t st.

Definition embed_hygiene_step (env : Env) (s : nat) (d : Dashboard) (deep : bool)
           (r : HygieneResult) (st : State) : State :=
  match r with
  | HygAwait w => set_pc s (PcHygiene deep w) st
  | HygReturned _ => embed_after_hygiene env s d st
  end.

(** The new session token ([crypto.randomUUID()]) and the record of the
    invocation that owns it. *)
Definition new_session (d : Dashboard) (st : State) : State :=
  set_currentReportId (report_id d)
    (set_sessions (<[uuidCounter st := {| s_dashboard := d; s_pc := PcStart |}]> (sessions st))
       (set_currentSessionId (uuidCounter st) (set_uuidCounter (S (uuidCounter st)) st))).

(** embedReport once past its guards, up to [await performHygiene]. *)
Definition embed_start (env : Env) (d : Dashboard) (st : State) : State * option nat :=
  let s := uuidCounter st in
  let attempt := attemptCounter st + 1 in
  let needsDeepClean := negb (workspaceClean st) || (1 <? attempt) in
  let '(st, r) :=
    performHygiene_begin env needsDeepClean
      (set_loadingProgress 10
         (set_loadingPhase "preparing"
            (new_session d
               (logger env ("Iniciando carregamento do dashboard (tentativa "
                            +:+ pretty attempt +:+ ")") LInfo
                  (set_attemptCounter attempt
                     (set_error None (set_isReady false (set_isLoading true st)))))))) in
  (embed_hygiene_step env s d needsDeepClean r st, Some s).

(** embedReport(force), called with the [dashboard] of the render that
    created the callback, up to its first wait.  The result is the
    session token of the invocation, or [None] when it returned [false]
    before starting one. *)
Definition embedReport (env : Env) (force : bool) (d : Dashboard) (st : State)
  : State * option nat :=
  let st := startTimer env "embedReport" st in
  if negb (isMounted st) then (st, None)
  else if isLoading st && negb force then
    (logger env "Carregamento já em andamento, ignorando solicitação" LInfo st, None)
  else embed_start env d st.

(** *** Continuations outside embedReport *)

Definition kont_run (env : Env) (k : Kont) (st : State) : State :=
  match k with
  | KErrRetry s => add_job (JErrRetryWait s (now env + 1000)) st
  | KReload d => add_job (JReloadTimer d (now env + 500)) st
  | KNone => st
  end.

Definition job_hygiene_step (env : Env) (deep : bool) (k : Kont) (r : HygieneResult) (st : State)
  : State :=
  match r with
  | HygAwait w => add_job (JHygiene deep w k) st
  | HygReturned _ => kont_run env k st
  end.

(** [performHygiene(deep)] followed by [k]. *)
Definition hygiene_then (env : Env) (deep : bool) (k : Kont) (st : State) : State :=
  let '(st, r) := performHygiene_begin env deep st in job_hygiene_step env deep k r st.

(** [isResolved = true] in the closure of [s]. *)
Definition mark_resolved (s : nat) (st : State) : State :=
  match closure_of s st with
  | Some c => set_pc s (PcAttached (set_isResolved true c)) st
  | None => st
  end.

(** The render timeout of the closure of [s] has fired, once. *)
Definition clear_timeout_due (s : nat) (st : State) : State :=
  match closure_of s st with
  | Some c => set_pc s (PcAttached (set_timeoutDue None c)) st
  | None => st
  end.

(** *** The widget handlers of the closure of session [s] *)

Definition handleLoaded (env : Env) (st : State) : State :=
  set_loadingPhase "finalizing"
    (set_loadingProgress 85
       (logger env "Relatório carregado, aguardando renderização completa..." LSuccess st)).

(** handleRendered past its guard. *)
Definition rendered (env : Env) (s : nat) (renderTime : Z) (st : State) : State :=
  notify s onSuccess
    (set_attemptCounter 0
       (set_error None
          (set_isReady true
             (set_isLoading false
                (set_loadingProgress 100
                   (logger env ("Dashboard renderizado com sucesso (" +:+ pretty renderTime
                                +:+ "ms) ✨") LSuccess
                      (mark_resolved s st))))))).

Definition handleRendered (env : Env) (s : nat) (c : Closure) (st : State) : State :=
  let '(renderTime, st) := endTimer env "embedReport" st in
  if isResolved c || negb (isMounted st) then st
  else rendered env s renderTime st.

(** The substrings by which handleError recognises an embed/URL error. *)
Definition isUrlError (errorMsg : string) : bool :=
  Js.includes "Invalid embed URL" errorMsg || Js.includes "embed" errorMsg
  || Js.includes "URL" errorMsg.

Definition error_message (detail_message : option string) : string :=
  match detail_message with
  | Some m => if Js.truthy m then m else "Erro desconhecido"
  | None => "Erro desconhecido"
  end.

(** The failure is surfaced: the closure resolves and the host is told. *)
Definition surface_error (s : nat) (errorMsg : string) (st : State) : State :=
  notify s (onError errorMsg)
    (set_isLoading false (set_error (Some errorMsg) (mark_resolved s st))).

(** handleError past its guard. *)
Definition errored (env : Env) (s : nat) (errorMsg : string) (st : State) : State :=
  if isUrlError errorMsg && (attemptCounter st <=? error_retry_cap) then
    hygiene_then env true (KErrRetry s)
      (logger env ("Tentativa " +:+ pretty (attemptCounter st)
                   +:+ "/3: Erro de URL detectado, tentando novamente automaticamente...")
              LWarn st)
  else surface_error s errorMsg st.

Definition handleError (env : Env) (s : nat) (c : Closure) (detail_message : option string)
           (st : State) : State :=
  let errorMsg := error_message detail_message in
  let st := logger env ("Erro na renderização: " +:+ errorMsg) LError st in
  if isResolved c || negb (isMounted st) then st
  else errored env s errorMsg st.

(** The render timeout past its guard. *)
Definition timed_out (env : Env) (s : nat) (d : Dashboard) (st : State) : State :=
  if attemptCounter st <=? timeout_retry_cap then
    hygiene_then env true (KReload d)
      (logger env "Timeout na primeira tentativa, tentando novamente..." LWarn
         (logger env "Timeout ao aguardar renderização do relatório" LError
            (mark_resolved s st)))
  else
    notify s (onError "Timeout ao carregar dashboard")
      (set_isLoading false
         (set_error (Some "Timeout ao carregar dashboard")
            (logger env "Timeout ao aguardar renderização do relatório" LError
               (mark_resolved s st)))).

(** The callback of the render timeout armed by the closure of [s]. *)
Definition handleTimeout (env : Env) (s : nat) (d : Dashboard) (c : Closure) (st : State)
  : State :=
  if negb (isResolved c) && isMounted st then timed_out env s d (clear_timeout_due s st)
  else clear_timeout_due s st.

(** *** The effects *)

(** The body of the effect that detects a change of dashboard. *)
Definition dashboard_changed (env : Env) (d : Dashboard) (st : State) : State :=
  let oldCacheKey := currentReportId st +:+ ":" +:+ dataset_id d in
  hygiene_then env true (KReload d)
    (set_error None
       (set_isReady false
          (set_tokenCache (delete oldCacheKey (tokenCache st))
             (set_attemptCounter 0
                (logger env ("Dashboard alterado: " +:+ title d) LInfo st))))).

(** A render with the props [d], and the effect on [dashboard.report_id]. *)
Definition dashboard_effect (env : Env) (d : Dashboard) (st : State) : State :=
  if negb (String.eqb (currentReportId st) (report_id d))
  then dashboard_changed env d (set_dashboard d st)
  else set_dashboard d st.

(** The cleanup of the mount effect. *)
Definition unmount (env : Env) (st : State) : State :=
  remove_powerbi_iframes
    (match powerBiReport st with
     | Some r => (detach_report env r (set_isMounted false st)).1
     | None => set_isMounted false st
     end).

(** *** The event loop *)

Inductive Event :=
| Render (d : Dashboard)       (* the host renders the viewer with these props *)
| ClickStart                   (* handleStartLoading: embedReport() *)
| ClickReload                  (* handleRetry, "Recarregar Dashboard": embedReport(true) *)
| ClickForceClean              (* "Limpeza Forçada": performHygiene(true) *)
| Unmount
| ResumeSession (s : nat)      (* what the invocation s awaits has settled *)
| RenderTimeout (s : nat)      (* the render timeout of the closure of s *)
| Widget (s : nat) (sig : Signal)  (* the report embedded by s emits a signal *)
| ResumeJob (i : nat).         (* the timer of the i-th other continuation *)

(** The only abort is the one of the 15 s timer: an [AbortError] cannot
    arrive before it fires. *)
Definition fetch_settled (env : Env) (abortDue : Z) : bool :=
  match fetch_outcome env with
  | FetchRejected name _ => negb (String.eqb name "AbortError" && (now env <? abortDue))
  | FetchResponse _ _ => true
  end.

Definition resume_session (env : Env) (s : nat) (d : Dashboard) (pc : Pc) (st : State) : State :=
  match pc with
  | PcHygiene deep w =>
      if due_of w <=? now env then
        let '(st, r) := performHygiene_resume env deep w st in
        embed_hygiene_step env s d deep r st
      else st
  | PcFetch abortDue =>
      if fetch_settled env abortDue then
        let '(st, t) := getEmbedToken_on_fetch env st in embed_token_step env s d t st
      else st
  | PcBodyText status statusText =>
      let '(st, t) := getEmbedToken_on_text env status statusText st in
      embed_token_step env s d t st
  | PcBodyJson =>
      let '(st, t) := getEmbedToken_on_json env d st in embed_token_step env s d t st
  | PcStabilize td due => if due <=? now env then embed_after_stabilize env s td st else st
  | PcEmbedTick td due => if due <=? now env then embed_tick env s td st else st
  | PcResetWait td due => if due <=? now env then embed_attach env s td st else st
  | PcStart | PcAttached _ | PcDone _ => st
  end.

Definition run_job (env : Env) (j : Job) (st : State) : State :=
  match j with
  | JHygiene deep w k =>
      let '(st, r) := performHygiene_resume env deep w st in job_hygiene_step env deep k r st
  | JErrRetryWait s _ =>
      if isMounted st && (s =? currentSessionId st)%nat then
        match sessions st !! s with
        | Some ses => (embedReport env true (s_dashboard ses) st).1
        | None => st
        end
      else st
  | JReloadTimer d _ => if isMounted st then (embedReport env true d st).1 else st
  end.

Definition job_due (j : Job) : Z :=
  match j with
  | JHygiene _ w _ => due_of w
  | JErrRetryWait _ due | JReloadTimer _ due => due
  end.

(** The signal [sig] reaches the closure [c] of session [s] if the
    handler for it is still registered on the report handle. *)
Definition dispatch (env : Env) (s : nat) (c : Closure) (sig : Signal) (st : State) : State :=
  match sig with
  | Loaded => if listensLoaded c then handleLoaded env st else st
  | Rendered => if listensRendered c then handleRendered env s c st else st
  | Errored m => if listensError c then handleError env s c m st else st
  end.

Definition fire_timeout (env : Env) (s : nat) (st : State) : State :=
  match sessions st !! s with
  | Some {| s_dashboard := d; s_pc := PcAttached c |} =>
      match timeoutDue c with
      | Some due => if due <=? now env then handleTimeout env s d c st else st
      | None => st
      end
  | _ => st
  end.

Definition step (env : Env) (ev : Event) (st : State) : State :=
  match ev with
  | Render d => dashboard_effect env d st
  | ClickStart => (embedReport env false (dashboard st) st).1
  | ClickReload => (embedReport env true (dashboard st) st).1
  | ClickForceClean => hygiene_then env true KNone st
  | Unmount => unmount env st
  | ResumeSession s =>
      match sessions st !! s with
      | Some ses => resume_session env s (s_dashboard ses) (s_pc ses) st
      | None => st
      end
  | RenderTimeout s => fire_timeout env s st
  | Widget s sig =>
      match closure_of s st with
      | Some c => dispatch env s c sig st
      | None => st
      end
  | ResumeJob i =>
      match jobs st !! i with
      | Some j => if job_due j <=? now env then run_job env j (set_jobs (delete i (jobs st)) st)
                  else st
      | None => st
      end
  end.

(** A run of the event loop. *)
Definition run (trace : list (Env * Event)) (st : State) : State :=
  foldl (fun st ee => step ee.1 ee.2 st) st trace.

End WithParser.

(** The viewer as first rendered with the props [d] around the container
    [e], before its mount effects run. *)
Definition initial (d : Dashboard) (e : Element) : State :=
  {| isLoading := false; isReady := false; loadingPhase := "initial"; loadingProgress := 0;
     error := None; logs := []; dashboard := d;
     embedContainerRef := Some e; documentIframes := [];
     powerBiReport := None; powerBiService := None; currentSessionId := 0%nat;
     currentReportId := EmptyString; isMounted := true; tokenCache := ∅; attemptCounter := 0;
     workspaceClean := true;
     environmentChecks := {| iframeClean := true; domStable := true; serviceReady := false;
                             tokenValid := false; urlValidated := false |};
     timerRef := ∅; sessions := ∅; jobs := []; uuidCounter := 1%nat; serviceCounter := 0%nat;
     notifications := []; embedCalls := []; fetchCalls := [] |}.

End Viewer.

(** ** The session-based viewer: the text of the phase shown *)

Module ViewerView.

(** getPhaseText, on the phase of the state. *)
Definition getPhaseText (loadingPhase : string) : string :=
  if String.eqb loadingPhase "preparing" then "Preparando ambiente..."
  else if String.eqb loadingPhase "authenticating" then "Autenticando..."
  else if String.eqb loadingPhase "validating" then "Validando configurações..."
  else if String.eqb loadingPhase "configuring" then "Configurando dashboard..."
  else if String.eqb loadingPhase "rendering" then "Renderizando visualizações..."
  else if String.eqb loadingPhase "finalizing" then "Finalizando carregamento..."
  else "Iniciando...".

End ViewerView.

(** ** The radical viewer: performEmbed and the commands around it *)

Module RadicalEmbed.
Import Dom.

(** The props: the [Dashboard] of the hook both viewers import. *)
Definition Dashboard := Viewer.Dashboard.

Definition MAX_RETRIES : Z := 3.

Inductive FetchOutcome :=
| FetchResponse (status : Z)
| FetchRejected (name message : string).

(** [response.json()] followed by [const { token, embedUrl: rawUrl } = data]:
    the two members (a missing one is [undefined]), [null], on which the
    destructuring throws, or a rejection. *)
Inductive JsonOutcome :=
| JsonMembers (token rawUrl : Radical.JsValue)
| JsonNull
| JsonRejected (name message : string).

(** Answers of the environment during one synchronous step. *)
Record Env := {
  base : Radical.Env;
  fetch_outcome : FetchOutcome;
  json_outcome : JsonOutcome;
  decodeURIComponent : string -> option string;  (* [None]: it throws *)
  sdk_embed : Element -> SdkOutcome;              (* service.embed(container, config) *)
  thrown : string * string    (* name and message of what the platform or the SDK threw *)
}.

Record State := {
  (* the refs and the log *)
  core : Radical.State;
  (* React state *)
  phase : string;
  error : option string;
  retries : Z;
  hasStarted : bool;
  (* props and the ref that remembers them *)
  dashboard : Dashboard;
  currentDashboardIdRef : string;
  (* source of fresh service instances and report handles *)
  idCounter : nat;
  (* what the collaborators observed: the requests handed to apiFetch, and
     the embedUrl and accessToken handed to service.embed *)
  requests : list string;
  embedded : list (string * string)
}.

Definition set_core (v : Radical.State) (st : State) : State :=
  {| core := v; phase := phase st; error := error st; retries := retries st;
     hasStarted := hasStarted st; dashboard := dashboard st;
     currentDashboardIdRef := currentDashboardIdRef st; idCounter := idCounter st;
     requests := requests st; embedded := embedded st |}.
Definition set_phase (v : string) (st : State) : State :=
  {| core := core st; phase := v; error := error st; retries := retries st;
     hasStarted := hasStarted st; dashboard := dashboard st;
     currentDashboardIdRef := currentDashboardIdRef st; idCounter := idCounter st;
     requests := requests st; embedded := embedded st |}.
Definition set_error (v : option string) (st : State) : State :=
  {| core := core st; phase := phase st; error := v; retries := retries st;
     hasStarted := hasStarted st; dashboard := dashboard st;
     currentDashboardIdRef := currentDashboardIdRef st; idCounter := idCounter st;
     requests := requests st; embedded := embedded st |}.
Definition set_retries (v : Z) (st : State) : State :=
  {| core := core st; phase := phase st; error := error st; retries := v;
     hasStarted := hasStarted st; dashboard := dashboard st;
     currentDashboardIdRef := currentDashboardIdRef st; idCounter := idCounter st;
     requests := requests st; embedded := embedded st |}.
Definition set_hasStarted (v : bool) (st : State) : State :=
  {| core := core st; phase := phase st; error := error st; retries := retries st;
     hasStarted := v; dashboard := dashboard st;
     currentDashboardIdRef := currentDashboardIdRef st; idCounter := idCounter st;
     requests := requests st; embedded := embedded st |}.
Definition set_dashboard (v : Dashboard) (st : State) : State :=
  {| core := core st; phase := phase st; error := error st; retries := retries st;
     hasStarted := hasStarted st; dashboard := v;
     currentDashboardIdRef := currentDashboardIdRef st; idCounter := idCounter st;
     requests := requests st; embedded := embedded st |}.
Definition set_currentDashboardIdRef (v : string) (st : State) : State :=
  {| core := core st; phase := phase st; error := error st; retries := retries st;
     hasStarted := hasStarted st; dashboard := dashboard st;
     currentDashboardIdRef := v; idCounter := idCounter st;
     requests := requests st; embedded := embedded st |}.
Definition set_idCounter (v : nat) (st : State) : State :=
  {| core := core st; phase := phase st; error := error st; retries := retries st;
     hasStarted := hasStarted st; dashboard := dashboard st;
     currentDashboardIdRef := currentDashboardIdRef st; idCounter := v;
     requests := requests st; embedded := embedded st |}.
Definition set_requests (v : list string) (st : State) : State :=
  {| core := core st; phase := phase st; error := error st; retries := retries st;
     hasStarted := hasStarted st; dashboard := dashboard st;
     currentDashboardIdRef := currentDashboardIdRef st; idCounter := idCounter st;
     requests := v; embedded := embedded st |}.
Definition set_embedded (v : list (string * string)) (st : State) : State :=
  {| core := core st; phase := phase st; error := error st; retries := retries st;
     hasStarted := hasStarted st; dashboard := dashboard st;
     currentDashboardIdRef := currentDashboardIdRef st; idCounter := idCounter st;
     requests := requests st; embedded := v |}.

(** A change of the refs. *)
Definition on_core (f : Radical.State -> Radical.State) (st : State) : State :=
  set_core (f (core st)) st.

Definition addLog (env : Env) (message : string) (type : Radical.LogType) (st : State) : State :=
  on_core (Radical.addLog (base env) message type) st.

Definition mounted (st : State) : bool := Radical.mountedRef (core st).

(** Where one invocation of performEmbed stands. *)
Inductive Pc :=
| PcCleanup                     (* await radicalCleanup(), in its 300 ms wait *)
| PcPause                       (* the 500 ms wait *)
| PcContainer (attempts : nat)  (* a 50 ms wait of the loop; [attempts] counts it *)
| PcFetch                       (* await apiFetch(...) *)
| PcJson                        (* await response.json() *)
| PcDone (attached : bool).     (* returned, with or without a report attached *)

(** The [catch] of performEmbed, on an exception with this name and
    message. *)
Definition performEmbed_catch (env : Env) (name message : string) (st : State) : State :=
  if String.eqb name "AbortError" then addLog env "Requisição abortada" Radical.info st
  else if negb (mounted st) then st
  else
    let errorMsg := if Js.truthy message then message else "Erro desconhecido" in
    set_error (Some errorMsg)
      (set_phase "error" (addLog env ("❌ ERRO: " +:+ errorMsg) Radical.error st)).

(** [throw new Error(message)] inside the [try]. *)
Definition throw (env : Env) (message : string) (st : State) : State * Pc :=
  (performEmbed_catch env "Error" message st, PcDone false).

(** performEmbed up to [await radicalCleanup()]; when the cleanup returns
    at its guard the 500 ms wait starts at once. *)
Definition performEmbed_begin (env : Env) (st : State) : State * Pc :=
  if negb (mounted st) then (st, PcDone false)
  else
    let st := set_phase "cleaning" st in
    let st := addLog env "🧹 Executando limpeza radical antes do embed..." Radical.info st in
    let '(c, waiting) := Radical.radicalCleanup_begin (base env) (core st) in
    (set_core c st, if waiting then PcCleanup else PcPause).

Definition token_url (d : Dashboard) : string :=
  "/powerbi/embed-token/" +:+ Viewer.report_id d +:+ "?datasetId=" +:+ Viewer.dataset_id d.

(** Step 2 once the container is there. *)
Definition performEmbed_request (env : Env) (d : Dashboard) (st : State) : State * Pc :=
  let st := addLog env "Container disponível" Radical.success st in
  let st := set_phase "authenticating" st in
  let st := addLog env "🔐 Solicitando token..." Radical.info st in
  match Radical.abortControllerRef (core st) with
  | Some _ => (set_requests (requests st ++ [token_url d]) st, PcFetch)
  | None => (performEmbed_catch env (thrown env).1 (thrown env).2 st, PcDone false)
  end.

(** The head of the loop that waits for the container, after [attempts]
    waits. *)
Definition performEmbed_poll (env : Env) (d : Dashboard) (attempts : nat) (st : State)
  : State * Pc :=
  match Radical.embedRef (core st) with
  | None =>
      if (attempts <? 20)%nat then (st, PcContainer (S attempts))
      else throw env "Container não inicializou" st
  | Some _ => performEmbed_request env d st
  end.

(** performEmbed after the 500 ms wait. *)
Definition performEmbed_after_pause (env : Env) (d : Dashboard) (st : State) : State * Pc :=
  if negb (mounted st) then (st, PcDone false)
  else
    let st := on_core (Radical.set_abortControllerRef (Some false)) st in
    let st := set_phase "validating" st in
    let st := addLog env ("📋 Validando dashboard: " +:+ Viewer.title d) Radical.info st in
    if negb (Js.truthy (Viewer.report_id d)) || negb (Js.truthy (Viewer.dataset_id d))
    then throw env "IDs do dashboard ausentes" st
    else performEmbed_poll env d 0 st.

(** ... with the outcome of [apiFetch]. *)
Definition performEmbed_on_fetch (env : Env) (st : State) : State * Pc :=
  match fetch_outcome env with
  | FetchResponse status =>
      if negb (Viewer.response_ok status)
      then throw env ("HTTP " +:+ pretty status +:+ ": Falha ao obter token") st
      else if negb (mounted st) then (st, PcDone false)
      else (st, PcJson)
  | FetchRejected name message => (performEmbed_catch env name message st, PcDone false)
  end.

Definition newline : string := String (ascii_of_nat 10) EmptyString.

Section WithParser.
Variable newURL : string -> Js.Parsed.

(** Steps 5 and 6: the service, the configuration and the embed. *)
Definition performEmbed_attach (env : Env) (token embedUrl : string) (st : State)
  : State * Pc :=
  let st := set_phase "connecting" st in
  let st := addLog env "🔗 Criando Power BI Service..." Radical.info st in
  match Radical.embedRef (core st) with
  | Some _ =>
      if negb (mounted st) then throw env "Container perdido" st
      else
        let st := set_idCounter (S (idCounter st))
                    (on_core (Radical.set_serviceRef (Some (idCounter st))) st) in
        let st := addLog env "Service criado ✅" Radical.success st in
        let st := set_phase "loading" st in
        let st := addLog env "📊 Iniciando embed..." Radical.info st in
        match Radical.embedRef (core st) with
        | Some e =>
            if negb (mounted st) then throw env "Container removido antes do embed" st
            else
              let '(e, st) :=
                if (0 <? length (filter (fun n => is_element n = true) (children e)))%nat
                then (setChildren [] e,
                      addLog env "⚠️ Container tem filhos, limpando..." Radical.info st)
                else (e, st) in
              let e := setStyle "display" "block" e in
              let st := set_embedded (embedded st ++ [(embedUrl, token)]) st in
              match sdk_embed env e with
              | Returns e' =>
                  let st := on_core (Radical.set_embedRef (Some e')) st in
                  let st := set_idCounter (S (idCounter st))
                              (on_core (Radical.set_reportRef (Some (idCounter st))) st) in
                  (addLog env "Embed iniciado ✅" Radical.success st, PcDone true)
              | Throws e' =>
                  (performEmbed_catch env (thrown env).1 (thrown env).2
                     (on_core (Radical.set_embedRef (Some e')) st), PcDone false)
              end
        | None => throw env "Container removido antes do embed" st
        end
  | None => throw env "Container perdido" st
  end.

(** Step 3: the locator is validated and decoded. *)
Definition performEmbed_validate (env : Env) (d : Dashboard) (token : string)
           (rawUrl : Radical.JsValue) (st : State) : State * Pc :=
  let '(validation, c) :=
    Radical.validateEmbedUrl newURL (base env) (Viewer.report_id d) rawUrl (core st) in
  let st := set_core c st in
  if negb (Radical.isValid validation) then
    throw env ("URL inválida:" +:+ newline
               +:+ String.concat newline (Radical.errors validation)) st
  else
    let st := foldl (fun st w => addLog env ("⚠️ " +:+ w) Radical.info st) st
                    (Radical.warnings validation) in
    match rawUrl with
    | Radical.JsString raw =>
        let '(embedUrl, st) :=
          match decodeURIComponent env raw with
          | Some u => (u, st)
          | None => (raw, addLog env "Usando URL sem decodificação" Radical.info st)
          end in
        let st := addLog env "URL validada ✅" Radical.success st in
        performEmbed_attach env token embedUrl st
    | Radical.JsOther _ => (st, PcDone false)  (* not reached: only strings are valid *)
    end.

(** ... with the outcome of [response.json()]. *)
Definition performEmbed_on_json (env : Env) (d : Dashboard) (st : State) : State * Pc :=
  match json_outcome env with
  | JsonMembers token rawUrl =>
      let st := addLog env "Token recebido" Radical.success st in
      match token with
      | Radical.JsString tok =>
          if negb (Js.truthy tok) then throw env "Token inválido" st
          else
            let st := addLog env ("Token válido (" +:+ pretty (Js.strlen tok) +:+ " chars)")
                             Radical.success st in
            performEmbed_validate env d tok rawUrl st
      | Radical.JsOther _ => throw env "Token inválido" st
      end
  | JsonNull =>
      (performEmbed_catch env (thrown env).1 (thrown env).2
         (addLog env "Token recebido" Radical.success st), PcDone false)
  | JsonRejected name message => (performEmbed_catch env name message st, PcDone false)
  end.

(** The invocation of performEmbed that captured the props [d], resumed
    when what it awaits has settled. *)
Definition resume (env : Env) (d : Dashboard) (pc : Pc) (st : State) : State * Pc :=
  match pc with
  | PcCleanup => (on_core (Radical.radicalCleanup_finish (base env)) st, PcPause)
  | PcPause => performEmbed_after_pause env d st
  | PcContainer attempts => performEmbed_poll env d attempts st
  | PcFetch => performEmbed_on_fetch env st
  | PcJson => performEmbed_on_json env d st
  | PcDone attached => (st, PcDone attached)
  end.

(** One undisturbed performEmbed: the call, then one resumption for each
    environment given. *)
Definition performEmbed (env : Env) (envs : list Env) (d : Dashboard) (st : State)
  : State * Pc :=
  foldl (fun r env => resume env d r.2 r.1) (performEmbed_begin env st) envs.

(** handleStartLoading, up to the first wait of performEmbed. *)
Definition handleStartLoading (env : Env) (st : State) : State * Pc :=
  let st := set_hasStarted true st in
  let st := set_error None st in
  let st := set_retries 0 st in
  let st := on_core (Radical.set_logs []) st in
  let st := addLog env "🚀 Iniciando carregamento..." Radical.success st in
  performEmbed_begin env st.

(** handleRetry, likewise. *)
Definition handleRetry (env : Env) (st : State) : State * Pc :=
  if MAX_RETRIES <=? retries st then
    (set_error (Some "Máximo de tentativas atingido.") st, PcDone false)
  else
    let st' := addLog env ("🔄 Tentativa " +:+ pretty (retries st + 1) +:+ "/"
                           +:+ pretty MAX_RETRIES) Radical.info st in
    let st' := set_retries (retries st' + 1) st' in
    let st' := set_error None st' in
    performEmbed_begin env st'.

End WithParser.

(** The three handlers performEmbed registers on the report. *)
Definition onLoaded (env : Env) (st : State) : State :=
  if negb (mounted st) then st
  else set_error None
         (set_retries 0
            (set_phase "ready" (addLog env "🎉 Relatório carregado!" Radical.success st))).

Definition onRendered (env : Env) (st : State) : State :=
  if negb (mounted st) then st
  else addLog env "🎨 Relatório renderizado!" Radical.success st.

Definition onError (env : Env) (detail_message : option string) (st : State) : State :=
  if negb (mounted st) then st
  else
    let msg := match detail_message with
               | Some m => if Js.truthy m then m else "Erro desconhecido"
               | None => "Erro desconhecido"
               end in
    set_error (Some msg) (set_phase "error" (addLog env ("❌ Erro: " +:+ msg) Radical.error st)).

(** A render with the props [d] and the effect that detects a change of
    dashboard; the result says whether the cleanup it started is now in
    its wait. *)
Definition dashboard_effect (env : Env) (d : Dashboard) (st : State) : State * bool :=
  let st := set_dashboard d st in
  if negb (String.eqb (currentDashboardIdRef st) (Viewer.report_id d)) then
    let st := set_currentDashboardIdRef (Viewer.report_id d) st in
    let st := set_phase "idle" st in
    let st := set_error None st in
    let st := set_retries 0 st in
    let st := on_core (Radical.set_logs []) st in
    let st := set_hasStarted false st in
    let '(c, waiting) := Radical.radicalCleanup_begin (base env) (core st) in
    (addLog env ("Dashboard alterado: " +:+ Viewer.title d) Radical.info (set_core c st), waiting)
  else (st, false).

(** getPhaseInfo: the text and the colour shown for a phase. *)
Definition getPhaseInfo (phase : string) : option (string * string) :=
  if String.eqb phase "idle" then Some ("Aguardando", "text-gray-500")
  else if String.eqb phase "cleaning" then Some ("Limpando memória...", "text-orange-500")
  else if String.eqb phase "validating" then Some ("Validando dados...", "text-blue-500")
  else if String.eqb phase "authenticating" then Some ("Autenticando...", "text-purple-500")
  else if String.eqb phase "connecting" then Some ("Conectando...", "text-indigo-500")
  else if String.eqb phase "loading" then Some ("Carregando relatório...", "text-blue-600")
  else if String.eqb phase "ready" then Some ("Pronto", "text-green-600")
  else if String.eqb phase "error" then Some ("Erro", "text-red-600")
  else None.

End RadicalEmbed.

(** * What the properties are stated with *)

(** The checks of the locator validator, one at a time, as the
    specification lists them. *)
Module ValidatorSpec.

Import Radical.

Definition blank (url : string) : bool :=
  negb (Js.truthy url) || (Js.strlen (Js.trim url) =? 0)%nat.

Definition scheme_errors (url : string) : list string :=
  if Js.startsWith "https://" url then []
  else ["Protocolo inválido: " +:+ Js.substring0 10 url].

Definition host_errors (u : Js.URL) : list string :=
  if Js.includes "powerbi.com" (Js.hostname u) then []
  else ["Domínio inválido: " +:+ Js.hostname u].

Definition host_warnings (u : Js.URL) : list string :=
  if String.eqb (Js.hostname u) "app.powerbi.com" then []
  else ["Domínio diferente do esperado: " +:+ Js.hostname u].

Definition path_errors (u : Js.URL) : list string :=
  if Js.includes "/reportEmbed" (Js.pathname u) then []
  else ["Path inválido: " +:+ Js.pathname u].

Definition report_errors (expected : string) (u : Js.URL) : list string :=
  match Js.get "reportId" (Js.URLSearchParams (Js.search u)) with
  | Some rid =>
      if Js.truthy rid then
        if String.eqb rid expected then []
        else ["reportId não corresponde: esperado " +:+ expected +:+ ", recebido " +:+ rid]
      else ["reportId ausente na URL"]
  | None => ["reportId ausente na URL"]
  end.

Definition group_warnings (u : Js.URL) : list string :=
  match Js.get "groupId" (Js.URLSearchParams (Js.search u)) with
  | Some g => if Js.truthy g then [] else ["groupId ausente na URL"]
  | None => ["groupId ausente na URL"]
  end.

(** "Every violation is collected", for the scheme check: whenever the
    locator does not start with the secure scheme, the error list holds
    the scheme error. *)
Definition collects_scheme_violations (newURL : string -> Js.Parsed) : Prop :=
  forall env expected url st,
    Js.startsWith "https://" url = false ->
    exists e, e ∈ errors (validateEmbedUrl newURL env expected (JsString url) st).1
              /\ Js.startsWith "Protocolo inválido" e = true.

(** A quiet environment and a fresh viewer, for the examples. *)
Definition env0 : Env :=
  {| timeString := "10:00:00"; abort_throws := false; off_throws := false;
     sdk_reset := fun e => Dom.Returns e |}.

Definition st0 : State :=
  {| logs := []; embedRef := None; reportRef := None; serviceRef := None;
     mountedRef := true; abortControllerRef := None; isCleaningRef := false |}.

(** The validator on a string, with the platform parser. *)
Definition validate (expected url : string) : ValidationResult :=
  (validateEmbedUrl Js.parseURL env0 expected (JsString url) st0).1.

(** U+00A0, the no-break space. *)
Definition nbsp : string :=
  String (ascii_of_nat 194) (String (ascii_of_nat 160) EmptyString).

(** What the URL parser makes of "ftp://evil.org/x". *)
Definition evil : Js.URL :=
  {| Js.protocol := "ftp:"; Js.hostname := "evil.org"; Js.pathname := "/x";
     Js.search := EmptyString |}.

End ValidatorSpec.

(** The teardown of the radical viewer. *)
Module CleanupSpec.
Import Dom.

(** The container after the service reset of step 3, if it runs. *)
Definition after_reset (env : Radical.Env) (st : Radical.State) : option Element :=
  match Radical.serviceRef st, Radical.embedRef st with
  | Some _, Some e => Some (after (Radical.sdk_reset env e))
  | _, _ => Radical.embedRef st
  end.

Import Radical.

(** A viewer holding a rendered report: a frame in the container and the
    attributes the widget left on it. *)
Definition holding : State :=
  {| logs := [];
     embedRef := Some {| children := [{| tag := "iframe"; src := "https://app.powerbi.com/reportEmbed" |}];
                         attributes := {[ "powerbi-embed-url" := "https://app.powerbi.com/reportEmbed";
                                          "class" := "w-full" ]};
                         style := ∅ |};
     reportRef := Some 1%nat; serviceRef := Some 1%nat;
     mountedRef := true; abortControllerRef := Some false; isCleaningRef := false |}.

(** An environment in which nothing throws. *)
Definition calm : Env :=
  {| timeString := "10:00:00"; abort_throws := false; off_throws := false;
     sdk_reset := fun e => Dom.Returns e |}.

(** One complete, undisturbed [radicalCleanup()]: the call and, unless
    it returned at its guard, its resumption after the wait. *)
Definition radicalCleanup (env1 env2 : Env) (st : State) : State :=
  let '(st1, waiting) := radicalCleanup_begin env1 st in
  if waiting then radicalCleanup_finish env2 st1 else st1.

(** The radical viewer at its unmount: a report is held and React has
    already cleared the ref of the container. *)
Definition unmounting : State := set_embedRef None holding.

End CleanupSpec.

(** The session-based viewer. *)
Module ViewerSpec.
Import Dom Viewer.

(** What the unmount cleanup is meant to leave clean: the container, the
    frames of the document and the references held. *)
Definition vheld (st : State) :=
  (embedContainerRef st, documentIframes st, powerBiReport st, powerBiService st,
   isMounted st).

(** A step that touched nothing but the log and the timers. *)
Definition diagnostics_only (st st' : State) : Prop :=
  st' = set_logs (logs st') (set_timerRef (timerRef st') st).

(** The log entry written at the time of [env]. *)
Definition entry (env : Env) (m : string) (t : LogType) : LogEntry :=
  {| message := m; type := t; timestamp := now env |}.

(** How far an invocation of embedReport is: before its attach, attached
    with its closure unresolved, or unable to notify any more. *)
Inductive Kind := KPre | KAtt | KClosed.

Definition kind_of (pc : Pc) : Kind :=
  match pc with
  | PcAttached c => if isResolved c then KClosed else KAtt
  | PcDone _ => KClosed
  | _ => KPre
  end.

(** The kind of every session. *)
Definition kinds (st : State) : gmap nat Kind := (fun ses => kind_of (s_pc ses)) <$> sessions st.

(** What the host sees of the controller, the log apart. *)
Definition face (st : State) : bool * bool * string * Z * option string :=
  (isLoading st, isReady st, loadingPhase st, loadingProgress st, error st).

(** What the cleanup and the diagnostics leave alone. *)
Definition kept (st : State) :=
  (kinds st, notifications st, uuidCounter st, face st, jobs st, attemptCounter st,
   embedCalls st, (currentSessionId st, currentReportId st, tokenCache st, isMounted st,
                   dashboard st)).

(** One undisturbed run of performHygiene: the call and the resumption
    after each of its waits, with the time waited in all. *)
Definition performHygiene_run (env1 env2 env3 : Env) (deep : bool) (st : State)
  : State * HygieneResult * Z :=
  let '(st, r) := performHygiene_begin env1 deep st in
  match r with
  | HygReturned _ => (st, r, 0)
  | HygAwait w1 =>
      let '(st, r) := performHygiene_resume env2 deep w1 st in
      match r with
      | HygReturned _ => (st, r, due_of w1 - now env1)
      | HygAwait w2 =>
          let '(st, r) := performHygiene_resume env3 deep w2 st in
          (st, r, (due_of w1 - now env1) + (due_of w2 - now env2))
      end
  end.

(** What of the service and of the checks the steps 1 and 2 leave alone. *)
Definition service_part (st : State) := (powerBiService st, serviceCounter st, environmentChecks st).

(** The book-keeping of the sessions: what each may still do, what was
    notified, and the next fresh token. *)
Definition Book : Type := gmap nat Kind * list (nat * Notification) * nat.

Definition abook (st : State) : Book := (kinds st, notifications st, uuidCounter st).

(** The moves a step of the event loop is made of. *)
Inductive Move : Book -> Book -> Prop :=
| move_set ks ns u s k0 k :
    ks !! s = Some k0 -> k0 <> KClosed -> Move (ks, ns, u) (<[s := k]> ks, ns, u)
| move_notify ks ns u s k0 n :
    ks !! s = Some k0 -> k0 <> KClosed ->
    Move (ks, ns, u) (<[s := KClosed]> ks, ns ++ [(s, n)], u)
| move_spawn ks ns u :
    Move (ks, ns, u) (<[u := KPre]> ks, ns, S u).

Definition Moves : Book -> Book -> Prop := rtc Move.

(** No session was notified twice, a notified session is closed, and
    the tokens not yet drawn name no session. *)
Definition Inv (b : Book) : Prop :=
  let '(ks, ns, u) := b in
  NoDup ns.*1
  /\ (forall s, s ∈ ns.*1 -> ks !! s = Some KClosed)
  /\ (forall s, (u <= s)%nat -> ks !! s = None).

(** The terminal notifications the host received from the invocation
    with session token [s], in order. *)
Definition notified (s : nat) (st : State) : list Notification :=
  (filter (fun p => p.1 = s) (notifications st)).*2.

(** An ignored call leaves the state as it was. *)
Definition ignores_silently (newURL : string -> Js.Parsed) : Prop :=
  forall env d st, isMounted st = true -> isLoading st = true ->
                   embedReport newURL env false d st = (st, None).

End ViewerSpec.

Module Scenario.

Import Dom Viewer.

(** Two dashboards, an empty container and the locator the backend
    serves for a dashboard. *)
Definition A : Dashboard := {| report_id := "R1"; dataset_id := "D1"; title := "Vendas" |}.

Definition B : Dashboard := {| report_id := "R2"; dataset_id := "D2"; title := "Chamados" |}.

Definition box : Element := {| children := []; attributes := ∅; style := ∅ |}.

Definition locator (d : Dashboard) : string :=
  "https://app.powerbi.com/reportEmbed?reportId=" +:+ report_id d +:+ "&groupId=G1".

Definition frame (d : Dashboard) : Node := {| tag := "iframe"; src := locator d |}.

(** A well-behaved environment at time [t], serving the dashboard [d]:
    the backend answers 200 with a credential for [d], the SDK finds no
    previous embed, [reset] empties the container and [embed] appends the
    frame of the report. *)
Definition serving (d : Dashboard) (t : Z) : Env :=
  {| now := t; off_throws_at := None;
     sdk_reset := fun e => Returns (setChildren [] e);
     sdk_get := None;
     sdk_embed := fun e => Returns (setChildren (children e ++ [frame d]) e);
     sdk_message := "TypeError";
     fetch_outcome := FetchResponse 200 "OK";
     text_outcome := TextBody EmptyString;
     json_outcome := JsonData (Some ("token-" +:+ report_id d)) (Some (locator d)) |}.

(** The events [evs], one per second from [t0] on. *)
Fixpoint timed (d : Dashboard) (t0 : Z) (evs : list Event) : list (Env * Event) :=
  match evs with
  | [] => []
  | ev :: evs => (serving d t0, ev) :: timed d (t0 + 1000) evs
  end.

(** The mount: the effect on [dashboard.report_id] cleans deeply and
    then calls embedReport(true). *)
Definition mount (d : Dashboard) : list Event :=
  [Render d; ResumeJob 0; ResumeJob 0; ResumeJob 0].

(** A first attempt of session [s] runs to its attach: shallow cleanup,
    network fetch, validation, stabilisation, embed. *)
Definition attach_fetching (s : nat) : list Event :=
  [ResumeSession s; ResumeSession s; ResumeSession s; ResumeSession s; ResumeSession s].

(** A later attempt of session [s] runs to its attach after a deep
    cleanup and with the cached credential. *)
Definition attach_cached (s : nat) : list Event :=
  [ResumeSession s; ResumeSession s; ResumeSession s; ResumeSession s].

(** The widget of session [s] signals an embed URL error. *)
Definition embed_url_error (s : nat) : Event := Widget s (Errored (Some "Invalid embed URL")).

(** The widget of session [s] reports an embed URL error and the
    continuations of handleError run. *)
Definition error_and_retry (s : nat) : list Event :=
  [embed_url_error s; ResumeJob 0; ResumeJob 0; ResumeJob 0].

(** Three consecutive embed URL errors, each on the widget just attached. *)
Definition three_errors : list Event :=
  mount A ++ attach_fetching 1
  ++ error_and_retry 1 ++ attach_cached 2
  ++ error_and_retry 2 ++ attach_cached 3
  ++ error_and_retry 3 ++ attach_cached 4.

(** The state after [trace], from the first render of [d]. *)
Definition after (d : Dashboard) (trace : list (Env * Event)) : State :=
  run Js.parseURL trace (initial d box).

(** A reload is forced while session 1 waits for the backend; the
    answer for session 1 then arrives. *)
Definition superseded_fetch : list (Env * Event) :=
  timed A 1000 (mount A ++ [ResumeSession 1; ClickReload; ResumeSession 1]).

(** The first widget reports an embed URL error, the automatic retry
    (session 2) renders; later the render timeout of the first attach
    fires and its continuations run. *)
Definition rendered_after_retry : list (Env * Event) :=
  timed A 1000 (mount A ++ attach_fetching 1 ++ error_and_retry 1 ++ attach_cached 2
                ++ [Widget 2 Loaded; Widget 2 Rendered]).

Definition stale_timeout : list (Env * Event) :=
  timed A 60000 [RenderTimeout 1; ResumeJob 0; ResumeJob 0; ResumeJob 0].

(** The host shows A, switches to B, and switches back to A, all within
    a few minutes. *)
Definition switch_and_back : list (Env * Event) :=
  timed A 1000 (mount A ++ attach_fetching 1 ++ [Widget 1 Rendered])
  ++ timed B 60000 (mount B ++ attach_fetching 2 ++ [Widget 2 Rendered])
  ++ timed A 120000 (mount A ++ attach_cached 3 ++ [Widget 3 Rendered]).

(** Every attach runs into the render timeout. *)
Definition three_timeouts : list (Env * Event) :=
  timed A 1000 (mount A ++ attach_fetching 1)
  ++ timed A 100000 ([RenderTimeout 1; ResumeJob 0; ResumeJob 0; ResumeJob 0] ++ attach_cached 2)
  ++ timed A 200000 ([RenderTimeout 2; ResumeJob 0; ResumeJob 0; ResumeJob 0] ++ attach_cached 3)
  ++ timed A 300000 [RenderTimeout 3].

(** Two embed URL errors, each answered by the automatic retry: the
    third attach is loading, 25 s after the mount. *)
Definition third_attach_loading : list (Env * Event) :=
  timed A 1000 (mount A ++ attach_fetching 1
                ++ error_and_retry 1 ++ attach_cached 2
                ++ error_and_retry 2 ++ attach_cached 3).

(** The first attach of the scenario, and the closure it created. *)
Definition first_attach : State := after A (timed A 1000 (mount A ++ attach_fetching 1)).

Definition first_closure : Closure := new_closure (serving A 9000).

(** A container the widget has left a frame and three attributes in. *)
Definition littered : Element :=
  {| children := [frame A; {| tag := "div"; src := EmptyString |}];
     attributes := {[ "powerbi-embed-url" := locator A; "powerbi-type" := "report";
                      "powerbi-id" := "R1"; "class" := "absolute inset-0 bg-white" ]};
     style := ∅ |}.

(** A viewer around that container, holding the service instance 0. *)
Definition littered_state : State :=
  set_powerBiService (Some 0%nat) (set_serviceCounter 1 (initial A littered)).


(** A viewer in the middle of a load. *)
Definition loading_state : State := set_isLoading true (initial A box).

End Scenario.

(** What the whole-run properties of the session-based viewer are stated
    with. *)
Module ViewerRun.
Import Dom Viewer.

(** The phases and the progress marks the controller shows. *)
Definition phases : list string :=
  ["initial"; "preparing"; "authenticating"; "validating"; "configuring"; "rendering";
   "finalizing"].

Definition progress_marks : list Z := [0; 10; 25; 40; 55; 70; 85; 100].

Definition known_phase (p : string) : bool := existsb (String.eqb p) phases.
Definition known_progress (n : Z) : bool := existsb (Z.eqb n) progress_marks.

Definition is_success (n : Notification) : bool :=
  match n with onSuccess => true | onError _ => false end.

(** The sessions that told the host of a success, in order. *)
Definition successes (st : State) : list nat :=
  (filter (fun p => is_success p.2 = true) (notifications st)).*1.

(** What holds between a state and every later one. *)
Definition Evolves (st st' : State) : Prop :=
  ((length (logs st) <= 100)%nat -> (length (logs st') <= 100)%nat)
  /\ (known_phase (loadingPhase st) = true -> known_phase (loadingPhase st') = true)
  /\ (known_progress (loadingProgress st) = true -> known_progress (loadingProgress st') = true)
  /\ (0 <= attemptCounter st -> 0 <= attemptCounter st')
  /\ (domStable (environmentChecks st) = false -> domStable (environmentChecks st') = false)
  /\ ((isLoading st = true -> isReady st = false /\ error st = None) ->
      (isLoading st' = true -> isReady st' = false /\ error st' = None))
  /\ (isMounted st = false ->
      isMounted st' = false /\ currentSessionId st' = currentSessionId st
      /\ uuidCounter st' = uuidCounter st
      /\ fetchCalls st' = fetchCalls st /\ successes st' = successes st).

(** The locators the session-based viewer accepts for the dashboard [d]. *)
Definition accepted (newURL : string -> Js.Parsed) (d : Dashboard) (url : string) : Prop :=
  Js.truthy url = true /\ Js.strlen (Js.trim url) <> 0%nat
  /\ Js.startsWith "https://" url = true
  /\ Js.startsWith "https://app.powerbi.com/" (Js.toLowerCase url) = true
  /\ Js.includes "/reportEmbed" url = true
  /\ exists u, newURL url = Js.Ok u
               /\ Js.get "reportId" (Js.URLSearchParams (Js.search u)) = Some (report_id d)
               /\ Js.truthy (report_id d) = true.

End ViewerRun.

Module RadicalLog.
Import Radical.

(** A line of the log of the radical viewer, as addLog formats it. *)
Definition line (env : Env) (message : string) (type : LogType) : string :=
  "[" +:+ timeString env +:+ "] " +:+ emoji type +:+ " " +:+ message.

End RadicalLog.

(** States and environments the properties are instantiated at. *)
Module Cases.
Import Dom Viewer Scenario.

(** The viewer after its first report has rendered. *)
Definition shown : State :=
  after A (timed A 1000 (mount A ++ attach_fetching 1 ++ [Widget 1 Rendered])).

(** The viewer unmounted while its first report is attached. *)
Definition gone : State := unmount (serving A 20000) first_attach.

(** The viewer before React has attached the container. *)
Definition bare : State := set_embedContainerRef None (initial A box).

(** The viewer holding a service instance, around a littered container. *)
Definition served : State := littered_state.

(** The moment after the mount at which session 1 is loading. *)
Definition loading_first : State := after A (timed A 1000 (mount A)).

(** The viewer showing A, before any credential was fetched. *)
Definition showing_A : State := set_currentReportId "R1" (initial A box).

(** The backend answers 200 with a payload that lacks the locator. *)
Definition half_answer : Env :=
  {| now := 7000; off_throws_at := None;
     sdk_reset := fun e => Returns e; sdk_get := None; sdk_embed := fun e => Returns e;
     sdk_message := "TypeError";
     fetch_outcome := FetchResponse 200 "OK";
     text_outcome := TextBody EmptyString;
     json_outcome := JsonData (Some "token-R1") None |}.

End Cases.

(** What the facts about performEmbed are stated with. *)
Module EmbedSpec.
Import Dom RadicalEmbed.

(** What performEmbed never touches. *)
Definition props (st : State) :=
  (retries st, hasStarted st, dashboard st, currentDashboardIdRef st).

(** What the locator and the token handed to service.embed went through:
    the token is a non-empty string of the payload, and the locator is
    the decoded form (or, failing that, the raw form) of a string that
    validateEmbedUrl found no error in. *)
Definition vetted (newURL : string -> Js.Parsed) (envs : list Env) (d : Dashboard) (st : State)
           (call : string * string) : Prop :=
  exists env raw,
    env ∈ envs
    /\ json_outcome env = JsonMembers (Radical.JsString call.2) (Radical.JsString raw)
    /\ Js.truthy call.2 = true
    /\ Radical.errors (Radical.validateEmbedUrl newURL (base env) (Viewer.report_id d)
                         (Radical.JsString raw) (core st)).1 = []
    /\ call.1 = default raw (decodeURIComponent env raw).

(** How many resumptions an invocation may still need. *)
Definition rank (pc : Pc) : nat :=
  match pc with
  | PcCleanup => 24
  | PcPause => 23
  | PcContainer attempts => 3 + (20 - attempts)
  | PcFetch => 2
  | PcJson => 1
  | PcDone _ => 0
  end.

(** A quiet environment: the backend answers 200 with a credential for
    the report R1, nothing throws. *)
Definition fair : Env :=
  {| base := CleanupSpec.calm;
     fetch_outcome := FetchResponse 200;
     json_outcome :=
       JsonMembers (Radical.JsString "token-R1")
                   (Radical.JsString "https://app.powerbi.com/reportEmbed?reportId=R1&groupId=G1");
     decodeURIComponent := fun s => Some s;
     sdk_embed := fun e => Returns (setChildren [{| tag := "iframe"; src := "https://app.powerbi.com/reportEmbed" |}] e);
     thrown := ("TypeError", "Cannot read properties of null") |}.

(** The backend answers 503. *)
Definition failing : Env :=
  {| base := CleanupSpec.calm;
     fetch_outcome := FetchResponse 503;
     json_outcome := JsonNull;
     decodeURIComponent := fun s => Some s;
     sdk_embed := fun e => Returns e;
     thrown := ("TypeError", "Cannot read properties of null") |}.

(** The radical viewer as first rendered with the dashboard A. *)
Definition fresh : State :=
  {| core := {| Radical.logs := []; Radical.embedRef := Some Scenario.box;
                Radical.reportRef := None; Radical.serviceRef := None;
                Radical.mountedRef := true; Radical.abortControllerRef := None;
                Radical.isCleaningRef := false |};
     phase := "idle"; error := None; retries := 0; hasStarted := false;
     dashboard := Scenario.A; currentDashboardIdRef := "R1"; idCounter := 0%nat;
     requests := []; embedded := [] |}.

(** The same before React has attached the container. *)
Definition unattached : State := on_core (Radical.set_embedRef None) fresh.

(** The same after three retries. *)
Definition worn : State := set_retries 3 (set_phase "error" fresh).

(** The entry points of the radical viewer, as React, the report and the
    timers may call them; a resumption names the invocation of
    performEmbed it continues by the props it captured and the place it
    stands at. *)
Inductive Command :=
| CStart                                   (* the button: handleStartLoading *)
| CRetry                                   (* the button: handleRetry *)
| CResume (d : Dashboard) (pc : Pc)        (* a wait of performEmbed has settled *)
| CLoaded | CRendered | CError (detail_message : option string)  (* the report's events *)
| CRender (d : Dashboard)                  (* a render with these props, and its effect *)
| CCleaned                                 (* the wait of a radicalCleanup has settled *)
| CUnmount.                                (* the cleanup of the mount effect *)

Definition exec (newURL : string -> Js.Parsed) (st : State) (c : Env * Command) : State :=
  let env := c.1 in
  match c.2 with
  | CStart => (handleStartLoading env st).1
  | CRetry => (handleRetry env st).1
  | CResume d pc => (resume newURL env d pc st).1
  | CLoaded => onLoaded env st
  | CRendered => onRendered env st
  | CError m => onError env m st
  | CRender d => (dashboard_effect env d st).1
  | CCleaned => on_core (Radical.radicalCleanup_finish (base env)) st
  | CUnmount =>
      match Radical.dispose_begin (base env) (core st) with
      | Some (c, _) => set_core c st
      | None => on_core (Radical.set_mountedRef false) st
      end
  end.

Definition execs (newURL : string -> Js.Parsed) (cs : list (Env * Command)) (st : State)
  : State := foldl (exec newURL) st cs.

(** The phases getPhaseInfo has a text for. *)
Definition phase_known (st : State) : bool := bool_decide (is_Some (getPhaseInfo (phase st))).

(** The token request is aborted. *)
Definition aborted : Env :=
  {| base := CleanupSpec.calm;
     fetch_outcome := FetchRejected "AbortError" "The user aborted a request.";
     json_outcome := JsonNull;
     decodeURIComponent := fun s => Some s;
     sdk_embed := fun e => Returns e;
     thrown := ("TypeError", "Cannot read properties of null") |}.

(** The dashboard B on a viewer that shows A. *)
Definition stale : State := set_dashboard Scenario.B fresh.

End EmbedSpec.

(** * Facts *)

(** ** The locator validator *)
Module ValidatorFacts.
Import Radical ValidatorSpec.

Lemma validate_isValid newURL env expected v st :
  let r := (validateEmbedUrl newURL env expected v st).1 in
  isValid r = (length (errors r) =? 0)%nat.
Proof.
  unfold validateEmbedUrl. destruct v as [url|ty]; [|reflexivity].
  destruct (negb (Js.truthy url) || _); [reflexivity|].
  destruct (newURL url); reflexivity.
Qed.

Lemma validate_parsed newURL env expected url u st :
  blank url = false -> newURL url = Js.Ok u ->
  let r := (validateEmbedUrl newURL env expected (JsString url) st).1 in
  errors r = scheme_errors url ++ host_errors u ++ path_errors u ++ report_errors expected u
  /\ warnings r = host_warnings u ++ group_warnings u.
Proof.
  intros Hb Hp. unfold validateEmbedUrl. unfold blank in Hb. rewrite Hb, Hp. cbn.
  unfold scheme_errors, host_errors, path_errors, report_errors, host_warnings, group_warnings.
  destruct (Js.startsWith "https://" url), (Js.includes "powerbi.com" (Js.hostname u)),
    (Js.includes "/reportEmbed" (Js.pathname u)), (String.eqb (Js.hostname u) "app.powerbi.com");
    cbn;
    (destruct (Js.get "reportId" _) as [rid|]; [destruct (Js.truthy rid), (String.eqb rid expected)|]);
    (destruct (Js.get "groupId" _) as [g|]; [destruct (Js.truthy g)|]); cbn; split; reflexivity.
Qed.

Lemma validate_unparsed newURL env expected url e st :
  blank url = false -> newURL url = Js.Threw e ->
  let r := (validateEmbedUrl newURL env expected (JsString url) st).1 in
  errors r = scheme_errors url ++ ["URL malformada: " +:+ e] /\ warnings r = [].
Proof.
  intros Hb Hp. unfold validateEmbedUrl. unfold blank in Hb. rewrite Hb, Hp. cbn.
  unfold scheme_errors. destruct (Js.startsWith "https://" url); cbn; split; reflexivity.
Qed.

Lemma validate_guarded newURL env expected v st :
  match v with JsString url => blank url = true | JsOther _ => True end ->
  let r := (validateEmbedUrl newURL env expected v st).1 in
  isValid r = false /\ length (errors r) = 1%nat /\ warnings r = [].
Proof.
  destruct v as [url|ty]; intros Hb; unfold validateEmbedUrl.
  - unfold blank in Hb. rewrite Hb. cbn. auto.
  - cbn. auto.
Qed.

Example ex1 : validate "R1" "https://app.powerbi.com/reportEmbed?reportId=R1&groupId=G1"
  = {| isValid := true; errors := []; warnings := [] |}.
Proof. vm_compute. reflexivity. Qed.

Example ex2 : validate "R1" "https://app.powerbi.com/reportEmbed?reportId=R2&groupId=G1"
  = {| isValid := false; errors := ["reportId não corresponde: esperado R1, recebido R2"]; warnings := [] |}.
Proof. vm_compute. reflexivity. Qed.

Example ex3 : validate "R1" "https://app.powerbi.com/reportEmbed?reportId=R1"
  = {| isValid := true; errors := []; warnings := ["groupId ausente na URL"] |}.
Proof. vm_compute. reflexivity. Qed.

Example ex4 : validate "R1" "http://app.powerbi.com/reportEmbed?reportId=R1&groupId=G1"
  = {| isValid := false; errors := ["Protocolo inválido: http://app"]; warnings := [] |}.
Proof. vm_compute. reflexivity. Qed.

Example ex5 : validate "R1" "https://app.example.com/reportEmbed?reportId=R1&groupId=G1"
  = {| isValid := false; errors := ["Domínio inválido: app.example.com"]; warnings := ["Domínio diferente do esperado: app.example.com"] |}.
Proof. vm_compute. reflexivity. Qed.

Example ex6 : validate "R1" "ftp://evil.org/x"
  = {| isValid := false; errors := ["Protocolo inválido: ftp://evil"; "Domínio inválido: evil.org"; "Path inválido: /x"; "reportId ausente na URL"]; warnings := ["Domínio diferente do esperado: evil.org";"groupId ausente na URL"] |}.
Proof. vm_compute. reflexivity. Qed.

End ValidatorFacts.

(** ** The teardown of the radical viewer *)
Module CleanupFacts.
Import Dom CleanupSpec.

Lemma held_addLog env m t st : Radical.held (Radical.addLog env m t st) = Radical.held st.
Proof. reflexivity. Qed.

Lemma log_removed_only_logs env l st :
  Radical.log_removed_iframes env l st
  = Radical.set_logs (Radical.logs (Radical.log_removed_iframes env l st)) st.
Proof.
  unfold Radical.log_removed_iframes. generalize (seq 0 (length l)) as idxs.
  intros idxs. revert st. induction idxs as [|i idxs IH]; intros st.
  - destruct st; reflexivity.
  - cbn [foldl]. rewrite IH at 1. destruct st; reflexivity.
Qed.

Lemma custom_class : Radical.is_custom_attribute "class" = false.
Proof. reflexivity. Qed.

Lemma clear_container_children e : children (Radical.clear_container e) = [].
Proof. reflexivity. Qed.

Lemma clear_container_idem e : Radical.clear_container (Radical.clear_container e) = Radical.clear_container e.
Proof.
  unfold Radical.clear_container, setCssText, setAttribute, setChildren. cbn. f_equal.
  apply map_eq. intros k.
  destruct (decide (k = "class")) as [->|Hk].
  - rewrite !lookup_insert_eq. reflexivity.
  - rewrite !lookup_insert_ne by congruence.
    rewrite !map_lookup_filter. rewrite lookup_insert_ne by congruence.
    rewrite map_lookup_filter.
    destruct (attributes e !! k) as [v|]; cbn; [|reflexivity].
    destruct (Radical.is_custom_attribute k) eqn:Hc; cbn.
    + rewrite !option_guard_False by (cbn; congruence). reflexivity.
    + rewrite !option_guard_True by (cbn; congruence). cbn.
      rewrite option_guard_True by (cbn; congruence). reflexivity.
Qed.

Lemma clear_container_no_custom e k :
  Radical.is_custom_attribute k = true -> attributes (Radical.clear_container e) !! k = None.
Proof.
  intros Hk. unfold Radical.clear_container, setCssText, setAttribute, setChildren. cbn.
  rewrite lookup_insert_ne by (intros <-; discriminate).
  rewrite map_lookup_filter. destruct (attributes e !! k); cbn; [|reflexivity].
  rewrite option_guard_False by (cbn; congruence). reflexivity.
Qed.

Lemma held_radicalCleanup_begin env st :
  Radical.isCleaningRef st = false ->
  Radical.held (Radical.radicalCleanup_begin env st).1
  = (Radical.clear_container <$> after_reset env st, None, None, None, Radical.mountedRef st, true)
  /\ (Radical.radicalCleanup_begin env st).2 = true.
Proof.
  intros Hc. unfold Radical.radicalCleanup_begin, after_reset. rewrite Hc.
  destruct st as [lg er rr sr mr ar ic]. cbn in *.
  destruct (Radical.abort_throws env), (Radical.off_throws env);
    destruct ar as [a|], rr as [r|], sr as [s|], er as [e|]; cbn;
    try destruct (Radical.sdk_reset env e) as [e'|e']; cbn;
    try rewrite log_removed_only_logs; unfold Radical.held; cbn; auto.
Qed.

Lemma held_radicalCleanup_finish env st :
  (forall e, Radical.embedRef st = Some e -> children e = []) ->
  Radical.held (Radical.radicalCleanup_finish env st)
  = (Radical.embedRef st, Radical.reportRef st, Radical.serviceRef st, Radical.abortControllerRef st,
     Radical.mountedRef st, false).
Proof.
  intros He. unfold Radical.radicalCleanup_finish.
  destruct st as [lg er rr sr mr ar ic]. cbn in *.
  destruct er as [e|]; cbn; [|reflexivity].
  rewrite (He e eq_refl). cbn. reflexivity.
Qed.

Lemma fmap_children_nil (o : option Element) e :
  Radical.clear_container <$> o = Some e -> children e = [].
Proof. destruct o; cbn; intros [= <-]; reflexivity. Qed.

(** The references and the container that one undisturbed [dispose()]
    leaves, in closed form. *)
Lemma held_dispose env1 env2 st st1 :
  Radical.dispose env1 env2 st = Some st1 ->
  Radical.held st1 =
    if Radical.isCleaningRef st then
      (Radical.embedRef st, Radical.reportRef st, Radical.serviceRef st,
       (fun _ => true) <$> Radical.abortControllerRef st, false, true)
    else
      (Radical.clear_container <$> after_reset env1 st, None, None, None, false, false).
Proof.
  unfold Radical.dispose, Radical.dispose_begin.
  destruct (Radical.isCleaningRef st) eqn:Hc.
  - destruct st as [lg er rr sr mr ar ic]. cbn in *. subst ic.
    destruct ar as [a|]; cbn; [destruct (Radical.abort_throws env1); [discriminate|]|];
      cbn; intros [= <-]; reflexivity.
  - assert (Hgen : forall st', Radical.isCleaningRef st' = false ->
              Radical.held (Radical.radicalCleanup_finish env2 (Radical.radicalCleanup_begin env1 st').1)
              = (Radical.clear_container <$> after_reset env1 st', None, None, None,
                 Radical.mountedRef st', false)).
    { intros st' Hc'. destruct (held_radicalCleanup_begin env1 st' Hc') as [Hh _].
      rewrite held_radicalCleanup_finish.
      - unfold Radical.held in Hh. injection Hh as -> -> -> -> -> _. reflexivity.
      - intros e He. unfold Radical.held in Hh. injection Hh as Hh _ _ _ _ _.
        rewrite He in Hh. symmetry in Hh. eapply fmap_children_nil, Hh. }
    destruct (Radical.abortControllerRef st) as [a|] eqn:Ha.
    + cbn. rewrite Ha. destruct (Radical.abort_throws env1); [discriminate|].
      set (st' := Radical.set_abortControllerRef (Some true) (Radical.set_mountedRef false st)).
      assert (Hc' : Radical.isCleaningRef st' = false) by exact Hc.
      pose proof (held_radicalCleanup_begin env1 st' Hc') as [_ Hw].
      specialize (Hgen st' Hc').
      destruct (Radical.radicalCleanup_begin env1 st') as [st'' w]. cbn in Hw, Hgen. subst w.
      intros [= <-]. exact Hgen.
    + cbn. rewrite Ha.
      set (st' := Radical.set_mountedRef false st).
      assert (Hc' : Radical.isCleaningRef st' = false) by exact Hc.
      pose proof (held_radicalCleanup_begin env1 st' Hc') as [_ Hw].
      specialize (Hgen st' Hc').
      destruct (Radical.radicalCleanup_begin env1 st') as [st'' w]. cbn in Hw, Hgen. subst w.
      intros [= <-]. exact Hgen.
Qed.

Lemma held_fields st a b c d e f :
  Radical.held st = (a, b, c, d, e, f) ->
  Radical.embedRef st = a /\ Radical.reportRef st = b /\ Radical.serviceRef st = c
  /\ Radical.abortControllerRef st = d /\ Radical.mountedRef st = e /\ Radical.isCleaningRef st = f.
Proof. unfold Radical.held. intros [= <- <- <- <- <- <-]. auto 10. Qed.

Lemma dispose_twice env1 env2 env3 env4 st st1 :
  Radical.dispose env1 env2 st = Some st1 ->
  Radical.isCleaningRef st = false \/ Radical.abort_throws env3 = false ->
  exists st2, Radical.dispose env3 env4 st1 = Some st2 /\ Radical.held st2 = Radical.held st1.
Proof.
  intros H1 Hq. pose proof (held_dispose _ _ _ _ H1) as Hh1.
  assert (Hsome : exists st2, Radical.dispose env3 env4 st1 = Some st2).
  { unfold Radical.dispose, Radical.dispose_begin.
    destruct (Radical.abortControllerRef (Radical.set_mountedRef false st1)) eqn:Ha.
    - destruct (Radical.abort_throws env3) eqn:Ht.
      + destruct Hq as [Hc|]; [|discriminate]. rewrite Hc in Hh1.
        apply held_fields in Hh1 as (_ & _ & _ & Ha' & _). cbn in Ha. congruence.
      + destruct (Radical.radicalCleanup_begin _ _). eauto.
    - destruct (Radical.radicalCleanup_begin _ _). eauto. }
  destruct Hsome as [st2 H2]. exists st2. split; [exact H2|].
  pose proof (held_dispose _ _ _ _ H2) as Hh2.
  rewrite Hh2, Hh1. clear Hh2.
  destruct (Radical.isCleaningRef st) eqn:Hc.
  - apply held_fields in Hh1 as (-> & -> & -> & -> & _ & ->).
    destruct (Radical.abortControllerRef st); reflexivity.
  - apply held_fields in Hh1 as (He & Hr & Hs & Ha & _ & ->).
    assert (Hr1 : after_reset env3 st1 = Radical.embedRef st1)
      by (unfold after_reset; rewrite Hs; reflexivity).
    rewrite Hr1, He.
    destruct (after_reset env1 st) as [e|]; cbn; [|reflexivity].
    rewrite clear_container_idem. reflexivity.
Qed.

Lemma dispose_clean env1 env2 st st1 :
  Radical.isCleaningRef st = false ->
  Radical.dispose env1 env2 st = Some st1 ->
  Radical.reportRef st1 = None /\ Radical.serviceRef st1 = None /\ Radical.abortControllerRef st1 = None
  /\ forall e, Radical.embedRef st1 = Some e ->
       children e = [] /\ forall k, Radical.is_custom_attribute k = true -> attributes e !! k = None.
Proof.
  intros Hc H1. pose proof (held_dispose _ _ _ _ H1) as Hh1. rewrite Hc in Hh1.
  apply held_fields in Hh1 as (He & -> & -> & -> & _).
  repeat split; auto; rewrite He in H; destruct (after_reset env1 st); cbn in H;
    try discriminate; injection H as <-; auto using clear_container_no_custom.
Qed.

End CleanupFacts.

(** ** The session-based viewer *)
Module ViewerFacts.
Import Dom Viewer ViewerSpec Scenario.

Lemma filter_filter_same {A} (P : A -> Prop) `{forall x, Decision (P x)} (l : list A) :
  filter P (filter P l) = filter P l.
Proof.
  induction l as [|x l IH]; [reflexivity|]. cbn. destruct (decide (P x)); cbn.
  - rewrite decide_True by assumption. f_equal. exact IH.
  - exact IH.
Qed.

Lemma set_sessions_same st : set_sessions (sessions st) st = st.
Proof. destruct st; reflexivity. Qed.

Lemma set_pc_only_sessions s pc st :
  set_pc s pc st = set_sessions (sessions (set_pc s pc st)) st.
Proof.
  unfold set_pc. destruct (sessions st !! s); [reflexivity|].
  symmetry. apply set_sessions_same.
Qed.

Lemma detach_report_only_sessions env r st :
  (detach_report env r st).1 = set_sessions (sessions (detach_report env r st).1) st.
Proof.
  unfold detach_report. destruct (closure_of r st) as [c|].
  - cbn [fst]. apply set_pc_only_sessions.
  - symmetry. apply set_sessions_same.
Qed.

Lemma unmount_twice env1 env2 st :
  vheld (unmount env2 (unmount env1 st)) = vheld (unmount env1 st).
Proof.
  assert (Hone : forall env st,
    vheld (unmount env st)
    = ((fun e => setChildren (filter (fun n => is_powerbi_iframe n = false) (children e)) e)
         <$> embedContainerRef st,
       filter (fun n => is_powerbi_iframe n = false) (documentIframes st),
       powerBiReport st, powerBiService st, false)).
  { intros env st'. unfold unmount.
    destruct (powerBiReport st') as [r|] eqn:Hr; [|unfold vheld; cbn; rewrite Hr; reflexivity].
    rewrite detach_report_only_sessions. unfold vheld. cbn. rewrite Hr. reflexivity. }
  rewrite (Hone env2 (unmount env1 st)). pose proof (Hone env1 st) as H1. rewrite H1.
  unfold vheld in H1.
  assert (E1 := f_equal (fun p => p.1.1.1.1) H1). assert (E2 := f_equal (fun p => p.1.1.1.2) H1).
  assert (E3 := f_equal (fun p => p.1.1.2) H1). assert (E4 := f_equal (fun p => p.1.2) H1).
  cbn [fst snd] in E1, E2, E3, E4. rewrite E1, E2, E3, E4.
  destruct (embedContainerRef st) as [e|]; cbn; rewrite !filter_filter_same; reflexivity.
Qed.

#[global] Arguments push_log : simpl never.
#[global] Arguments pretty : simpl never.

(** ** Diagnostics: the log and the timers *)

Lemma set_logs_timer_same st : set_logs (logs st) (set_timerRef (timerRef st) st) = st.
Proof. destruct st; reflexivity. Qed.

Lemma diagnostics_only_refl st : diagnostics_only st st.
Proof. symmetry. apply set_logs_timer_same. Qed.

Lemma diagnostics_only_trans st1 st2 st3 :
  diagnostics_only st1 st2 -> diagnostics_only st2 st3 -> diagnostics_only st1 st3.
Proof. unfold diagnostics_only. intros H12 H23. rewrite H23 at 1. rewrite H12. reflexivity. Qed.

Lemma logger_diagnostics env m t st : diagnostics_only st (logger env m t st).
Proof. unfold diagnostics_only. destruct st; reflexivity. Qed.

Lemma startTimer_diagnostics env l st : diagnostics_only st (startTimer env l st).
Proof. unfold diagnostics_only. destruct st; reflexivity. Qed.

Lemma endTimer_diagnostics env l st : diagnostics_only st (endTimer env l st).2.
Proof.
  unfold endTimer. destruct (timerRef st !! l) as [t|]; [destruct (t =? 0)|];
    cbn; try apply diagnostics_only_refl.
  unfold diagnostics_only. destruct st; reflexivity.
Qed.

(** The log keeps what was last written: a tail shorter than the
    capacity of the sink survives the next entry. *)
Lemma logger_keeps_tail env m t st pre tail :
  logs st = pre ++ tail -> (length tail < 100)%nat ->
  exists pre', logs (logger env m t st)
               = pre' ++ tail ++ [{| message := m; type := t; timestamp := now env |}].
Proof.
  intros Hl Hn. unfold logger, push_log. cbn. rewrite Hl.
  rewrite <- app_assoc.
  match goal with |- context [if ?c then _ else _] => destruct c eqn:Hc end.
  - unfold slice_last. rewrite drop_app_le.
    + eauto.
    + rewrite !length_app. cbn. lia.
  - exists pre. reflexivity.
Qed.

Lemma logger_last env m t st :
  exists pre, logs (logger env m t st) = pre ++ [{| message := m; type := t; timestamp := now env |}].
Proof.
  destruct (logger_keeps_tail env m t st (logs st) []) as [pre' H];
    [symmetry; apply app_nil_r|cbn; lia|]. eauto.
Qed.

Lemma embedReport_while_loading newURL env d st :
  isMounted st = true -> isLoading st = true ->
  let r := embedReport newURL env false d st in
  r.2 = None
  /\ diagnostics_only st r.1
  /\ timerRef r.1 = <["embedReport" := now env]> (timerRef st)
  /\ exists pre, logs r.1
       = pre ++ [entry env "Timer iniciado: embedReport" LDebug;
                 entry env "Carregamento já em andamento, ignorando solicitação" LInfo].
Proof.
  intros Hm Hl. unfold embedReport.
  replace (isMounted (startTimer env "embedReport" st)) with (isMounted st) by reflexivity.
  replace (isLoading (startTimer env "embedReport" st)) with (isLoading st) by reflexivity.
  rewrite Hm, Hl. cbn [negb andb fst snd]. split; [reflexivity|]. split; [|split].
  - eapply diagnostics_only_trans; [apply startTimer_diagnostics|apply logger_diagnostics].
  - reflexivity.
  - destruct (logger_last env "Timer iniciado: embedReport" LDebug
                (set_timerRef (<["embedReport" := now env]> (timerRef st)) st)) as [pre Hpre].
    destruct (logger_keeps_tail env "Carregamento já em andamento, ignorando solicitação" LInfo
                (startTimer env "embedReport" st) pre
                [entry env "Timer iniciado: embedReport" LDebug] Hpre) as [pre' H];
      [cbn; lia|].
    exists pre'. exact H.
Qed.






Lemma abort_not_before_timer newURL env s d due m st :
  sessions st !! s = Some {| s_dashboard := d; s_pc := PcFetch due |} ->
  fetch_outcome env = FetchRejected "AbortError" m -> now env < due ->
  step newURL env (ResumeSession s) st = st.
Proof.
  intros Hs Hf Hn. unfold step. rewrite Hs. cbn [s_pc s_dashboard resume_session].
  unfold fetch_settled. rewrite Hf. apply Z.ltb_lt in Hn. rewrite Hn. reflexivity.
Qed.

Lemma kept_endTimer env l st : kept (endTimer env l st).2 = kept st.
Proof. unfold endTimer. destruct (timerRef st !! l) as [t|]; [destruct (t =? 0)|]; reflexivity. Qed.

Lemma kept_remove_powerbi_iframes st : kept (remove_powerbi_iframes st) = kept st.
Proof. reflexivity. Qed.

Lemma kept_verifyDomSanity env st : kept (verifyDomSanity env st).2 = kept st.
Proof. unfold verifyDomSanity. destruct (embedContainerRef st); reflexivity. Qed.

Lemma kept_prepare_container env st : kept (prepare_container env st) = kept st.
Proof. unfold prepare_container. destruct (embedContainerRef st); reflexivity. Qed.

Lemma kept_performHygiene_prepare env deep st :
  kept (performHygiene_prepare env deep st).1 = kept st.
Proof.
  unfold performHygiene_prepare.
  pose proof (kept_verifyDomSanity env (prepare_container env st)) as H.
  destruct (verifyDomSanity env _) as [c st1]. cbn [fst snd] in *.
  rewrite <- (kept_prepare_container env st), <- H. reflexivity.
Qed.

Lemma kept_performHygiene_resume env deep w st :
  kept (performHygiene_resume env deep w st).1 = kept st.
Proof.
  destruct w; cbn [performHygiene_resume]; [apply kept_performHygiene_prepare|].
  pose proof (kept_endTimer env "hygiene" st) as H. destruct (endTimer env "hygiene" st). exact H.
Qed.

Lemma kinds_set_pc s pc st k :
  kinds st !! s = Some k -> kinds (set_pc s pc st) = <[s := kind_of pc]> (kinds st).
Proof.
  unfold kinds, set_pc. rewrite lookup_fmap. destruct (sessions st !! s) as [ses|]; [|discriminate].
  intros _. cbn. rewrite fmap_insert. reflexivity.
Qed.

Lemma kinds_set_pc_same s pc st :
  kinds st !! s = Some (kind_of pc) -> kinds (set_pc s pc st) = kinds st.
Proof. intros H. rewrite (kinds_set_pc _ _ _ _ H). apply insert_id, H. Qed.

Lemma kept_set_pc_same s pc st :
  kinds st !! s = Some (kind_of pc) -> kept (set_pc s pc st) = kept st.
Proof.
  intros H. pose proof (kinds_set_pc_same _ _ _ H) as Hk. revert Hk.
  unfold set_pc. destruct (sessions st !! s) as [ses|]; [|reflexivity].
  intros Hk. unfold kept. rewrite Hk. reflexivity.
Qed.

Lemma kinds_closure s st c :
  closure_of s st = Some c -> kinds st !! s = Some (if isResolved c then KClosed else KAtt).
Proof.
  unfold closure_of, kinds. rewrite lookup_fmap.
  destruct (sessions st !! s) as [[d pc]|]; [|discriminate]. destruct pc; try discriminate.
  intros [= ->]. reflexivity.
Qed.

Lemma detach_isResolved t c : isResolved (detach t c).1 = isResolved c.
Proof. unfold detach. destruct t as [[|[|[|n]]]|]; reflexivity. Qed.

Lemma kept_detach_report env r st : kept (detach_report env r st).1 = kept st.
Proof.
  unfold detach_report. destruct (closure_of r st) as [c|] eqn:Hc; [|reflexivity].
  cbn [fst]. apply kept_set_pc_same. cbn [kind_of]. rewrite detach_isResolved.
  apply kinds_closure, Hc.
Qed.

Lemma kept_revoke_report env st : kept (revoke_report env st) = kept st.
Proof.
  unfold revoke_report. destruct (powerBiReport st) as [r|]; [|reflexivity].
  pose proof (kept_detach_report env r st) as H.
  destruct (detach_report env r st) as [st1 [|]]; exact H.
Qed.

Lemma kept_reset_service env st : kept (reset_service env st) = kept st.
Proof.
  unfold reset_service. destruct (powerBiService st); [|reflexivity].
  destruct (embedContainerRef st); [destruct (sdk_reset env _)|]; reflexivity.
Qed.

Lemma kept_renew_service env deep st : kept (renew_service env deep st) = kept st.
Proof. unfold renew_service. destruct (_ || _); reflexivity. Qed.

Lemma kept_remove_residual_frames env deep st :
  kept (remove_residual_frames env deep st).1 = kept st.
Proof.
  unfold remove_residual_frames. destruct (_ || _); [reflexivity|].
  apply kept_performHygiene_prepare.
Qed.

Lemma kept_performHygiene_begin env deep st : kept (performHygiene_begin env deep st).1 = kept st.
Proof.
  unfold performHygiene_begin. cbv zeta.
  destruct (negb _); [reflexivity|].
  rewrite kept_remove_residual_frames, kept_renew_service, kept_reset_service, kept_revoke_report.
  reflexivity.
Qed.

Lemma kept_fields st st' :
  kept st' = kept st ->
  kinds st' = kinds st /\ notifications st' = notifications st
  /\ uuidCounter st' = uuidCounter st /\ face st' = face st /\ jobs st' = jobs st
  /\ attemptCounter st' = attemptCounter st /\ embedCalls st' = embedCalls st
  /\ currentSessionId st' = currentSessionId st /\ isMounted st' = isMounted st.
Proof.
  unfold kept. intros H.
  assert (E1 := f_equal (fun p => p.1.1.1.1.1.1.1) H).
  assert (E2 := f_equal (fun p => p.1.1.1.1.1.1.2) H).
  assert (E3 := f_equal (fun p => p.1.1.1.1.1.2) H).
  assert (E4 := f_equal (fun p => p.1.1.1.1.2) H).
  assert (E5 := f_equal (fun p => p.1.1.1.2) H).
  assert (E6 := f_equal (fun p => p.1.1.2) H).
  assert (E7 := f_equal (fun p => p.1.2) H).
  assert (E8 := f_equal (fun p => p.2.1.1.1.1) H).
  assert (E9 := f_equal (fun p => p.2.1.2) H).
  cbn [fst snd] in *. auto 12.
Qed.

Lemma filter_no_powerbi (l : list Node) :
  filter (fun n => is_powerbi_iframe n = true) (filter (fun n => is_powerbi_iframe n = false) l) = [].
Proof.
  induction l as [|x l IH]; [reflexivity|]. cbn.
  destruct (decide (is_powerbi_iframe x = false)) as [Hx|Hx]; cbn; [|exact IH].
  rewrite decide_False by congruence. exact IH.
Qed.

Lemma widget_attributes_removed (m : gmap string string) a :
  a ∈ widget_attributes ->
  delete "powerbi-id" (delete "powerbi-type" (delete "powerbi-embed-url" m)) !! a = None.
Proof.
  unfold widget_attributes. rewrite !elem_of_cons, elem_of_nil.
  intros [->|[->|[->|[]]]]; simplify_map_eq; reflexivity.
Qed.

Lemma set_pc_frame s pc st :
  embedContainerRef (set_pc s pc st) = embedContainerRef st
  /\ service_part (set_pc s pc st) = service_part st
  /\ documentIframes (set_pc s pc st) = documentIframes st.
Proof. unfold set_pc. destruct (sessions st !! s); auto. Qed.

Lemma revoke_report_frame env st :
  embedContainerRef (revoke_report env st) = embedContainerRef st
  /\ service_part (revoke_report env st) = service_part st
  /\ documentIframes (revoke_report env st) = documentIframes st.
Proof.
  unfold revoke_report, detach_report. destruct (powerBiReport st) as [r|]; [|auto].
  destruct (closure_of r st) as [c|].
  - destruct (set_pc_frame r (PcAttached (detach (off_throws_at env) c).1) st) as (H1 & H2 & H3).
    destruct ((detach (off_throws_at env) c).2); auto.
  - auto.
Qed.

Lemma reset_service_frame env st :
  (is_Some (embedContainerRef st) -> is_Some (embedContainerRef (reset_service env st)))
  /\ service_part (reset_service env st) = service_part st
  /\ documentIframes (reset_service env st) = documentIframes st.
Proof.
  unfold reset_service. destruct (powerBiService st); [|auto].
  destruct (embedContainerRef st) eqn:He; [destruct (sdk_reset env _)|]; cbn; rewrite ?He;
    (split; [intros H; first [exact H | eexists; reflexivity]|auto]).
Qed.

(** The deep cleanup up to its first wait: the service is replaced by a
    new instance, the frames are gone and the wait of 100 ms starts. *)
Lemma performHygiene_begin_deep env st :
  isMounted st = true -> is_Some (embedContainerRef st) ->
  exists st',
    performHygiene_begin env true st = (st', HygAwait (AwaitIframes (now env + 100)))
    /\ is_Some (embedContainerRef st')
    /\ filter (fun n => is_powerbi_iframe n = true) (documentIframes st') = []
    /\ domStable (environmentChecks st') = domStable (environmentChecks st)
    /\ powerBiService st' = Some (serviceCounter st).
Proof.
  intros Hm He. unfold performHygiene_begin. cbv zeta.
  replace (isMounted (startTimer env "hygiene" st)) with (isMounted st) by reflexivity.
  rewrite Hm. cbn [negb]. unfold remove_residual_frames. rewrite orb_true_r.
  unfold renew_service. cbn [orb].
  match goal with |- context [reset_service env ?x] => set (st1 := x) end.
  destruct (reset_service_frame env st1) as (H1 & H2 & H3).
  destruct (revoke_report_frame env
              (logger env "Iniciando higienização do ambiente..." LWarn
                 (set_workspaceClean false (startTimer env "hygiene" st)))) as (G1 & G2 & G3).
  fold st1 in G1, G2, G3. cbn in G1, G2, G3.
  unfold service_part in H2, G2.
  assert (E2 := f_equal (fun p => p.1.2) H2). assert (E3 := f_equal (fun p => p.2) H2).
  assert (F2 := f_equal (fun p => p.1.2) G2). assert (F3 := f_equal (fun p => p.2) G2).
  cbn [fst snd] in *.
  eexists. split; [reflexivity|]. cbn.
  split; [|split; [apply filter_no_powerbi|split]].
  - destruct H1 as [e1 ->]; [rewrite G1; exact He|]. cbn. eauto.
  - rewrite E3, F3. reflexivity.
  - rewrite E2, F2. reflexivity.
Qed.

(** Steps 4 and 5 on a container: it is emptied, stripped of the three
    widget attributes and re-checked. *)
Lemma performHygiene_prepare_spec env deep st :
  is_Some (embedContainerRef st) ->
  exists st' e',
    performHygiene_prepare env deep st
      = (st', HygAwait (AwaitSettle
                          (domStable (environmentChecks st)
                           && (length (filter (fun n => is_powerbi_iframe n = true)
                                              (documentIframes st)) =? 0)%nat)
                          (now env + settle_delay deep)))
    /\ embedContainerRef st' = Some e'
    /\ children e' = []
    /\ (forall a, a ∈ widget_attributes -> attributes e' !! a = None)
    /\ workspaceClean st'
       = domStable (environmentChecks st)
         && (length (filter (fun n => is_powerbi_iframe n = true) (documentIframes st)) =? 0)%nat
    /\ powerBiService st' = powerBiService st.
Proof.
  intros [e He].
  unfold performHygiene_prepare, prepare_container, verifyDomSanity, powerbi_iframes.
  rewrite He. cbn.
  eexists _, _. split; [reflexivity|]. cbn.
  split; [reflexivity|]. split; [reflexivity|].
  split; [intros a Ha; apply widget_attributes_removed, Ha|]. auto.
Qed.

Lemma endTimer_frame env l st :
  let st' := (endTimer env l st).2 in
  embedContainerRef st' = embedContainerRef st /\ workspaceClean st' = workspaceClean st
  /\ powerBiService st' = powerBiService st.
Proof.
  unfold endTimer. destruct (timerRef st !! l) as [t|]; [destruct (t =? 0)|]; cbn; auto.
Qed.

Lemma hygiene_deep env1 env2 env3 st :
  isMounted st = true -> is_Some (embedContainerRef st) ->
  (forall k, powerBiService st = Some k -> (k < serviceCounter st)%nat) ->
  exists st' e',
    performHygiene_run env1 env2 env3 true st
      = (st', HygReturned (Some (domStable (environmentChecks st))), 850)
    /\ embedContainerRef st' = Some e'
    /\ children e' = []
    /\ (forall a, a ∈ widget_attributes -> attributes e' !! a = None)
    /\ workspaceClean st' = domStable (environmentChecks st)
    /\ powerBiService st' = Some (serviceCounter st)
    /\ powerBiService st' <> powerBiService st.
Proof.
  intros Hm He Hk. unfold performHygiene_run.
  destruct (performHygiene_begin_deep env1 st Hm He) as (st1 & -> & He1 & Hf1 & Hd1 & Hs1).
  cbn [performHygiene_resume].
  destruct (performHygiene_prepare_spec env2 true st1 He1)
    as (st2 & e2 & -> & He2 & Hc2 & Ha2 & Hw2 & Hs2).
  rewrite Hf1, Hd1, andb_true_r in *. cbn [performHygiene_resume due_of settle_delay].
  pose proof (endTimer_frame env3 "hygiene" st2) as (He3 & Hw3 & Hs3).
  destruct (endTimer env3 "hygiene" st2) as [dur st3]. cbn [snd] in *.
  exists st3, e2. split; [f_equal; lia|].
  rewrite He3, Hw3, Hs3, Hs2, Hs1. repeat split; auto.
  intros Heq. symmetry in Heq. apply Hk in Heq. lia.
Qed.

Lemma performHygiene_prepare_waits env deep st :
  exists st' c, performHygiene_prepare env deep st
                = (st', HygAwait (AwaitSettle c (now env + settle_delay deep))).
Proof.
  unfold performHygiene_prepare. destruct (verifyDomSanity env _) as [c st1]. eauto.
Qed.

Lemma hygiene_shallow_waits env1 env2 env3 st :
  (performHygiene_run env1 env2 env3 false st).2 <= 300.
Proof.
  unfold performHygiene_run, performHygiene_begin. cbv zeta.
  destruct (negb _); [cbn; lia|].
  unfold remove_residual_frames. rewrite orb_false_r.
  match goal with |- context [if ?c then _ else _] => destruct c end.
  - cbn [performHygiene_resume].
    match goal with |- context [performHygiene_prepare env2 false ?x] =>
      destruct (performHygiene_prepare_waits env2 false x) as (st2 & c & ->) end.
    cbn [performHygiene_resume]. destruct (endTimer _ _ _). cbn. lia.
  - match goal with |- context [performHygiene_prepare env1 false ?x] =>
      destruct (performHygiene_prepare_waits env1 false x) as (st2 & c & ->) end.
    cbn [performHygiene_resume]. destruct (endTimer _ _ _). cbn. lia.
Qed.

(** ** The render timeout *)

Lemma sessions_set_pc s pc st ses :
  sessions st !! s = Some ses ->
  set_pc s pc st
  = set_sessions (<[s := {| s_dashboard := s_dashboard ses; s_pc := pc |}]> (sessions st)) st.
Proof. intros H. unfold set_pc. rewrite H. reflexivity. Qed.

Lemma closure_of_attached s st d c :
  sessions st !! s = Some {| s_dashboard := d; s_pc := PcAttached c |} -> closure_of s st = Some c.
Proof. intros H. unfold closure_of. rewrite H. reflexivity. Qed.

Lemma performHygiene_begin_deep_waits env st :
  isMounted st = true ->
  (performHygiene_begin env true st).2 = HygAwait (AwaitIframes (now env + 100)).
Proof.
  intros Hm. unfold performHygiene_begin. cbv zeta.
  replace (isMounted (startTimer env "hygiene" st)) with (isMounted st) by reflexivity.
  rewrite Hm. cbn [negb]. unfold remove_residual_frames. rewrite orb_true_r. reflexivity.
Qed.

(** A deep cleanup followed by [k], started while mounted: nothing of
    [kept] moves, and the continuation waits in the job queue. *)
Lemma hygiene_then_deep env k st :
  isMounted st = true ->
  let st' := hygiene_then env true k st in
  kinds st' = kinds st /\ notifications st' = notifications st
  /\ uuidCounter st' = uuidCounter st /\ face st' = face st
  /\ attemptCounter st' = attemptCounter st
  /\ jobs st' = jobs st ++ [JHygiene true (AwaitIframes (now env + 100)) k].
Proof.
  intros Hm. unfold hygiene_then.
  pose proof (performHygiene_begin_deep_waits env st Hm) as Hw.
  pose proof (kept_performHygiene_begin env true st) as Hk.
  destruct (performHygiene_begin env true st) as [st1 r]. cbn [fst snd] in *. subst r.
  apply kept_fields in Hk as (K1 & K2 & K3 & K4 & K5 & K6 & _).
  cbn. unfold add_job. cbn. rewrite K5. change (kinds (set_jobs _ st1)) with (kinds st1).
  change (face (set_jobs _ st1)) with (face st1). auto 10.
Qed.

Lemma render_timeout_armed env s td st ses svc e e' :
  sessions st !! s = Some ses -> powerBiService st = Some svc ->
  embedContainerRef st = Some e -> sdk_embed env e = Returns e' ->
  closure_of s (embed_attach env s td st)
  = Some {| isResolved := false; listensLoaded := true; listensRendered := true;
            listensError := true; timeoutDue := Some (now env + 45000) |}.
Proof.
  intros Hs Hv He Hr. unfold embed_attach. rewrite Hv, He, Hr.
  erewrite sessions_set_pc by (cbn; exact Hs).
  unfold closure_of. cbn. rewrite lookup_insert_eq. reflexivity.
Qed.

Lemma timeout_not_before_due newURL env s d c due st :
  sessions st !! s = Some {| s_dashboard := d; s_pc := PcAttached c |} ->
  timeoutDue c = Some due -> now env < due ->
  step newURL env (RenderTimeout s) st = st.
Proof.
  intros Hs Hd Hn. cbn [step]. unfold fire_timeout. rewrite Hs, Hd.
  destruct (Z.leb_spec due (now env)); [lia|reflexivity].
Qed.

Lemma timeout_fires newURL env s d c due st :
  sessions st !! s = Some {| s_dashboard := d; s_pc := PcAttached c |} ->
  timeoutDue c = Some due -> isResolved c = false -> isMounted st = true -> due <= now env ->
  step newURL env (RenderTimeout s) st
  = timed_out env s d
      (set_sessions (<[s := {| s_dashboard := d; s_pc := PcAttached (set_timeoutDue None c) |}]>
                       (sessions st)) st).
Proof.
  intros Hs Hd Hr Hm Hn. cbn [step]. unfold fire_timeout. rewrite Hs, Hd.
  destruct (Z.leb_spec due (now env)); [|lia].
  unfold handleTimeout. rewrite Hr, Hm. cbn [negb andb].
  unfold clear_timeout_due. rewrite (closure_of_attached _ _ _ _ Hs).
  rewrite (sessions_set_pc _ _ _ _ Hs). reflexivity.
Qed.

Lemma mark_resolved_attached s st d c :
  sessions st !! s = Some {| s_dashboard := d; s_pc := PcAttached c |} ->
  mark_resolved s st
  = set_sessions (<[s := {| s_dashboard := d; s_pc := PcAttached (set_isResolved true c) |}]>
                    (sessions st)) st.
Proof.
  intros Hs. unfold mark_resolved. rewrite (closure_of_attached _ _ _ _ Hs).
  rewrite (sessions_set_pc _ _ _ _ Hs). reflexivity.
Qed.

Lemma timeout_retries newURL env s d c due st :
  sessions st !! s = Some {| s_dashboard := d; s_pc := PcAttached c |} ->
  timeoutDue c = Some due -> isResolved c = false -> isMounted st = true -> due <= now env ->
  attemptCounter st <= 2 ->
  let st' := step newURL env (RenderTimeout s) st in
  face st' = face st /\ notifications st' = notifications st
  /\ uuidCounter st' = uuidCounter st
  /\ jobs st' = jobs st ++ [JHygiene true (AwaitIframes (now env + 100)) (KReload d)]
  /\ kinds st' !! s = Some KClosed.
Proof.
  intros Hs Hd Hr Hm Hn Ha. cbn zeta. rewrite (timeout_fires _ _ _ _ _ _ _ Hs Hd Hr Hm Hn).
  unfold timed_out. cbn [attemptCounter set_sessions].
  destruct (Z.leb_spec (attemptCounter st) timeout_retry_cap) as [_|Hc];
    [|unfold timeout_retry_cap in Hc; lia].
  erewrite mark_resolved_attached by (cbn; apply lookup_insert_eq).
  cbn [sessions set_sessions]. rewrite insert_insert_eq.
  match goal with |- context [hygiene_then env true ?k ?x] =>
    destruct (hygiene_then_deep env k x) as (K1 & K2 & K3 & K4 & K5 & K6); [exact Hm|] end.
  rewrite K1, K2, K3, K4, K6. repeat split.
  unfold kinds. cbn. rewrite lookup_fmap, lookup_insert_eq. reflexivity.
Qed.

Lemma timeout_terminal newURL env s d c due st :
  sessions st !! s = Some {| s_dashboard := d; s_pc := PcAttached c |} ->
  timeoutDue c = Some due -> isResolved c = false -> isMounted st = true -> due <= now env ->
  3 <= attemptCounter st ->
  let st' := step newURL env (RenderTimeout s) st in
  error st' = Some "Timeout ao carregar dashboard" /\ isLoading st' = false
  /\ notifications st' = notifications st ++ [(s, onError "Timeout ao carregar dashboard")]
  /\ jobs st' = jobs st /\ uuidCounter st' = uuidCounter st
  /\ kinds st' !! s = Some KClosed.
Proof.
  intros Hs Hd Hr Hm Hn Ha. cbn zeta. rewrite (timeout_fires _ _ _ _ _ _ _ Hs Hd Hr Hm Hn).
  unfold timed_out. cbn [attemptCounter set_sessions].
  destruct (Z.leb_spec (attemptCounter st) timeout_retry_cap) as [Hc|_];
    [unfold timeout_retry_cap in Hc; lia|].
  erewrite mark_resolved_attached by (cbn; apply lookup_insert_eq).
  cbn. repeat split. unfold kinds. cbn. rewrite lookup_fmap, insert_insert_eq, lookup_insert_eq.
  reflexivity.
Qed.

Lemma abook_of_kept st st' : kept st' = kept st -> abook st' = abook st.
Proof. intros H. apply kept_fields in H as (H1 & H2 & H3 & _). unfold abook. congruence. Qed.

Lemma Inv_Move b b' : Inv b -> Move b b' -> Inv b'.
Proof.
  intros HI HM. destruct HM as [ks ns u s k0 k Hs Hk|ks ns u s k0 n Hs Hk|ks ns u];
    destruct HI as (Hnd & Hcl & Hfr); cbn.
  - split; [exact Hnd|]. split.
    + intros r Hr. destruct (decide (r = s)) as [->|Hne].
      * rewrite (Hcl _ Hr) in Hs. congruence.
      * rewrite lookup_insert_ne by congruence. auto.
    + intros r Hr. destruct (decide (r = s)) as [->|Hne].
      * rewrite (Hfr _ Hr) in Hs. discriminate.
      * rewrite lookup_insert_ne by congruence. auto.
  - assert (Hnot : s ∉ ns.*1).
    { intros Hin. rewrite (Hcl _ Hin) in Hs. congruence. }
    rewrite fmap_app. cbn. split; [|split].
    + apply NoDup_app. split; [exact Hnd|]. split; [|apply NoDup_singleton].
      intros x Hx Hx'. apply list_elem_of_singleton in Hx'. subst x. contradiction.
    + intros r Hr. apply elem_of_app in Hr as [Hr|Hr].
      * destruct (decide (r = s)) as [->|Hne]; [contradiction|].
        rewrite lookup_insert_ne by congruence. auto.
      * apply list_elem_of_singleton in Hr. subst r. apply lookup_insert_eq.
    + intros r Hr. destruct (decide (r = s)) as [->|Hne].
      * rewrite (Hfr _ Hr) in Hs. discriminate.
      * rewrite lookup_insert_ne by congruence. auto.
  - split; [exact Hnd|]. split.
    + intros r Hr. destruct (decide (r = u)) as [->|Hne].
      * pose proof (Hcl u Hr) as Hc. rewrite (Hfr u) in Hc by lia. discriminate.
      * rewrite lookup_insert_ne by congruence. auto.
    + intros r Hr. rewrite lookup_insert_ne by lia. apply Hfr. lia.
Qed.

Lemma Inv_Moves b b' : Inv b -> Moves b b' -> Inv b'.
Proof. intros HI HM. induction HM; eauto using Inv_Move. Qed.

Lemma Moves_eq b b' : b' = b -> Moves b b'.
Proof. intros ->. apply rtc_refl. Qed.

Lemma Moves_trans b1 b2 b3 : Moves b1 b2 -> Moves b2 b3 -> Moves b1 b3.
Proof. apply rtc_trans. Qed.

(** *** The quiet steps *)

Lemma A_endTimer env l st : abook (endTimer env l st).2 = abook st.
Proof. apply abook_of_kept, kept_endTimer. Qed.

Lemma sessions_endTimer env l st : sessions (endTimer env l st).2 = sessions st.
Proof. unfold endTimer. destruct (timerRef st !! l) as [t|]; [destruct (t =? 0)|]; reflexivity. Qed.

Lemma A_performHygiene_begin env deep st : abook (performHygiene_begin env deep st).1 = abook st.
Proof. apply abook_of_kept, kept_performHygiene_begin. Qed.

Lemma A_performHygiene_resume env deep w st :
  abook (performHygiene_resume env deep w st).1 = abook st.
Proof. apply abook_of_kept, kept_performHygiene_resume. Qed.

Lemma A_token_from_cache env c st : abook (token_from_cache env c st).1 = abook st.
Proof.
  unfold token_from_cache.
  match goal with |- context [endTimer env ?l ?x] =>
    pose proof (A_endTimer env l x) as H; destruct (endTimer env l x) as [t st1] end.
  exact H.
Qed.

Lemma A_getEmbedToken_lookup env d st : abook (getEmbedToken_lookup env d st).1 = abook st.
Proof.
  unfold getEmbedToken_lookup. cbv zeta.
  destruct (tokenCache st !! cacheKey d) as [c|]; [|reflexivity].
  destruct (_ && _); [apply A_token_from_cache|]. destruct (negb _); reflexivity.
Qed.

Lemma A_getEmbedToken_begin env d st : abook (getEmbedToken_begin env d st).1 = abook st.
Proof.
  unfold getEmbedToken_begin. cbv zeta. destruct (negb _); [reflexivity|].
  rewrite A_getEmbedToken_lookup. reflexivity.
Qed.

Lemma A_getEmbedToken_catch env name m st : abook (getEmbedToken_catch env name m st).1 = abook st.
Proof.
  unfold getEmbedToken_catch.
  match goal with |- context [endTimer env ?l ?x] =>
    pose proof (A_endTimer env l x) as H; destruct (endTimer env l x) as [t st1] end.
  cbn [fst snd] in *. rewrite H. destruct (String.eqb name _); reflexivity.
Qed.

Lemma A_getEmbedToken_on_fetch env st : abook (getEmbedToken_on_fetch env st).1 = abook st.
Proof.
  unfold getEmbedToken_on_fetch. destruct (fetch_outcome env);
    [destruct (negb _); reflexivity|apply A_getEmbedToken_catch].
Qed.

Lemma A_getEmbedToken_on_text env status txt st :
  abook (getEmbedToken_on_text env status txt st).1 = abook st.
Proof.
  unfold getEmbedToken_on_text. destruct (text_outcome env);
    [reflexivity|apply A_getEmbedToken_catch].
Qed.

Lemma A_token_store env d tok url st : abook (token_store env d tok url st).1 = abook st.
Proof.
  unfold token_store. cbv zeta.
  match goal with |- context [endTimer env ?l ?x] =>
    pose proof (A_endTimer env l x) as H; destruct (endTimer env l x) as [t st1] end.
  exact H.
Qed.

Lemma A_getEmbedToken_on_json env d st : abook (getEmbedToken_on_json env d st).1 = abook st.
Proof.
  unfold getEmbedToken_on_json. destruct (json_outcome env) as [[tok|] [url|]|];
    try reflexivity; [|apply A_getEmbedToken_catch].
  destruct (_ || _); [reflexivity|apply A_token_store].
Qed.

Section Quiet.

Variable newURL : string -> Js.Parsed.

Lemma A_flag env ok m vs : abook (flag env ok m vs).2 = abook vs.2.
Proof. unfold flag. destruct ok; reflexivity. Qed.

Lemma A_validate_reportId env d url vs :
  abook (validate_reportId newURL env d url vs).2 = abook vs.2.
Proof.
  unfold validate_reportId. destruct (newURL url) as [u|e]; [|reflexivity].
  destruct (Js.get _ _) as [rid|]; [|reflexivity].
  destruct (negb _); [reflexivity|]. destruct (negb _); reflexivity.
Qed.

Lemma A_validate_conclude env vs : abook (validate_conclude env vs).2 = abook vs.2.
Proof.
  unfold validate_conclude.
  pose proof (A_endTimer env "validateUrl" vs.2) as H.
  destruct (endTimer env "validateUrl" vs.2) as [t st1]. exact H.
Qed.

Lemma A_validateEmbedUrl env d url st : abook (validateEmbedUrl newURL env d url st).2 = abook st.
Proof.
  unfold validateEmbedUrl. cbv zeta. destruct (_ || _); [reflexivity|].
  rewrite A_validate_conclude, A_validate_reportId, !A_flag. reflexivity.
Qed.

Lemma A_kont_run env k st : abook (kont_run env k st) = abook st.
Proof. destruct k; reflexivity. Qed.

Lemma A_job_hygiene_step env deep k r st : abook (job_hygiene_step env deep k r st) = abook st.
Proof. destruct r; [apply A_kont_run|reflexivity]. Qed.

Lemma A_hygiene_then env deep k st : abook (hygiene_then env deep k st) = abook st.
Proof.
  unfold hygiene_then. pose proof (A_performHygiene_begin env deep st) as H.
  destruct (performHygiene_begin env deep st) as [st1 r]. rewrite A_job_hygiene_step. exact H.
Qed.

Lemma A_dashboard_effect env d st : abook (dashboard_effect env d st) = abook st.
Proof.
  unfold dashboard_effect. destruct (negb _); [|reflexivity].
  unfold dashboard_changed. cbv zeta. rewrite A_hygiene_then. reflexivity.
Qed.

Lemma A_unmount env st : abook (unmount env st) = abook st.
Proof.
  unfold unmount. change (abook (remove_powerbi_iframes ?x)) with (abook x).
  destruct (powerBiReport st) as [r|]; [|reflexivity].
  rewrite (abook_of_kept _ _ (kept_detach_report env r _)). reflexivity.
Qed.

(** *** The steps of one session *)

Lemma A_set_pc s pc st k :
  kinds st !! s = Some k ->
  abook (set_pc s pc st) = (<[s := kind_of pc]> (kinds st), notifications st, uuidCounter st).
Proof.
  intros H. unfold abook. rewrite (kinds_set_pc _ _ _ _ H).
  unfold set_pc. destruct (sessions st !! s); reflexivity.
Qed.

Lemma M_set_pc s pc st k :
  kinds st !! s = Some k -> k <> KClosed -> Moves (abook st) (abook (set_pc s pc st)).
Proof.
  intros H Hk. rewrite (A_set_pc _ _ _ _ H). apply rtc_once. eapply move_set; eassumption.
Qed.

(** A closing step that tells the host: [notify] and, before or after,
    the session closes. *)
Lemma M_notify_close s n pc st st' k :
  kinds st !! s = Some k -> k <> KClosed -> kind_of pc = KClosed ->
  abook st' = (kinds st, notifications st ++ [(s, n)], uuidCounter st) ->
  Moves (abook st) (abook (set_pc s pc st')).
Proof.
  intros H Hk Hpc Hst'.
  assert (Hks : kinds st' = kinds st) by (unfold abook in Hst'; congruence).
  rewrite (A_set_pc s pc st' k) by (rewrite Hks; exact H).
  unfold abook in Hst'. injection Hst' as -> -> ->. rewrite Hpc.
  apply rtc_once. eapply move_notify; eassumption.
Qed.

Lemma M_embed_catch env s msg st k :
  kinds st !! s = Some k -> k <> KClosed ->
  Moves (abook st) (abook (embed_catch env s msg st)).
Proof.
  intros H Hk. unfold embed_catch.
  match goal with |- context [endTimer env ?l ?x] =>
    pose proof (A_endTimer env l x) as HA; destruct (endTimer env l x) as [t st1] end.
  cbn [snd] in HA.
  eapply M_notify_close; [exact H|exact Hk|reflexivity|rewrite HA; reflexivity].
Qed.

Lemma M_embed_inner_catch env s st k :
  kinds st !! s = Some k -> k <> KClosed ->
  Moves (abook st) (abook (embed_inner_catch env s st)).
Proof.
  intros H Hk. unfold embed_inner_catch. cbv zeta.
  eapply M_notify_close; [exact H|exact Hk|reflexivity|reflexivity].
Qed.

(** The same step taken from a state with the same book. *)
Lemma Moves_from st0 st b : Moves (abook st0) b -> abook st0 = abook st -> Moves (abook st) b.
Proof. intros H <-. exact H. Qed.

Ltac from_same tac := eapply Moves_from; [tac|reflexivity].

Lemma M_embed_attach env s td st :
  kinds st !! s = Some KPre -> Moves (abook st) (abook (embed_attach env s td st)).
Proof.
  intros H. unfold embed_attach.
  destruct (powerBiService st); [|eapply M_embed_inner_catch; eauto; discriminate].
  destruct (embedContainerRef st) as [e|].
  - destruct (sdk_embed env e) as [e'|e'].
    + from_same ltac:(eapply M_set_pc; [exact H|discriminate]).
    + from_same ltac:(eapply M_embed_inner_catch; [exact H|discriminate]).
  - from_same ltac:(eapply M_embed_inner_catch; [exact H|discriminate]).
Qed.

Lemma M_embed_tick env s td st :
  kinds st !! s = Some KPre -> Moves (abook st) (abook (embed_tick env s td st)).
Proof.
  intros H. unfold embed_tick.
  destruct (embedContainerRef st) as [e|]; [|eapply M_set_pc; eauto; discriminate].
  destruct (powerBiService st); [|eapply M_set_pc; eauto; discriminate].
  destruct (negb _); [eapply M_set_pc; eauto; discriminate|].
  destruct (sdk_get env) as [[|]|].
  - destruct (sdk_reset env e).
    + from_same ltac:(eapply M_set_pc; [exact H|discriminate]).
    + from_same ltac:(apply M_embed_attach, H).
  - apply M_embed_attach, H.
  - from_same ltac:(apply M_embed_attach, H).
Qed.

Lemma M_embed_render env s td st :
  kinds st !! s = Some KPre -> Moves (abook st) (abook (embed_render env s td st)).
Proof.
  intros H. unfold embed_render. destruct (embedContainerRef st) as [e|].
  - cbv zeta. destruct (powerBiService st);
      from_same ltac:(eapply M_set_pc; [exact H|discriminate]).
  - from_same ltac:(eapply M_embed_catch; [exact H|discriminate]).
Qed.

Lemma M_embed_after_stabilize env s td st :
  kinds st !! s = Some KPre -> Moves (abook st) (abook (embed_after_stabilize env s td st)).
Proof.
  intros H. unfold embed_after_stabilize. destruct (_ || _); [|apply M_embed_render, H].
  from_same ltac:(eapply M_set_pc; [exact H|discriminate]).
Qed.

Lemma M_embed_configure env s td st :
  kinds st !! s = Some KPre -> Moves (abook st) (abook (embed_configure env s td st)).
Proof.
  intros H. unfold embed_configure.
  destruct (embedContainerRef st); [destruct (powerBiService st)|];
    first [from_same ltac:(eapply M_set_pc; [exact H|discriminate])
          |from_same ltac:(eapply M_embed_catch; [exact H|discriminate])].
Qed.

Lemma M_embed_validate env s d td st :
  kinds st !! s = Some KPre -> Moves (abook st) (abook (embed_validate newURL env s d td st)).
Proof.
  intros H. unfold embed_validate.
  match goal with |- context [validateEmbedUrl newURL env d ?u ?x] =>
    pose proof (A_validateEmbedUrl env d u x) as HA;
    destruct (validateEmbedUrl newURL env d u x) as [v st1] end.
  cbn [snd] in HA. change (abook (set_loadingPhase _ _)) with (abook st) in HA.
  assert (H1 : kinds st1 !! s = Some KPre) by (unfold abook in HA; congruence).
  rewrite <- HA. destruct (negb v); [eapply M_embed_catch; [exact H1|discriminate]|].
  apply M_embed_configure, H1.
Qed.

Lemma M_embed_auth_failed env s st :
  kinds st !! s = Some KPre -> Moves (abook st) (abook (embed_auth_failed env s st)).
Proof.
  intros H. unfold embed_auth_failed.
  from_same ltac:(eapply M_embed_catch; [exact H|discriminate]).
Qed.

Lemma M_embed_after_token env s d r st :
  kinds st !! s = Some KPre -> Moves (abook st) (abook (embed_after_token newURL env s d r st)).
Proof.
  intros H. unfold embed_after_token. destruct r as [td|]; [|apply M_embed_auth_failed, H].
  destruct (_ || _); [apply M_embed_auth_failed, H|apply M_embed_validate, H].
Qed.

Lemma M_embed_token_step env s d t st :
  kinds st !! s = Some KPre -> Moves (abook st) (abook (embed_token_step newURL env s d t st)).
Proof.
  intros H. destruct t; cbn [embed_token_step]; [apply M_embed_after_token, H|].
  eapply M_set_pc; [exact H|discriminate].
Qed.

Lemma M_embed_after_hygiene env s d st :
  kinds st !! s = Some KPre -> Moves (abook st) (abook (embed_after_hygiene newURL env s d st)).
Proof.
  intros H. unfold embed_after_hygiene. destruct (_ || _).
  - from_same ltac:(eapply M_set_pc; [exact H|discriminate]).
  - match goal with |- context [getEmbedToken_begin env d ?x] =>
      pose proof (A_getEmbedToken_begin env d x) as HA;
      destruct (getEmbedToken_begin env d x) as [st1 t] end.
    cbn [fst] in HA. change (abook (set_loadingPhase _ _)) with (abook st) in HA.
    rewrite <- HA. apply M_embed_token_step. unfold abook in HA. congruence.
Qed.

Lemma M_embed_hygiene_step env s d deep r st :
  kinds st !! s = Some KPre ->
  Moves (abook st) (abook (embed_hygiene_step newURL env s d deep r st)).
Proof.
  intros H. destruct r; cbn [embed_hygiene_step]; [apply M_embed_after_hygiene, H|].
  eapply M_set_pc; [exact H|discriminate].
Qed.

Lemma A_new_session d st :
  abook (new_session d st) = (<[uuidCounter st := KPre]> (kinds st), notifications st,
                              S (uuidCounter st)).
Proof. unfold abook, kinds, new_session. cbn. rewrite fmap_insert. reflexivity. Qed.

Lemma M_embed_start env d st : Moves (abook st) (abook (embed_start newURL env d st).1).
Proof.
  unfold embed_start. cbv zeta.
  match goal with |- context [performHygiene_begin env ?b ?x] =>
    pose proof (A_performHygiene_begin env b x) as HA;
    assert (HX : abook x = (<[uuidCounter st := KPre]> (kinds st), notifications st,
                            S (uuidCounter st)))
      by (unfold abook, kinds, new_session; cbn [sessions notifications uuidCounter
            set_loadingProgress set_loadingPhase set_currentReportId set_sessions
            set_currentSessionId set_uuidCounter logger set_logs set_attemptCounter set_error
            set_isReady set_isLoading];
          rewrite fmap_insert; reflexivity);
    destruct (performHygiene_begin env b x) as [st1 r] end.
  cbn [fst] in *. rewrite HX in HA. clear HX.
  eapply Moves_trans.
  - apply rtc_once. apply (move_spawn (kinds st) (notifications st) (uuidCounter st)).
  - rewrite <- HA. apply M_embed_hygiene_step.
    unfold abook in HA. injection HA as -> _ _. apply lookup_insert_eq.
Qed.

Lemma M_embedReport env force d st : Moves (abook st) (abook (embedReport newURL env force d st).1).
Proof.
  unfold embedReport. cbv zeta. destruct (negb _); [apply rtc_refl|].
  destruct (_ && _); [apply rtc_refl|].
  from_same ltac:(apply M_embed_start).
Qed.

(** *** The handlers of a closure *)

Lemma kinds_lookup s st ses :
  sessions st !! s = Some ses -> kinds st !! s = Some (kind_of (s_pc ses)).
Proof. intros H. unfold kinds. rewrite lookup_fmap, H. reflexivity. Qed.

Lemma closure_open s st c :
  closure_of s st = Some c -> isResolved c = false -> kinds st !! s = Some KAtt.
Proof. intros Hc Hr. rewrite (kinds_closure _ _ _ Hc), Hr. reflexivity. Qed.

Lemma A_mark_resolved s st c :
  closure_of s st = Some c ->
  abook (mark_resolved s st) = (<[s := KClosed]> (kinds st), notifications st, uuidCounter st).
Proof.
  intros Hc. unfold mark_resolved. rewrite Hc.
  erewrite A_set_pc by (eapply kinds_closure, Hc). reflexivity.
Qed.

Lemma A_clear_timeout_due s st : abook (clear_timeout_due s st) = abook st.
Proof.
  unfold clear_timeout_due. destruct (closure_of s st) as [c|] eqn:Hc; [|reflexivity].
  apply abook_of_kept, kept_set_pc_same. rewrite (kinds_closure _ _ _ Hc). reflexivity.
Qed.

Lemma closure_of_clear s st c :
  closure_of s st = Some c -> closure_of s (clear_timeout_due s st) = Some (set_timeoutDue None c).
Proof.
  intros Hc. unfold clear_timeout_due. rewrite Hc. revert Hc. unfold closure_of, set_pc.
  destruct (sessions st !! s) as [[d pc]|]; [|discriminate]. intros _. cbn.
  rewrite lookup_insert_eq. reflexivity.
Qed.

(** The closure resolves and the host is told, at once. *)
Lemma M_resolve_notify s n st st' c :
  closure_of s st = Some c -> isResolved c = false ->
  abook st' = (kinds (mark_resolved s st), notifications (mark_resolved s st) ++ [(s, n)],
               uuidCounter (mark_resolved s st)) ->
  Moves (abook st) (abook st').
Proof.
  intros Hc Hr ->. pose proof (A_mark_resolved _ _ _ Hc) as HA. unfold abook in HA.
  injection HA as -> -> ->. apply rtc_once. eapply move_notify; [eapply closure_open; eauto|].
  discriminate.
Qed.

Lemma M_rendered env s t st c :
  closure_of s st = Some c -> isResolved c = false ->
  Moves (abook st) (abook (rendered env s t st)).
Proof. intros Hc Hr. eapply M_resolve_notify; [exact Hc|exact Hr|reflexivity]. Qed.

Lemma M_handleRendered env s c st :
  closure_of s st = Some c -> Moves (abook st) (abook (handleRendered env s c st)).
Proof.
  intros Hc. unfold handleRendered.
  pose proof (A_endTimer env "embedReport" st) as HA.
  pose proof (sessions_endTimer env "embedReport" st) as HS.
  destruct (endTimer env "embedReport" st) as [t st1]. cbn [snd] in *.
  rewrite <- HA. destruct (isResolved c) eqn:Hr; [apply rtc_refl|]. cbn [orb].
  destruct (negb _); [apply rtc_refl|].
  eapply M_rendered; [|exact Hr]. unfold closure_of in *. rewrite HS. exact Hc.
Qed.

Lemma M_surface_error s msg st c :
  closure_of s st = Some c -> isResolved c = false ->
  Moves (abook st) (abook (surface_error s msg st)).
Proof. intros Hc Hr. eapply M_resolve_notify; [exact Hc|exact Hr|reflexivity]. Qed.

Lemma M_errored env s msg st c :
  closure_of s st = Some c -> isResolved c = false ->
  Moves (abook st) (abook (errored env s msg st)).
Proof.
  intros Hc Hr. unfold errored. destruct (_ && _); [|eapply M_surface_error; eauto].
  rewrite A_hygiene_then. apply rtc_refl.
Qed.

Lemma M_handleError env s c m st :
  closure_of s st = Some c -> Moves (abook st) (abook (handleError env s c m st)).
Proof.
  intros Hc. unfold handleError. cbv zeta.
  destruct (isResolved c) eqn:Hr; [apply rtc_refl|]. cbn [orb].
  destruct (negb _); [apply rtc_refl|].
  from_same ltac:(eapply M_errored; [exact Hc|exact Hr]).
Qed.

Lemma M_timed_out env s d st c :
  closure_of s st = Some c -> isResolved c = false ->
  Moves (abook st) (abook (timed_out env s d st)).
Proof.
  intros Hc Hr. unfold timed_out. destruct (_ <=? _).
  - rewrite A_hygiene_then.
    change (abook (logger _ _ _ (logger _ _ _ ?x))) with (abook x).
    rewrite (A_mark_resolved _ _ _ Hc). apply rtc_once.
    eapply move_set; [eapply closure_open; eauto|discriminate].
  - eapply M_resolve_notify; [exact Hc|exact Hr|reflexivity].
Qed.

Lemma M_handleTimeout env s d c st :
  closure_of s st = Some c -> Moves (abook st) (abook (handleTimeout env s d c st)).
Proof.
  intros Hc. unfold handleTimeout. rewrite <- (A_clear_timeout_due s st) at 1.
  destruct (isResolved c) eqn:Hr; [apply rtc_refl|]. cbn [negb andb].
  destruct (isMounted st); [|apply rtc_refl].
  eapply M_timed_out; [apply closure_of_clear, Hc|exact Hr].
Qed.

Lemma M_dispatch env s c sig st :
  closure_of s st = Some c -> Moves (abook st) (abook (dispatch env s c sig st)).
Proof.
  intros Hc. destruct sig; cbn [dispatch].
  - destruct (listensLoaded c); apply rtc_refl.
  - destruct (listensRendered c); [apply M_handleRendered, Hc|apply rtc_refl].
  - destruct (listensError c); [apply M_handleError, Hc|apply rtc_refl].
Qed.

Lemma M_fire_timeout env s st : Moves (abook st) (abook (fire_timeout env s st)).
Proof.
  unfold fire_timeout. destruct (sessions st !! s) as [[d pc]|] eqn:Hs; [|apply rtc_refl].
  destruct pc; try apply rtc_refl. destruct (timeoutDue c); [|apply rtc_refl].
  destruct (_ <=? _); [|apply rtc_refl].
  apply M_handleTimeout. unfold closure_of. rewrite Hs. reflexivity.
Qed.

(** *** The event loop *)

Lemma M_resume_session env s ses st :
  sessions st !! s = Some ses ->
  Moves (abook st) (abook (resume_session newURL env s (s_dashboard ses) (s_pc ses) st)).
Proof.
  intros Hs. pose proof (kinds_lookup _ _ _ Hs) as Hk.
  destruct (s_pc ses) eqn:Hpc; cbn [resume_session]; try apply rtc_refl; cbn in Hk.
  - destruct (_ <=? _); [|apply rtc_refl].
    pose proof (A_performHygiene_resume env deep w st) as HA.
    destruct (performHygiene_resume env deep w st) as [st1 r]. cbn [fst] in HA.
    rewrite <- HA. apply M_embed_hygiene_step. unfold abook in HA. congruence.
  - destruct (fetch_settled env abortDue); [|apply rtc_refl].
    pose proof (A_getEmbedToken_on_fetch env st) as HA.
    destruct (getEmbedToken_on_fetch env st) as [st1 t]. cbn [fst] in HA.
    rewrite <- HA. apply M_embed_token_step. unfold abook in HA. congruence.
  - pose proof (A_getEmbedToken_on_text env status statusText st) as HA.
    destruct (getEmbedToken_on_text env status statusText st) as [st1 t]. cbn [fst] in HA.
    rewrite <- HA. apply M_embed_token_step. unfold abook in HA. congruence.
  - pose proof (A_getEmbedToken_on_json env (s_dashboard ses) st) as HA.
    destruct (getEmbedToken_on_json env (s_dashboard ses) st) as [st1 t]. cbn [fst] in HA.
    rewrite <- HA. apply M_embed_token_step. unfold abook in HA. congruence.
  - destruct (_ <=? _); [apply M_embed_after_stabilize, Hk|apply rtc_refl].
  - destruct (_ <=? _); [apply M_embed_tick, Hk|apply rtc_refl].
  - destruct (_ <=? _); [apply M_embed_attach, Hk|apply rtc_refl].
Qed.

Lemma M_run_job env j st : Moves (abook st) (abook (run_job newURL env j st)).
Proof.
  destruct j; cbn [run_job].
  - pose proof (A_performHygiene_resume env deep w st) as HA.
    destruct (performHygiene_resume env deep w st) as [st1 r]. cbn [fst] in HA.
    rewrite A_job_hygiene_step, HA. apply rtc_refl.
  - destruct (_ && _); [|apply rtc_refl].
    destruct (sessions st !! s); [apply M_embedReport|apply rtc_refl].
  - destruct (isMounted st); [apply M_embedReport|apply rtc_refl].
Qed.

Lemma M_step env ev st : Moves (abook st) (abook (step newURL env ev st)).
Proof.
  destruct ev; cbn [step].
  - rewrite A_dashboard_effect. apply rtc_refl.
  - apply M_embedReport.
  - apply M_embedReport.
  - rewrite A_hygiene_then. apply rtc_refl.
  - rewrite A_unmount. apply rtc_refl.
  - destruct (sessions st !! s) as [ses|] eqn:Hs; [apply M_resume_session, Hs|apply rtc_refl].
  - apply M_fire_timeout.
  - destruct (closure_of s st) as [c|] eqn:Hc; [apply M_dispatch, Hc|apply rtc_refl].
  - destruct (jobs st !! i) as [j|]; [|apply rtc_refl].
    destruct (_ <=? _); [|apply rtc_refl].
    from_same ltac:(apply M_run_job).
Qed.

Lemma Inv_run trace st : Inv (abook st) -> Inv (abook (run newURL trace st)).
Proof.
  revert st. induction trace as [|[env ev] trace IH]; intros st HI; [exact HI|].
  cbn [run foldl]. apply IH. eapply Inv_Moves; [exact HI|apply M_step].
Qed.

End Quiet.

Lemma Inv_initial d e : Inv (abook (initial d e)).
Proof.
  cbn. split; [apply NoDup_nil_2|]. split.
  - intros s Hs. apply elem_of_nil in Hs. contradiction.
  - intros s _. unfold kinds. cbn. rewrite fmap_empty. apply lookup_empty.
Qed.

Lemma NoDup_fst_filter {A} (s : nat) (l : list (nat * A)) :
  NoDup l.*1 -> (length (filter (fun p => p.1 = s) l) <= 1)%nat.
Proof.
  induction l as [|[r a] l IH]; [cbn; lia|]. rewrite fmap_cons. cbn [fst].
  intros Hnd. apply NoDup_cons in Hnd as [Hr Hnd]. rewrite filter_cons. cbn [fst].
  destruct (decide (r = s)) as [->|Hne]; [|auto].
  assert (Hnil : filter (fun p : nat * A => p.1 = s) l = []).
  { destruct (filter (fun p : nat * A => p.1 = s) l) as [|[r' a'] l'] eqn:Hf; [reflexivity|].
    exfalso. apply Hr.
    assert (Hin : (r', a') ∈ filter (fun p : nat * A => p.1 = s) l) by (rewrite Hf; left).
    apply list_elem_of_filter in Hin as [Heq Hin]. cbn in Heq. subst r'.
    apply (list_elem_of_fmap_2 fst) in Hin. exact Hin. }
  rewrite Hnil. cbn. lia.
Qed.

Section New.

Variable newURL : string -> Js.Parsed.



(** The cache lookup, as the function decides it. *)
Lemma cache_served_iff env d st td :
  (getEmbedToken_begin env d st).2 = TokReturned (Some td)
  <-> isMounted st = true /\ currentReportId st = report_id d
      /\ exists c, tokenCache st !! cacheKey d = Some c /\ now env < expires c
                   /\ td = {| td_token := token c; td_embedUrl := embedUrl c |}.
Proof.
  unfold getEmbedToken_begin. cbv zeta.
  replace (isMounted (startTimer env "tokenRequest" st)) with (isMounted st) by reflexivity.
  destruct (isMounted st); cbn [negb]; [|split; [discriminate|intros [? _]; discriminate]].
  unfold getEmbedToken_lookup. cbv zeta.
  replace (tokenCache (startTimer env "tokenRequest" st)) with (tokenCache st) by reflexivity.
  replace (currentReportId (startTimer env "tokenRequest" st)) with (currentReportId st)
    by reflexivity.
  destruct (tokenCache st !! cacheKey d) as [c|];
    [|split; [discriminate|intros (_ & _ & c & Hc & _); discriminate]].
  destruct (String.eqb_spec (currentReportId st) (report_id d)) as [He|He]; cbn [negb andb].
  - destruct (Z.ltb_spec (now env) (expires c)) as [Hn|Hn].
    + unfold token_from_cache. destruct (endTimer _ _ _) as [t st1]. cbn [snd]. split.
      * intros [= <-]. eauto 10.
      * intros (_ & _ & c' & [= <-] & _ & ->). reflexivity.
    + split; [discriminate|]. intros (_ & _ & c' & [= <-] & Hlt & _). lia.
  - split; [discriminate|]. intros (_ & Heq & _). contradiction.
Qed.

(** The continuations after the cleanup and after the stabilisation
    wait do drop a superseded session: only the log and the record of
    the invocation change. *)
Lemma superseded_dropped env s d td st :
  s <> currentSessionId st ->
  face (embed_after_hygiene newURL env s d st) = face st
  /\ notifications (embed_after_hygiene newURL env s d st) = notifications st
  /\ face (embed_after_stabilize env s td st) = face st
  /\ notifications (embed_after_stabilize env s td st) = notifications st.
Proof.
  intros Hs. apply Nat.eqb_neq in Hs. unfold embed_after_hygiene, embed_after_stabilize.
  rewrite Hs. cbn [negb]. rewrite orb_true_r.
  assert (Hpc : forall pc st0, face (set_pc s pc st0) = face st0
                               /\ notifications (set_pc s pc st0) = notifications st0).
  { intros pc st0. unfold set_pc. destruct (sessions st0 !! s); auto. }
  destruct (Hpc (PcDone false) (logger env "Sessão cancelada após limpeza" LInfo st)) as [-> ->].
  destruct (Hpc (PcDone false)
              (logger env "Sessão cancelada durante espera de estabilização" LInfo st))
    as [-> ->].
  auto.
Qed.

End New.

Example three_timeouts_end_in_error :
  let st := after A three_timeouts in
  embedCalls st = [1; 2; 3]%nat /\ attemptCounter st = 3
  /\ error st = Some "Timeout ao carregar dashboard"
  /\ notifications st = [(3%nat, onError "Timeout ao carregar dashboard")].
Proof. vm_compute. repeat split; reflexivity. Qed.

End ViewerFacts.

(** * The properties of the viewers *)

Import Dom.

(** ** The locator validator *)

Section Validator.
Import Radical ValidatorSpec ValidatorFacts.

(** C5, as stated, fails on the blank locator: it does not start with
    the secure scheme, yet the only error returned is the one of the
    guard that rejects empty locators. *)
Lemma short_circuit : ~ collects_scheme_violations Js.parseURL.
Proof.
  intros H. destruct (H env0 "R1" " " st0 eq_refl) as (e & He & Hs).
  vm_compute in He. apply list_elem_of_singleton in He. subst e. vm_compute in Hs. discriminate.
Qed.

(** C5, amended: the result is valid exactly when its error list is
    empty, whatever the warnings; on a non-blank locator that parses,
    the scheme, host, path and report-id checks each contribute their
    error and the host and group-id checks their warning, none hiding
    another; a non-blank locator that does not parse gets the scheme
    error, if any, and one error for the malformed URL; a value that is
    not a string and a blank string get exactly one error.  A
    well-formed https locator with the expected reportId is valid with
    no error, a mismatched reportId gives an error naming the mismatch,
    a missing groupId gives a valid result with exactly one warning, and
    a non-https scheme gives a scheme error.  The parameters of the query
    are read decoded, so that a reportId written with a percent escape
    matches, and a locator made of no-break spaces is blank. *)
Theorem validate_collects newURL env expected url u st
  (Hb : blank url = false) (Hp : newURL url = Js.Ok u) :
  let r := (validateEmbedUrl newURL env expected (JsString url) st).1 in
  (forall v, let r' := (validateEmbedUrl newURL env expected v st).1 in
             isValid r' = (length (errors r') =? 0)%nat)
  /\ errors r = scheme_errors url ++ host_errors u ++ path_errors u ++ report_errors expected u
  /\ warnings r = host_warnings u ++ group_warnings u
  /\ (forall url' e, blank url' = false -> newURL url' = Js.Threw e ->
        let r' := (validateEmbedUrl newURL env expected (JsString url') st).1 in
        errors r' = scheme_errors url' ++ ["URL malformada: " +:+ e] /\ warnings r' = [])
  /\ (forall v, match v with JsString url' => blank url' = true | JsOther _ => True end ->
        let r' := (validateEmbedUrl newURL env expected v st).1 in
        isValid r' = false /\ length (errors r') = 1%nat /\ warnings r' = [])
  /\ validate "R1" "https://app.powerbi.com/reportEmbed?reportId=R1&groupId=G1"
     = {| isValid := true; errors := []; warnings := [] |}
  /\ validate "R1" "https://app.powerbi.com/reportEmbed?reportId=R2&groupId=G1"
     = {| isValid := false;
          errors := ["reportId não corresponde: esperado R1, recebido R2"];
          warnings := [] |}
  /\ validate "R1" "https://app.powerbi.com/reportEmbed?reportId=R1"
     = {| isValid := true; errors := []; warnings := ["groupId ausente na URL"] |}
  /\ validate "R1" "http://app.powerbi.com/reportEmbed?reportId=R1&groupId=G1"
     = {| isValid := false; errors := ["Protocolo inválido: http://app"]; warnings := [] |}
  /\ validate "R1" "https://app.powerbi.com/reportEmbed?reportId=R%31&groupId=G+1"
     = {| isValid := true; errors := []; warnings := [] |}
  /\ validate "R1" (nbsp +:+ " " +:+ nbsp)
     = {| isValid := false; errors := ["URL está vazia"]; warnings := [] |}.
Proof.
  cbn zeta. split; [intros v; apply validate_isValid|].
  destruct (validate_parsed newURL env expected url u st Hb Hp) as [He Hw].
  split; [exact He|]. split; [exact Hw|].
  split; [intros url' e Hb' Hp'; apply validate_unparsed; assumption|].
  split; [intros v Hv; apply validate_guarded; assumption|].
  repeat split; vm_compute; reflexivity.
Qed.

Lemma validate_collects_witness :
  blank "ftp://evil.org/x" = false /\ Js.parseURL "ftp://evil.org/x" = Js.Ok evil
  /\ errors (validate "R1" "ftp://evil.org/x")
     = scheme_errors "ftp://evil.org/x" ++ host_errors evil ++ path_errors evil
       ++ report_errors "R1" evil.
Proof.
  split; [reflexivity|]. split; [reflexivity|].
  exact (proj1 (proj2 (validate_collects Js.parseURL env0 "R1" "ftp://evil.org/x" evil st0
                         eq_refl eq_refl))).
Defined.

End Validator.

(** ** The session-based viewer *)

Import Viewer ViewerSpec Scenario ViewerFacts.

(** C1: three consecutive embed-URL errors.  Each of the three is
    answered by a silent retry, so that four attach attempts have been
    made and no error is shown; the error is surfaced by the fourth
    signal only. *)
Theorem three_embed_errors_four_attaches :
  let st := after A (timed A 1000 three_errors) in
  let st' := step Js.parseURL (serving A 34000) (embed_url_error 4) st in
  embedCalls st = [1; 2; 3; 4]%nat /\ attemptCounter st = 4
  /\ error st = None /\ notifications st = [] /\ isLoading st = true
  /\ error st' = Some "Invalid embed URL"
  /\ notifications st' = [(4%nat, onError "Invalid embed URL")]
  /\ embedCalls st' = [1; 2; 3; 4]%nat.
Proof. vm_compute. repeat split; reflexivity. Qed.

(** C2: two continuations of a superseded session that do change the
    state.  The continuation that follows the token fetch of session 1,
    resumed while session 2 is loading, ends the loading with an error
    and notifies the host; the render timeout of session 1, firing after
    session 2 has rendered, tears the rendered report down and starts a
    third session. *)
Theorem stale_continuations_change_state :
  (let st := after A superseded_fetch in
   let st' := step Js.parseURL (serving A 8000) (ResumeSession 1) st in
   currentSessionId st = 2%nat
   /\ face st = (true, false, "preparing", 10, None) /\ notifications st = []
   /\ face st' = (false, false, "preparing", 10, Some "Falha ao obter credenciais de acesso")
   /\ notifications st' = [(1%nat, onError "Falha ao obter credenciais de acesso")])
  /\ (let st := after A rendered_after_retry in
      let st' := run Js.parseURL stale_timeout st in
      currentSessionId st = 2%nat
      /\ face st = (false, true, "finalizing", 100, None)
      /\ (children <$> embedContainerRef st) = Some [frame A]
      /\ currentSessionId st' = 3%nat
      /\ face st' = (true, false, "preparing", 10, None)
      /\ (children <$> embedContainerRef st') = Some []).
Proof. vm_compute. repeat split; reflexivity. Qed.

(** C3: showing dashboard A, then B, then A again within the lifetime of
    the tokens fetches twice, not three times: the third load is served
    from the cache, and the entries of both dashboards are still in the
    cache at the end. *)
Theorem switching_back_serves_the_cache :
  let st := after A switch_and_back in
  embedCalls st = [1; 2; 3]%nat
  /\ fetchCalls st = [token_url A; token_url B]
  /\ is_Some (tokenCache st !! cacheKey A) /\ is_Some (tokenCache st !! cacheKey B)
  /\ notified 3 st = [onSuccess].
Proof.
  vm_compute. repeat split; try reflexivity; eexists; reflexivity.
Qed.

(** C4: whatever the events and their order (widget signals, render
    timeouts, resumptions, user commands), the host receives at most one
    terminal notification, success or failure, from each session. *)
Theorem one_terminal_notification newURL trace d e s :
  (length (notified s (run newURL trace (initial d e))) <= 1)%nat.
Proof.
  unfold notified. rewrite length_fmap.
  pose proof (Inv_run newURL trace _ (Inv_initial d e)) as (Hnd & _).
  apply NoDup_fst_filter, Hnd.
Qed.

(** The render timeout by the attempt counter it reads when it fires:
    it is armed 45000 ms after the attach and does nothing before it is
    due; fired on a counter of at most 2 nothing is surfaced and a
    forced deep cleanup followed by a reload is queued; from 3 on it is
    a terminal error.  Three timeouts in a row end in that error after
    three attaches. *)
Theorem render_timeout_policy newURL env s d c due st
  (Hs : sessions st !! s = Some {| s_dashboard := d; s_pc := PcAttached c |})
  (Hd : timeoutDue c = Some due) (Hr : isResolved c = false) (Hm : isMounted st = true) :
  let st' := step newURL env (RenderTimeout s) st in
  render_timeout = 45000
  /\ (forall env0 td st0 ses svc e e',
        sessions st0 !! s = Some ses -> powerBiService st0 = Some svc ->
        embedContainerRef st0 = Some e -> sdk_embed env0 e = Returns e' ->
        timeoutDue <$> closure_of s (embed_attach env0 s td st0)
        = Some (Some (now env0 + render_timeout)))
  /\ (now env < due -> st' = st)
  /\ (due <= now env -> attemptCounter st <= 2 ->
      face st' = face st /\ notifications st' = notifications st
      /\ jobs st' = jobs st ++ [JHygiene true (AwaitIframes (now env + 100)) (KReload d)])
  /\ (due <= now env -> 3 <= attemptCounter st ->
      error st' = Some "Timeout ao carregar dashboard" /\ isLoading st' = false
      /\ notifications st' = notifications st ++ [(s, onError "Timeout ao carregar dashboard")]
      /\ jobs st' = jobs st)
  /\ (let st3 := after A three_timeouts in
      embedCalls st3 = [1; 2; 3]%nat /\ error st3 = Some "Timeout ao carregar dashboard").
Proof.
  cbn zeta. split; [reflexivity|]. split; [|split; [|split; [|split]]].
  - intros env0 td st0 ses svc e e' H1 H2 H3 H4.
    rewrite (render_timeout_armed env0 s td st0 ses svc e e' H1 H2 H3 H4). reflexivity.
  - intros Hn. eapply timeout_not_before_due; eassumption.
  - intros Hn Ha.
    destruct (timeout_retries newURL env s d c due st Hs Hd Hr Hm Hn Ha) as (H1 & H2 & _ & H4 & _).
    auto.
  - intros Hn Ha.
    destruct (timeout_terminal newURL env s d c due st Hs Hd Hr Hm Hn Ha)
      as (H1 & H2 & H3 & H4 & _).
    auto.
  - vm_compute. split; reflexivity.
Qed.

Lemma render_timeout_policy_witness :
  sessions first_attach !! 1%nat = Some {| s_dashboard := A; s_pc := PcAttached first_closure |}
  /\ timeoutDue first_closure = Some 54000 /\ isResolved first_closure = false
  /\ isMounted first_attach = true
  /\ jobs (step Js.parseURL (serving A 100000) (RenderTimeout 1) first_attach)
     = jobs first_attach ++ [JHygiene true (AwaitIframes 100100) (KReload A)].
Proof.
  assert (Hs : sessions first_attach !! 1%nat
               = Some {| s_dashboard := A; s_pc := PcAttached first_closure |})
    by (vm_compute; reflexivity).
  assert (Hd : timeoutDue first_closure = Some 54000) by reflexivity.
  assert (Hr : isResolved first_closure = false) by reflexivity.
  assert (Hm : isMounted first_attach = true) by (vm_compute; reflexivity).
  split; [exact Hs|]. split; [exact Hd|]. split; [exact Hr|]. split; [exact Hm|].
  refine (proj2 (proj2 (proj1 (proj2 (proj2 (proj2
            (render_timeout_policy Js.parseURL (serving A 100000) 1 A first_closure 54000
               first_attach Hs Hd Hr Hm)))) _ _))).
  - cbn. lia.
  - apply Z.leb_le. vm_compute. reflexivity.
Defined.

(** C6: the render timeout of the first attempt is terminal when it
    fires after two automatic retries.  The first report signals an
    embed URL error, and so does the second; the third attach is
    loading when the timer armed by the first attach comes due, 45 s
    after that attach.  The callback reads the counter the three
    attempts share, finds 3 and ends the load with the timeout error:
    the host is told of a failure by session 1, no cleanup and no reload
    are queued, and when the third report renders a second later the
    host is told of a success.  Fired before any retry, the same timer
    queues the forced deep cleanup and the reload. *)
Theorem first_attempt_timeout_is_terminal :
  let st := after A third_attach_loading in
  let st' := step Js.parseURL (serving A 54000) (RenderTimeout 1) st in
  let st'' := step Js.parseURL (serving A 55000) (Widget 3 Rendered) st' in
  attemptCounter first_attach = 1
  /\ (timeoutDue <$> closure_of 1 first_attach) = Some (Some 54000)
  /\ jobs (step Js.parseURL (serving A 54000) (RenderTimeout 1) first_attach)
     = [JHygiene true (AwaitIframes 54100) (KReload A)]
  /\ embedCalls st = [1; 2; 3]%nat /\ attemptCounter st = 3 /\ currentSessionId st = 3%nat
  /\ (timeoutDue <$> closure_of 1 st) = Some (Some 54000)
  /\ (isResolved <$> closure_of 1 st) = Some false
  /\ face st = (true, false, "rendering", 70, None) /\ notifications st = []
  /\ face st' = (false, false, "rendering", 70, Some "Timeout ao carregar dashboard")
  /\ notifications st' = [(1%nat, onError "Timeout ao carregar dashboard")]
  /\ jobs st' = []
  /\ face st'' = (false, true, "rendering", 100, None)
  /\ notifications st''
     = [(1%nat, onError "Timeout ao carregar dashboard"); (3%nat, onSuccess)].
Proof. vm_compute. repeat split; reflexivity. Qed.

(** C7: a deep hygiene on a mounted viewer with a container runs to
    completion after waiting 850 ms in all, and leaves the container with
    no child and none of the attributes of the widget (which is what its
    closing query reports), and a service instance made during the call,
    different from the one held before; the settle delay of a deep
    cleanup is longer than the one of a shallow cleanup, which never
    waits more than 300 ms in all. *)
Theorem deep_hygiene_postcondition env1 env2 env3 st
  (Hm : isMounted st = true) (He : is_Some (embedContainerRef st))
  (Hk : forall k, powerBiService st = Some k -> (k < serviceCounter st)%nat) :
  (exists st' e',
      performHygiene_run env1 env2 env3 true st
      = (st', HygReturned (Some (domStable (environmentChecks st))), 850)
      /\ embedContainerRef st' = Some e'
      /\ children e' = []
      /\ (forall a, a ∈ widget_attributes -> attributes e' !! a = None)
      /\ workspaceClean st' = domStable (environmentChecks st)
      /\ powerBiService st' = Some (serviceCounter st)
      /\ powerBiService st' <> powerBiService st)
  /\ settle_delay false < settle_delay true
  /\ (forall env1' env2' env3' st0, (performHygiene_run env1' env2' env3' false st0).2 <= 300).
Proof.
  split; [apply hygiene_deep; assumption|]. split; [reflexivity|].
  intros. apply hygiene_shallow_waits.
Qed.

Lemma deep_hygiene_postcondition_witness :
  isMounted littered_state = true /\ is_Some (embedContainerRef littered_state)
  /\ exists st' e',
      performHygiene_run (serving A 0) (serving A 100) (serving A 850) true littered_state
      = (st', HygReturned (Some true), 850)
      /\ embedContainerRef st' = Some e' /\ children e' = []
      /\ (forall a, a ∈ widget_attributes -> attributes e' !! a = None)
      /\ workspaceClean st' = true
      /\ powerBiService st' = Some 1%nat
      /\ powerBiService st' <> powerBiService littered_state.
Proof.
  split; [reflexivity|]. split; [eexists; reflexivity|].
  refine (proj1 (deep_hygiene_postcondition (serving A 0) (serving A 100) (serving A 850)
                   littered_state eq_refl _ _)).
  - eexists. reflexivity.
  - intros k [= <-]. cbn. lia.
Defined.



(** C10, as stated, fails: the ignored call leaves two entries in the
    log, so the state it returns is not the one it was given. *)
Lemma embedReport_changes_state : ~ ignores_silently Js.parseURL.
Proof.
  intros H.
  specialize (H (serving A 5000) A (set_isLoading true (initial A box)) eq_refl eq_refl).
  apply (f_equal (fun r => length (logs r.1))) in H. vm_compute in H. discriminate.
Qed.

(** C10, amended: while a load is in progress, embedReport without the
    force flag returns false and changes nothing but the diagnostics: it
    restarts the timer named embedReport and appends two log entries.
    No session is created, nothing is attached and no request is sent. *)
Theorem ignored_start_touches_diagnostics_only newURL env d st
  (Hm : isMounted st = true) (Hl : isLoading st = true) :
  let r := embedReport newURL env false d st in
  r.2 = None
  /\ r.1 = set_logs (logs r.1) (set_timerRef (<["embedReport" := now env]> (timerRef st)) st)
  /\ exists pre, logs r.1
       = pre ++ [entry env "Timer iniciado: embedReport" LDebug;
                 entry env "Carregamento já em andamento, ignorando solicitação" LInfo].
Proof.
  destruct (embedReport_while_loading newURL env d st Hm Hl) as (H1 & H2 & H3 & H4).
  cbn zeta. split; [exact H1|]. split; [|exact H4].
  unfold diagnostics_only in H2. rewrite H3 in H2. exact H2.
Qed.

Lemma ignored_start_witness :
  isMounted loading_state = true /\ isLoading loading_state = true
  /\ (embedReport Js.parseURL (serving A 5000) false A loading_state).2 = None.
Proof.
  split; [reflexivity|]. split; [reflexivity|].
  exact (proj1 (ignored_start_touches_diagnostics_only Js.parseURL (serving A 5000) A
                  loading_state eq_refl eq_refl)).
Defined.

(** * Further facts *)

(** What every operation of the session-based viewer preserves. *)
Module ViewerEvolution.
Import Dom Viewer ViewerSpec ViewerView ViewerRun.

#[local] Arguments push_log : simpl never.
#[local] Arguments pretty : simpl never.

Lemma Evolves_refl st : Evolves st st.
Proof. unfold Evolves. tauto. Qed.

Lemma Evolves_trans st1 st2 st3 : Evolves st1 st2 -> Evolves st2 st3 -> Evolves st1 st3.
Proof.
  intros (A1 & A2 & A3 & A4 & A5 & A7 & A6) (B1 & B2 & B3 & B4 & B5 & B7 & B6).
  unfold Evolves. split; [auto|]. split; [auto|]. split; [auto|]. split; [auto|].
  split; [auto|]. split; [auto|].
  intros Hm. apply A6 in Hm as (Hm & Hc & Hu & Hf & Hs).
  apply B6 in Hm as (Hm' & -> & -> & -> & ->). auto.
Qed.

(** A step that leaves every observed field as it was. *)
Lemma Evolves_same st st' :
  logs st' = logs st -> loadingPhase st' = loadingPhase st ->
  loadingProgress st' = loadingProgress st -> attemptCounter st' = attemptCounter st ->
  environmentChecks st' = environmentChecks st -> isMounted st' = isMounted st ->
  uuidCounter st' = uuidCounter st -> fetchCalls st' = fetchCalls st ->
  notifications st' = notifications st ->
  isLoading st' = isLoading st -> isReady st' = isReady st -> error st' = error st ->
  currentSessionId st' = currentSessionId st -> Evolves st st'.
Proof.
  intros H1 H2 H3 H4 H5 H6 H7 H8 H9 H10 H11 H12 H13. unfold Evolves, successes.
  rewrite H1, H2, H3, H4, H5, H6, H7, H8, H9, H10, H11, H12, H13. tauto.
Qed.

Lemma push_log_length entry prev :
  (length prev <= 100)%nat -> (length (push_log entry prev) <= 100)%nat.
Proof.
  intros H. unfold push_log, slice_last. cbv zeta.
  destruct (100 <? length (prev ++ [entry]))%nat eqn:E.
  - rewrite length_drop. lia.
  - apply Nat.ltb_ge in E. exact E.
Qed.

Ltac by_cases :=
  unfold Evolves, successes; cbn;
  repeat split; auto; try discriminate; try tauto; try lia.

Lemma E_logger env m t st : Evolves st (logger env m t st).
Proof.
  unfold logger. by_cases. auto using push_log_length.
Qed.

Create HintDb evolve.
#[local] Hint Constants Opaque : evolve.
#[local] Hint Resolve E_logger : evolve.
#[local] Hint Extern 1 (_ = true) => reflexivity : evolve.
#[local] Hint Extern 1 (_ = true) => assumption : evolve.

Ltac same := apply Evolves_same; reflexivity.

Lemma E_set_isLoading_false st : Evolves st (set_isLoading false st).
Proof. by_cases. Qed.
Lemma E_set_isReady_false st : Evolves st (set_isReady false st).
Proof. by_cases. Qed.
Lemma E_set_error_None st : Evolves st (set_error None st).
Proof. by_cases. Qed.
Lemma E_start_loading st : Evolves st (set_error None (set_isReady false (set_isLoading true st))).
Proof. by_cases. Qed.
Lemma E_show_error m st : Evolves st (set_isLoading false (set_error (Some m) st)).
Proof. by_cases. Qed.
Lemma E_show_ready st : Evolves st (set_isReady true (set_isLoading false st)).
Proof. by_cases. Qed.
Lemma E_set_dashboard v st : Evolves st (set_dashboard v st). Proof. same. Qed.
Lemma E_set_embedContainerRef v st : Evolves st (set_embedContainerRef v st). Proof. same. Qed.
Lemma E_set_documentIframes v st : Evolves st (set_documentIframes v st). Proof. same. Qed.
Lemma E_set_powerBiReport v st : Evolves st (set_powerBiReport v st). Proof. same. Qed.
Lemma E_set_powerBiService v st : Evolves st (set_powerBiService v st). Proof. same. Qed.
Lemma E_set_currentReportId v st : Evolves st (set_currentReportId v st). Proof. same. Qed.
Lemma E_set_tokenCache v st : Evolves st (set_tokenCache v st). Proof. same. Qed.
Lemma E_set_workspaceClean v st : Evolves st (set_workspaceClean v st). Proof. same. Qed.
Lemma E_set_timerRef v st : Evolves st (set_timerRef v st). Proof. same. Qed.
Lemma E_set_sessions v st : Evolves st (set_sessions v st). Proof. same. Qed.
Lemma E_set_jobs v st : Evolves st (set_jobs v st). Proof. same. Qed.
Lemma E_set_serviceCounter v st : Evolves st (set_serviceCounter v st). Proof. same. Qed.
Lemma E_set_embedCalls v st : Evolves st (set_embedCalls v st). Proof. same. Qed.

#[local] Hint Resolve E_set_isLoading_false E_set_isReady_false E_set_error_None E_start_loading
  E_show_error E_show_ready E_set_dashboard
  E_set_embedContainerRef E_set_documentIframes E_set_powerBiReport E_set_powerBiService
  E_set_currentReportId E_set_tokenCache E_set_workspaceClean
  E_set_timerRef E_set_sessions E_set_jobs E_set_serviceCounter E_set_embedCalls : evolve.

Lemma E_set_loadingPhase v st : known_phase v = true -> Evolves st (set_loadingPhase v st).
Proof. intros H. by_cases. Qed.

Lemma E_set_loadingProgress v st :
  known_progress v = true -> Evolves st (set_loadingProgress v st).
Proof. intros H. by_cases. Qed.

Lemma E_set_attemptCounter_0 st : Evolves st (set_attemptCounter 0 st).
Proof. by_cases. Qed.

Lemma E_notify_error s m st : Evolves st (notify s (onError m) st).
Proof.
  unfold Evolves, successes, notify. cbn. rewrite filter_app, filter_cons, filter_nil. cbn.
  rewrite decide_False by discriminate. rewrite app_nil_r. tauto.
Qed.

Lemma E_notify_success s st : isMounted st = true -> Evolves st (notify s onSuccess st).
Proof.
  intros Hm. unfold notify. unfold Evolves. cbn. rewrite Hm. by_cases.
Qed.

Lemma E_check f st :
  (forall c, domStable c = false -> domStable (f c) = false) -> Evolves st (check f st).
Proof. intros Hf. unfold check. by_cases. Qed.

Lemma E_add_job j st : Evolves st (add_job j st).
Proof. same. Qed.

Lemma E_set_pc s pc st : Evolves st (set_pc s pc st).
Proof. unfold set_pc. destruct (sessions st !! s); [same|apply Evolves_refl]. Qed.

#[local] Hint Resolve E_set_loadingPhase E_set_loadingProgress E_set_attemptCounter_0
  E_notify_error E_add_job E_set_pc : evolve.

(** Peels the outermost operation off the later state. *)
Ltac peel :=
  lazymatch goal with
  | |- Evolves ?s ?s => apply Evolves_refl
  | |- Evolves _ (if ?b then _ else _) => destruct b eqn:?; peel
  | |- Evolves _ (match ?x with _ => _ end) => destruct x eqn:?; peel
  | |- Evolves _ _ =>
      first [ solve [eauto 3 with evolve]
            | eapply Evolves_trans; [|solve [eauto 3 with evolve]]; peel ]
  end.

Lemma E_startTimer env l st : Evolves st (startTimer env l st).
Proof. unfold startTimer. cbv zeta. peel. Qed.

Lemma E_endTimer env l st : Evolves st (endTimer env l st).2.
Proof.
  unfold endTimer. destruct (timerRef st !! l) as [t|]; [|apply Evolves_refl].
  destruct (t =? 0); [apply Evolves_refl|]. cbn [snd]. peel.
Qed.
#[local] Hint Resolve E_startTimer E_endTimer : evolve.

Ltac bind x :=
  let T := type of x in
  lazymatch eval hnf in T with
  | (_ * State)%type =>
      let H := fresh "H" in
      eassert (H : Evolves _ (snd x)) by (solve [eauto 3 with evolve]);
      destruct x as [? ?] eqn:?; cbn [fst snd] in H;
      (eapply Evolves_trans; [eapply Evolves_trans; [|exact H]|]); cbn [fst snd]
  | (State * _)%type =>
      let H := fresh "H" in
      eassert (H : Evolves _ (fst x)) by (solve [eauto 3 with evolve]);
      destruct x as [? ?] eqn:?; cbn [fst snd] in H;
      (eapply Evolves_trans; [eapply Evolves_trans; [|exact H]|]); cbn [fst snd]
  | _ => destruct x eqn:?; cbn [fst snd]
  end.

Ltac peel ::=
  lazymatch goal with
  | |- Evolves ?s ?s => apply Evolves_refl
  | |- Evolves _ (match ?x with _ => _ end) => bind x; peel
  | |- Evolves _ (fst (match ?x with _ => _ end)) => bind x; peel
  | |- Evolves _ (snd (match ?x with _ => _ end)) => bind x; peel
  | |- Evolves _ _ =>
      first [ solve [eauto 3 with evolve]
            | eapply Evolves_trans; [|solve [eauto 3 with evolve]]; peel ]
  end.

Lemma E_remove_powerbi_iframes st : Evolves st (remove_powerbi_iframes st).
Proof. unfold remove_powerbi_iframes. peel. Qed.

Lemma E_detach_report env r st : Evolves st (detach_report env r st).1.
Proof. unfold detach_report. destruct (closure_of r st); cbn [fst]; peel. Qed.
#[local] Hint Resolve E_remove_powerbi_iframes E_detach_report : evolve.

Lemma E_check_iframeClean b st : Evolves st (check (set_check_iframeClean b) st).
Proof. apply E_check. auto. Qed.
Lemma E_check_domStable st : Evolves st (check (set_check_domStable false) st).
Proof. apply E_check. auto. Qed.
Lemma E_check_serviceReady b st : Evolves st (check (set_check_serviceReady b) st).
Proof. apply E_check. auto. Qed.
Lemma E_check_tokenValid b st : Evolves st (check (set_check_tokenValid b) st).
Proof. apply E_check. auto. Qed.
Lemma E_check_urlValidated b st : Evolves st (check (set_check_urlValidated b) st).
Proof. apply E_check. auto. Qed.
#[local] Hint Resolve E_check_iframeClean E_check_domStable E_check_serviceReady
  E_check_tokenValid E_check_urlValidated : evolve.

Lemma E_verifyDomSanity env st : Evolves st (verifyDomSanity env st).2.
Proof. unfold verifyDomSanity. destruct (embedContainerRef st); cbn [snd]; peel. Qed.

Lemma E_revoke_report env st : Evolves st (revoke_report env st).
Proof. unfold revoke_report. peel. Qed.

Lemma E_reset_service env st : Evolves st (reset_service env st).
Proof. unfold reset_service. peel. Qed.

Lemma E_renew_service env deep st : Evolves st (renew_service env deep st).
Proof. unfold renew_service. peel. Qed.

Lemma E_prepare_container env st : Evolves st (prepare_container env st).
Proof. unfold prepare_container. cbv zeta. peel. Qed.
#[local] Hint Resolve E_verifyDomSanity E_revoke_report E_reset_service E_renew_service
  E_prepare_container : evolve.

Lemma E_performHygiene_prepare env deep st : Evolves st (performHygiene_prepare env deep st).1.
Proof.
  unfold performHygiene_prepare.
  pose proof (E_verifyDomSanity env (prepare_container env st)) as H.
  destruct (verifyDomSanity env (prepare_container env st)) as [isClean st1]. cbn [fst snd] in *.
  eapply Evolves_trans; [eapply Evolves_trans; [|exact H]|]; peel.
Qed.
#[local] Hint Resolve E_performHygiene_prepare : evolve.

Lemma E_remove_residual_frames env deep st :
  Evolves st (remove_residual_frames env deep st).1.
Proof.
  unfold remove_residual_frames. cbv zeta.
  destruct (_ || _); cbn [fst]; peel.
Qed.
#[local] Hint Resolve E_remove_residual_frames : evolve.

Lemma E_performHygiene_begin env deep st : Evolves st (performHygiene_begin env deep st).1.
Proof.
  unfold performHygiene_begin. cbv zeta.
  destruct (negb _); cbn [fst]; peel.
Qed.

Lemma E_performHygiene_resume env deep w st :
  Evolves st (performHygiene_resume env deep w st).1.
Proof.
  unfold performHygiene_resume. destruct w as [due|isClean due]; [peel|].
  pose proof (E_endTimer env "hygiene" st) as H.
  destruct (endTimer env "hygiene" st) as [t st1]. exact H.
Qed.
#[local] Hint Resolve E_performHygiene_begin E_performHygiene_resume : evolve.

Lemma E_set_fetchCalls v st : isMounted st = true -> Evolves st (set_fetchCalls v st).
Proof.
  intros Hm. unfold Evolves. cbn. rewrite Hm. by_cases.
Qed.

Lemma E_token_request env d st :
  isMounted st = true -> Evolves st (token_request env d st).1.
Proof.
  intros Hm. unfold token_request. cbn [fst].
  eapply Evolves_trans; [apply E_logger|]. apply E_set_fetchCalls. exact Hm.
Qed.

Lemma E_token_from_cache env c st : Evolves st (token_from_cache env c st).1.
Proof. unfold token_from_cache. peel. Qed.
#[local] Hint Resolve E_token_from_cache : evolve.

Lemma E_getEmbedToken_lookup env d st :
  isMounted st = true -> Evolves st (getEmbedToken_lookup env d st).1.
Proof.
  intros Hm. unfold getEmbedToken_lookup. cbv zeta.
  destruct (tokenCache st !! cacheKey d) as [c|]; [|apply E_token_request, Hm].
  destruct (_ && _); [peel|].
  destruct (negb _); [|apply E_token_request, Hm].
  eapply Evolves_trans; [|apply E_token_request; exact Hm]. peel.
Qed.

Lemma E_getEmbedToken_begin env d st : Evolves st (getEmbedToken_begin env d st).1.
Proof.
  unfold getEmbedToken_begin. cbv zeta.
  destruct (negb (isMounted (startTimer env "tokenRequest" st))) eqn:Hm; cbn [fst]; [peel|].
  eapply Evolves_trans; [apply E_startTimer|]. apply E_getEmbedToken_lookup.
  apply negb_false_iff in Hm. exact Hm.
Qed.

Lemma E_getEmbedToken_catch env name m st : Evolves st (getEmbedToken_catch env name m st).1.
Proof. unfold getEmbedToken_catch. peel. Qed.
#[local] Hint Resolve E_getEmbedToken_begin E_getEmbedToken_catch : evolve.

Lemma E_getEmbedToken_on_fetch env st : Evolves st (getEmbedToken_on_fetch env st).1.
Proof. unfold getEmbedToken_on_fetch. peel. Qed.

Lemma E_getEmbedToken_on_text env status txt st :
  Evolves st (getEmbedToken_on_text env status txt st).1.
Proof. unfold getEmbedToken_on_text. destruct (text_outcome env); cbn [fst]; peel. Qed.

Lemma E_token_store env d tok url st : Evolves st (token_store env d tok url st).1.
Proof. unfold token_store. cbv zeta. peel. Qed.
#[local] Hint Resolve E_getEmbedToken_on_fetch E_getEmbedToken_on_text E_token_store : evolve.

Lemma E_getEmbedToken_on_json env d st : Evolves st (getEmbedToken_on_json env d st).1.
Proof.
  unfold getEmbedToken_on_json.
  peel.
Qed.
#[local] Hint Resolve E_getEmbedToken_on_json : evolve.

Section Later.
Variable newURL : string -> Js.Parsed.

Lemma E_flag env ok m vs : Evolves vs.2 (flag env ok m vs).2.
Proof. unfold flag. destruct ok; cbn [snd]; peel. Qed.

Lemma E_validate_reportId env d url vs : Evolves vs.2 (validate_reportId newURL env d url vs).2.
Proof.
  unfold validate_reportId. cbv zeta.
  destruct (newURL url) as [u|e]; cbn [snd]; [|peel].
  destruct (Js.get _ _) as [rid|]; cbn [snd]; [|peel].
  destruct (negb (Js.truthy rid)); cbn [snd]; [peel|].
  destruct (negb _); cbn [snd]; peel.
Qed.

Lemma E_validate_conclude env vs : Evolves vs.2 (validate_conclude env vs).2.
Proof. unfold validate_conclude. peel. Qed.

Lemma E_validateEmbedUrl env d url st : Evolves st (validateEmbedUrl newURL env d url st).2.
Proof.
  unfold validateEmbedUrl. cbv zeta. destruct (_ || _); cbn [snd]; [peel|].
  eapply Evolves_trans; [|apply E_validate_conclude].
  eapply Evolves_trans; [|apply E_validate_reportId].
  eapply Evolves_trans; [|apply E_flag].
  eapply Evolves_trans; [|apply E_flag].
  eapply Evolves_trans; [|apply E_flag]. cbn [snd]. peel.
Qed.
#[local] Hint Resolve E_validateEmbedUrl : evolve.

Lemma E_embed_catch env s msg st : Evolves st (embed_catch env s msg st).
Proof. unfold embed_catch. peel. Qed.

Lemma E_embed_inner_catch env s st : Evolves st (embed_inner_catch env s st).
Proof. unfold embed_inner_catch. cbv zeta. peel. Qed.
#[local] Hint Resolve E_embed_catch E_embed_inner_catch : evolve.

Lemma E_embed_attach env s td st : Evolves st (embed_attach env s td st).
Proof. unfold embed_attach. peel. Qed.
#[local] Hint Resolve E_embed_attach : evolve.

Lemma E_embed_tick env s td st : Evolves st (embed_tick env s td st).
Proof. unfold embed_tick. peel. Qed.

Lemma E_embed_render env s td st : Evolves st (embed_render env s td st).
Proof. unfold embed_render. cbv zeta. peel. Qed.
#[local] Hint Resolve E_embed_tick E_embed_render : evolve.

Lemma E_embed_after_stabilize env s td st : Evolves st (embed_after_stabilize env s td st).
Proof. unfold embed_after_stabilize. peel. Qed.

Lemma E_embed_configure env s td st : Evolves st (embed_configure env s td st).
Proof. unfold embed_configure. peel. Qed.
#[local] Hint Resolve E_embed_after_stabilize E_embed_configure : evolve.

Lemma E_embed_validate env s d td st : Evolves st (embed_validate newURL env s d td st).
Proof. unfold embed_validate. peel. Qed.

Lemma E_embed_auth_failed env s st : Evolves st (embed_auth_failed env s st).
Proof. unfold embed_auth_failed. peel. Qed.
#[local] Hint Resolve E_embed_validate E_embed_auth_failed : evolve.

Lemma E_embed_after_token env s d r st : Evolves st (embed_after_token newURL env s d r st).
Proof. unfold embed_after_token. peel. Qed.
#[local] Hint Resolve E_embed_after_token : evolve.

Lemma E_embed_token_step env s d t st : Evolves st (embed_token_step newURL env s d t st).
Proof. unfold embed_token_step. peel. Qed.
#[local] Hint Resolve E_embed_token_step : evolve.

Lemma E_embed_after_hygiene env s d st : Evolves st (embed_after_hygiene newURL env s d st).
Proof. unfold embed_after_hygiene. peel. Qed.
#[local] Hint Resolve E_embed_after_hygiene : evolve.

Lemma E_embed_hygiene_step env s d deep r st :
  Evolves st (embed_hygiene_step newURL env s d deep r st).
Proof. unfold embed_hygiene_step. peel. Qed.
#[local] Hint Resolve E_embed_hygiene_step : evolve.

Lemma E_new_session d st : isMounted st = true -> Evolves st (new_session d st).
Proof.
  intros Hm. unfold new_session, Evolves. cbn. rewrite Hm. by_cases.
Qed.

Lemma E_set_attemptCounter_succ st st' :
  attemptCounter st' = attemptCounter st ->
  Evolves st' (set_attemptCounter (attemptCounter st + 1) st').
Proof. intros H. unfold Evolves. cbn. rewrite H. by_cases. Qed.

Lemma E_embed_start env d st :
  isMounted st = true -> Evolves st (embed_start newURL env d st).1.
Proof.
  intros Hm. unfold embed_start. cbv zeta.
  match goal with |- context [performHygiene_begin env ?deep ?x] =>
    pose proof (E_performHygiene_begin env deep x) as H;
    destruct (performHygiene_begin env deep x) as [st1 r] end.
  cbn [fst snd] in *.
  eapply Evolves_trans; [|apply E_embed_hygiene_step].
  eapply Evolves_trans; [|exact H].
  eapply Evolves_trans; [|apply E_set_loadingProgress; reflexivity].
  eapply Evolves_trans; [|apply E_set_loadingPhase; reflexivity].
  eapply Evolves_trans; [|apply E_new_session; exact Hm].
  eapply Evolves_trans; [|apply E_logger].
  eapply Evolves_trans; [|apply E_set_attemptCounter_succ; reflexivity].
  peel.
Qed.

Lemma E_embedReport env force d st : Evolves st (embedReport newURL env force d st).1.
Proof.
  unfold embedReport. cbv zeta.
  destruct (negb (isMounted (startTimer env "embedReport" st))) eqn:Hm; cbn [fst]; [peel|].
  apply negb_false_iff in Hm.
  destruct (_ && _); cbn [fst]; [peel|].
  eapply Evolves_trans; [apply E_startTimer|]. apply E_embed_start. exact Hm.
Qed.
#[local] Hint Resolve E_embedReport : evolve.

Lemma E_kont_run env k st : Evolves st (kont_run env k st).
Proof. unfold kont_run. peel. Qed.
#[local] Hint Resolve E_kont_run : evolve.

Lemma E_job_hygiene_step env deep k r st : Evolves st (job_hygiene_step env deep k r st).
Proof. unfold job_hygiene_step. peel. Qed.
#[local] Hint Resolve E_job_hygiene_step : evolve.

Lemma E_hygiene_then env deep k st : Evolves st (hygiene_then env deep k st).
Proof. unfold hygiene_then. peel. Qed.

Lemma E_mark_resolved s st : Evolves st (mark_resolved s st).
Proof. unfold mark_resolved. peel. Qed.

Lemma E_clear_timeout_due s st : Evolves st (clear_timeout_due s st).
Proof. unfold clear_timeout_due. peel. Qed.

Lemma E_handleLoaded env st : Evolves st (handleLoaded env st).
Proof. unfold handleLoaded. peel. Qed.
#[local] Hint Resolve E_hygiene_then E_mark_resolved E_clear_timeout_due E_handleLoaded : evolve.

Lemma isMounted_mark_resolved s st : isMounted (mark_resolved s st) = isMounted st.
Proof.
  unfold mark_resolved. destruct (closure_of s st); [|reflexivity].
  unfold set_pc. destruct (sessions st !! s); reflexivity.
Qed.

Lemma E_rendered env s t st : isMounted st = true -> Evolves st (rendered env s t st).
Proof.
  intros Hm. unfold rendered.
  eapply Evolves_trans; [|apply E_notify_success; cbn; rewrite isMounted_mark_resolved; exact Hm].
  peel.
Qed.

Lemma isMounted_endTimer env l st : isMounted (endTimer env l st).2 = isMounted st.
Proof.
  unfold endTimer. destruct (timerRef st !! l) as [t|]; [|reflexivity].
  destruct (t =? 0); reflexivity.
Qed.

Lemma E_handleRendered env s c st : Evolves st (handleRendered env s c st).
Proof.
  unfold handleRendered.
  pose proof (E_endTimer env "embedReport" st) as H.
  pose proof (isMounted_endTimer env "embedReport" st) as Hm.
  destruct (endTimer env "embedReport" st) as [t st1]. cbn [snd] in *.
  destruct (isResolved c); cbn [orb]; [exact H|].
  destruct (isMounted st1) eqn:Hm1; cbn [negb]; [|exact H].
  eapply Evolves_trans; [exact H|]. apply E_rendered. exact Hm1.
Qed.

Lemma E_surface_error s m st : Evolves st (surface_error s m st).
Proof. unfold surface_error. peel. Qed.
#[local] Hint Resolve E_handleRendered E_surface_error : evolve.

Lemma E_errored env s m st : Evolves st (errored env s m st).
Proof. unfold errored. peel. Qed.
#[local] Hint Resolve E_errored : evolve.

Lemma E_handleError env s c m st : Evolves st (handleError env s c m st).
Proof. unfold handleError. cbv zeta. peel. Qed.

Lemma E_timed_out env s d st : Evolves st (timed_out env s d st).
Proof. unfold timed_out. peel. Qed.
#[local] Hint Resolve E_handleError E_timed_out : evolve.

Lemma E_handleTimeout env s d c st : Evolves st (handleTimeout env s d c st).
Proof. unfold handleTimeout. peel. Qed.

Lemma E_dashboard_changed env d st : Evolves st (dashboard_changed env d st).
Proof. unfold dashboard_changed. cbv zeta. peel. Qed.
#[local] Hint Resolve E_handleTimeout E_dashboard_changed : evolve.

Lemma E_dashboard_effect env d st : Evolves st (dashboard_effect env d st).
Proof. unfold dashboard_effect. peel. Qed.

Lemma E_set_isMounted_false st : Evolves st (set_isMounted false st).
Proof. by_cases. Qed.
#[local] Hint Resolve E_dashboard_effect E_set_isMounted_false : evolve.

Lemma E_unmount env st : Evolves st (unmount env st).
Proof. unfold unmount. destruct (powerBiReport st); peel. Qed.

Lemma E_resume_session env s d pc st : Evolves st (resume_session newURL env s d pc st).
Proof. unfold resume_session. destruct pc; peel. Qed.

Lemma E_run_job env j st : Evolves st (run_job newURL env j st).
Proof. unfold run_job. destruct j; peel. Qed.

Lemma E_dispatch env s c sig st : Evolves st (dispatch env s c sig st).
Proof. unfold dispatch. destruct sig; peel. Qed.

Lemma E_fire_timeout env s st : Evolves st (fire_timeout env s st).
Proof.
  unfold fire_timeout. destruct (sessions st !! s) as [[d pc]|]; [|apply Evolves_refl].
  destruct pc; try apply Evolves_refl. peel.
Qed.
#[local] Hint Resolve E_unmount E_resume_session E_run_job E_dispatch E_fire_timeout : evolve.

Lemma E_step env ev st : Evolves st (step newURL env ev st).
Proof. unfold step. destruct ev; peel. Qed.

Lemma E_run trace st : Evolves st (run newURL trace st).
Proof.
  revert st. induction trace as [|[env ev] trace IH]; intros st; [apply Evolves_refl|].
  cbn [run foldl]. eapply Evolves_trans; [apply E_step|]. apply IH.
Qed.

End Later.

End ViewerEvolution.

(** The operations of the session-based viewer, one by one. *)
Module ViewerSteps.
Import Dom Viewer ViewerSpec ViewerFacts Scenario ViewerView ViewerRun ViewerEvolution.

#[local] Arguments push_log : simpl never.
#[local] Arguments pretty : simpl never.

(** ** The timers *)

Lemma endTimer_absent env l st : timerRef st !! l = None -> endTimer env l st = (0, st).
Proof. intros H. unfold endTimer. rewrite H. reflexivity. Qed.

Lemma timer_measures env0 env1 l st :
  now env0 <> 0 ->
  let r := endTimer env1 l (startTimer env0 l st) in
  r.1 = now env1 - now env0
  /\ timerRef r.2 = delete l (timerRef st)
  /\ exists pre, logs r.2
       = pre ++ [entry env0 ("Timer iniciado: " +:+ l) LDebug;
                 entry env1 (l +:+ ": " +:+ pretty (now env1 - now env0) +:+ ".00ms") LDebug].
Proof.
  intros H0. unfold endTimer.
  replace (timerRef (startTimer env0 l st)) with (<[l := now env0]> (timerRef st)) by reflexivity.
  rewrite lookup_insert_eq. apply Z.eqb_neq in H0. rewrite H0. cbn [fst snd].
  split; [reflexivity|]. split.
  - cbn. apply delete_insert_eq.
  - destruct (logger_last env0 ("Timer iniciado: " +:+ l) LDebug
                (set_timerRef (<[l := now env0]> (timerRef st)) st)) as [pre Hp].
    destruct (logger_keeps_tail env1 (l +:+ ": " +:+ pretty (now env1 - now env0) +:+ ".00ms")
                LDebug (startTimer env0 l st) pre _ Hp) as [pre' H]; [cbn; lia|].
    exists pre'. exact H.
Qed.

(** ** verifyDomSanity *)

Lemma verifyDomSanity_true env st :
  (verifyDomSanity env st).1 = true
  <-> is_Some (embedContainerRef st) /\ domStable (environmentChecks st) = true
      /\ powerbi_iframes st = [].
Proof.
  unfold verifyDomSanity. destruct (embedContainerRef st) as [e|] eqn:He; cbn [fst].
  - rewrite andb_true_iff, Nat.eqb_eq, length_zero_iff_nil.
    split; [intros [? ?]; eauto|tauto].
  - split; [discriminate|]. intros [[? [=]] _].
Qed.

Lemma verifyDomSanity_records env st :
  let st' := (verifyDomSanity env st).2 in
  match embedContainerRef st with
  | None => domStable (environmentChecks st') = false
            /\ iframeClean (environmentChecks st') = iframeClean (environmentChecks st)
  | Some _ => domStable (environmentChecks st') = domStable (environmentChecks st)
              /\ iframeClean (environmentChecks st') = (length (powerbi_iframes st) =? 0)%nat
  end.
Proof.
  unfold verifyDomSanity. destruct (embedContainerRef st) as [e|] eqn:He; cbn; auto.
Qed.

Lemma verifyDomSanity_unstable env st :
  domStable (environmentChecks st) = false -> (verifyDomSanity env st).1 = false.
Proof.
  intros H. unfold verifyDomSanity. destruct (embedContainerRef st); [|reflexivity].
  cbn. rewrite H. reflexivity.
Qed.

(** ** The shallow cleanup *)

Lemma powerbi_iframes_nil st :
  powerbi_iframes st = [] ->
  filter (fun n => is_powerbi_iframe n = true) (documentIframes st) = [].
Proof.
  unfold powerbi_iframes. rewrite filter_app. intros H. apply app_eq_nil in H. tauto.
Qed.

Lemma remove_powerbi_iframes_frame st :
  (is_Some (embedContainerRef st) -> is_Some (embedContainerRef (remove_powerbi_iframes st)))
  /\ service_part (remove_powerbi_iframes st) = service_part st
  /\ powerBiReport (remove_powerbi_iframes st) = powerBiReport st
  /\ filter (fun n => is_powerbi_iframe n = true) (documentIframes (remove_powerbi_iframes st)) = [].
Proof.
  unfold remove_powerbi_iframes. cbn. split; [|split; [reflexivity|split; [reflexivity|]]].
  - intros [e ->]. cbn. eauto.
  - apply filter_no_powerbi.
Qed.

Lemma performHygiene_begin_shallow env st k :
  isMounted st = true -> is_Some (embedContainerRef st) -> powerBiService st = Some k ->
  exists st' w,
    performHygiene_begin env false st = (st', HygAwait w)
    /\ (w = AwaitIframes (now env + 100)
        /\ is_Some (embedContainerRef st')
        /\ filter (fun n => is_powerbi_iframe n = true) (documentIframes st') = []
        /\ domStable (environmentChecks st') = domStable (environmentChecks st)
        /\ powerBiService st' = Some k
        \/ exists e', w = AwaitSettle (domStable (environmentChecks st)) (now env + 200)
           /\ embedContainerRef st' = Some e' /\ children e' = []
           /\ (forall a, a ∈ widget_attributes -> attributes e' !! a = None)
           /\ workspaceClean st' = domStable (environmentChecks st)
           /\ powerBiService st' = Some k).
Proof.
  intros Hm He Hk. unfold performHygiene_begin. cbv zeta.
  replace (isMounted (startTimer env "hygiene" st)) with (isMounted st) by reflexivity.
  rewrite Hm. cbn [negb].
  match goal with |- context [reset_service env ?x] => set (st1 := x) end.
  destruct (reset_service_frame env st1) as (H1 & H2 & H3).
  destruct (revoke_report_frame env
              (logger env "Iniciando higienização do ambiente..." LInfo
                 (set_workspaceClean false (startTimer env "hygiene" st)))) as (G1 & G2 & G3).
  fold st1 in G1, G2, G3. cbn in G1, G2, G3.
  unfold service_part in H2, G2.
  assert (E1 := f_equal (fun p => p.1.1) H2). assert (E2 := f_equal (fun p => p.1.2) H2).
  assert (E3 := f_equal (fun p => p.2) H2).
  assert (F1 := f_equal (fun p => p.1.1) G2). assert (F2 := f_equal (fun p => p.1.2) G2).
  assert (F3 := f_equal (fun p => p.2) G2).
  cbn [fst snd] in *.
  assert (Hs : powerBiService (reset_service env st1) = Some k) by (rewrite E1, F1; exact Hk).
  assert (Hc : is_Some (embedContainerRef (reset_service env st1)))
    by (apply H1; rewrite G1; exact He).
  unfold renew_service. rewrite Hs. cbn [orb negb].
  rewrite bool_decide_eq_true_2 by eauto. cbn [negb].
  unfold remove_residual_frames. rewrite orb_false_r.
  destruct (0 <? length (powerbi_iframes (reset_service env st1)))%nat eqn:Hn.
  - eexists _, _. split; [reflexivity|]. left. split; [reflexivity|].
    match goal with |- context [remove_powerbi_iframes ?x] =>
      destruct (remove_powerbi_iframes_frame x) as (R1 & R2 & R3 & R4) end.
    unfold service_part in R2.
    assert (S1 := f_equal (fun p => p.1.1) R2). assert (S2 := f_equal (fun p => p.1.2) R2).
    assert (S3 := f_equal (fun p => p.2) R2). cbn [fst snd] in *.
    split; [apply R1; cbn; exact Hc|]. split; [exact R4|].
    rewrite S3, S1. unfold logger. cbn [environmentChecks powerBiService set_logs].
    rewrite E3, F3, Hs. auto.
  - apply Nat.ltb_ge in Hn. apply Nat.le_0_r, length_zero_iff_nil in Hn.
    destruct (performHygiene_prepare_spec env false (reset_service env st1) Hc)
      as (st2 & e2 & -> & He2 & Hc2 & Ha2 & Hw2 & Hs2).
    rewrite (powerbi_iframes_nil _ Hn) in *. cbn [length Nat.eqb] in *.
    rewrite andb_true_r in *.
    exists st2. eexists. split; [reflexivity|]. right. exists e2.
    rewrite E3, F3 in *. cbn [settle_delay]. split; [reflexivity|].
    rewrite Hw2, Hs2, Hs. repeat split; auto.
Qed.

Lemma hygiene_shallow env1 env2 env3 st k :
  isMounted st = true -> is_Some (embedContainerRef st) -> powerBiService st = Some k ->
  exists st' e' w,
    performHygiene_run env1 env2 env3 false st
      = (st', HygReturned (Some (domStable (environmentChecks st))), w)
    /\ (w = 200 \/ w = 300)
    /\ embedContainerRef st' = Some e'
    /\ children e' = []
    /\ (forall a, a ∈ widget_attributes -> attributes e' !! a = None)
    /\ workspaceClean st' = domStable (environmentChecks st)
    /\ powerBiService st' = Some k.
Proof.
  intros Hm He Hk. unfold performHygiene_run.
  destruct (performHygiene_begin_shallow env1 st k Hm He Hk)
    as (st1 & w & -> & [(-> & He1 & Hf1 & Hd1 & Hs1)|(e1 & -> & He1 & Hc1 & Ha1 & Hw1 & Hs1)]).
  - cbn [performHygiene_resume].
    destruct (performHygiene_prepare_spec env2 false st1 He1)
      as (st2 & e2 & -> & He2 & Hc2 & Ha2 & Hw2 & Hs2).
    rewrite Hf1, Hd1, andb_true_r in *. cbn [performHygiene_resume due_of settle_delay].
    pose proof (endTimer_frame env3 "hygiene" st2) as (He3 & Hw3 & Hs3).
    destruct (endTimer env3 "hygiene" st2) as [dur st3]. cbn [snd] in *.
    exists st3, e2, 300. split; [f_equal; lia|].
    rewrite He3, Hw3, Hs3, Hs2, Hs1. repeat split; auto.
  - cbn [performHygiene_resume due_of].
    pose proof (endTimer_frame env2 "hygiene" st1) as (He3 & Hw3 & Hs3).
    destruct (endTimer env2 "hygiene" st1) as [dur st3]. cbn [snd] in *.
    exists st3, e1, 200. split; [f_equal; lia|].
    rewrite He3, Hw3, Hs3. repeat split; auto.
Qed.

Lemma hygiene_unmounted env deep st :
  isMounted st = false ->
  performHygiene_begin env deep st = (startTimer env "hygiene" st, HygReturned None).
Proof.
  intros Hm. unfold performHygiene_begin. cbv zeta.
  replace (isMounted (startTimer env "hygiene" st)) with (isMounted st) by reflexivity.
  rewrite Hm. reflexivity.
Qed.

(** ** validateEmbedUrl *)

Section Validation.
Variable newURL : string -> Js.Parsed.

Lemma flag_fst env ok m vs : (flag env ok m vs).1 = ok && vs.1.
Proof. unfold flag. destruct ok; reflexivity. Qed.

Lemma validate_conclude_fst env vs : (validate_conclude env vs).1 = vs.1.
Proof. unfold validate_conclude. destruct (endTimer _ _ _). reflexivity. Qed.

Lemma validate_conclude_flag env vs :
  urlValidated (environmentChecks (validate_conclude env vs).2) = vs.1.
Proof. unfold validate_conclude. destruct (endTimer _ _ _). reflexivity. Qed.

Lemma validate_reportId_fst env d url vs :
  (validate_reportId newURL env d url vs).1 = true
  <-> vs.1 = true
      /\ exists u, newURL url = Js.Ok u
                   /\ Js.get "reportId" (Js.URLSearchParams (Js.search u)) = Some (report_id d)
                   /\ Js.truthy (report_id d) = true.
Proof.
  unfold validate_reportId. cbv zeta. destruct (newURL url) as [u|e]; cbn [fst].
  - destruct (Js.get "reportId" _) as [rid|] eqn:Hg; cbn [fst].
    + destruct (Js.truthy rid) eqn:Ht; cbn [negb fst].
      * destruct (String.eqb_spec rid (report_id d)) as [->|Hne]; cbn [negb fst].
        -- split; [intros H; split; [exact H|eauto]|tauto].
        -- split; [discriminate|]. intros (_ & u' & Hu & Hr & _). congruence.
      * split; [discriminate|]. intros (_ & u' & Hu & Hr & H). congruence.
    + split; [discriminate|]. intros (_ & u' & Hu & Hr & _). congruence.
  - split; [discriminate|]. intros (_ & u' & Hu & _). congruence.
Qed.

Lemma validateEmbedUrl_accepts env d url st :
  (validateEmbedUrl newURL env d url st).1 = true <-> accepted newURL d url.
Proof.
  unfold validateEmbedUrl, accepted. cbv zeta.
  destruct (Js.truthy url) eqn:Ht; cbn [negb orb];
    [|split; [discriminate|intros [[=] _]]].
  destruct (Js.strlen (Js.trim url) =? 0)%nat eqn:Hb; cbn [fst].
  - apply Nat.eqb_eq in Hb. split; [discriminate|]. intros (_ & H & _). contradiction.
  - apply Nat.eqb_neq in Hb.
    rewrite validate_conclude_fst, validate_reportId_fst, !flag_fst. cbn [fst].
    rewrite !andb_true_iff. split.
    + intros ((H1 & H2 & H3 & _) & Hu). auto 8.
    + intros (_ & _ & H1 & H2 & H3 & Hu). auto 8.
Qed.

Lemma validateEmbedUrl_records env d url st :
  let r := validateEmbedUrl newURL env d url st in
  if negb (Js.truthy url) || (Js.strlen (Js.trim url) =? 0)%nat
  then r.1 = false /\ environmentChecks r.2 = environmentChecks st
       /\ timerRef r.2 !! "validateUrl" = Some (now env)
  else urlValidated (environmentChecks r.2) = r.1.
Proof.
  unfold validateEmbedUrl. cbv zeta. destruct (_ || _).
  - cbn. rewrite lookup_insert_eq. auto.
  - rewrite validate_conclude_flag, validate_conclude_fst. reflexivity.
Qed.

End Validation.

(** ** The token cache *)

Lemma diagnostics_fields st st' :
  diagnostics_only st st' ->
  tokenCache st' = tokenCache st /\ isMounted st' = isMounted st
  /\ currentReportId st' = currentReportId st /\ fetchCalls st' = fetchCalls st
  /\ environmentChecks st' = environmentChecks st.
Proof. unfold diagnostics_only. intros ->. cbn. auto. Qed.

Lemma token_store_fields env d tok url st :
  let r := token_store env d tok url st in
  r.2 = TokReturned (Some {| td_token := tok; td_embedUrl := url |})
  /\ tokenCache r.1
     = <[cacheKey d := {| token := tok; embedUrl := url;
                          expires := now env + tokenExpiresIn - safetyMargin |}]> (tokenCache st)
  /\ isMounted r.1 = isMounted st /\ currentReportId r.1 = currentReportId st
  /\ fetchCalls r.1 = fetchCalls st
  /\ tokenValid (environmentChecks r.1) = true.
Proof.
  unfold token_store. cbv zeta.
  match goal with |- context [endTimer env "tokenRequest" ?x] =>
    destruct (diagnostics_fields _ _ (endTimer_diagnostics env "tokenRequest" x))
      as (H1 & H2 & H3 & H4 & H5);
    destruct (endTimer env "tokenRequest" x) as [dur st1] end.
  cbn [fst snd] in *. rewrite H1, H2, H3, H4, H5. cbn. auto 8.
Qed.

Lemma getEmbedToken_begin_cached env d st c :
  isMounted st = true -> currentReportId st = report_id d ->
  tokenCache st !! cacheKey d = Some c ->
  getEmbedToken_begin env d st
  = if now env <? expires c then token_from_cache env c (startTimer env "tokenRequest" st)
    else token_request env d (startTimer env "tokenRequest" st).
Proof.
  intros Hm Hr Hc. unfold getEmbedToken_begin. cbv zeta.
  replace (isMounted (startTimer env "tokenRequest" st)) with (isMounted st) by reflexivity.
  rewrite Hm. cbn [negb]. unfold getEmbedToken_lookup. cbv zeta.
  replace (tokenCache (startTimer env "tokenRequest" st)) with (tokenCache st) by reflexivity.
  replace (currentReportId (startTimer env "tokenRequest" st)) with (currentReportId st)
    by reflexivity.
  rewrite Hc, Hr, String.eqb_refl. cbn [negb andb]. reflexivity.
Qed.

Lemma token_from_cache_fields env c st :
  let r := token_from_cache env c st in
  r.2 = TokReturned (Some {| td_token := token c; td_embedUrl := embedUrl c |})
  /\ fetchCalls r.1 = fetchCalls st /\ tokenCache r.1 = tokenCache st.
Proof.
  unfold token_from_cache.
  match goal with |- context [endTimer env "tokenRequest" ?x] =>
    destruct (diagnostics_fields _ _ (endTimer_diagnostics env "tokenRequest" x))
      as (H1 & H2 & H3 & H4 & H5);
    destruct (endTimer env "tokenRequest" x) as [dur st1] end.
  cbn [fst snd] in *. cbn. rewrite H1, H4. auto.
Qed.

Lemma stored_token_served env env' d tok url st :
  json_outcome env = JsonData (Some tok) (Some url) ->
  Js.truthy tok = true -> Js.truthy url = true ->
  isMounted st = true -> currentReportId st = report_id d ->
  let r := getEmbedToken_on_json env d st in
  let r' := getEmbedToken_begin env' d r.1 in
  r.2 = TokReturned (Some {| td_token := tok; td_embedUrl := url |})
  /\ (now env' < now env + 3300000 ->
      r'.2 = TokReturned (Some {| td_token := tok; td_embedUrl := url |})
      /\ fetchCalls r'.1 = fetchCalls st)
  /\ (now env + 3300000 <= now env' ->
      r'.2 = TokAwait (PcFetch (now env' + 15000))
      /\ fetchCalls r'.1 = fetchCalls st ++ [token_url d]).
Proof.
  intros Hj Ht Hu Hm Hr. unfold getEmbedToken_on_json. rewrite Hj, Ht, Hu. cbn [negb orb].
  destruct (token_store_fields env d tok url st) as (R & Hc & Hm1 & Hr1 & Hf1 & _).
  cbv zeta. split; [exact R|].
  assert (Hl : tokenCache (token_store env d tok url st).1 !! cacheKey d
               = Some {| token := tok; embedUrl := url;
                         expires := now env + tokenExpiresIn - safetyMargin |})
    by (rewrite Hc; apply lookup_insert_eq).
  rewrite (getEmbedToken_begin_cached env' d _ _ (eq_trans Hm1 Hm) (eq_trans Hr1 Hr) Hl).
  cbn [expires]. unfold tokenExpiresIn, safetyMargin. split; intros Hn.
  - replace (now env' <? now env + 3600000 - 300000) with true
      by (symmetry; apply Z.ltb_lt; lia).
    match goal with |- context [token_from_cache env' ?c ?x] =>
      destruct (token_from_cache_fields env' c x) as (Q1 & Q2 & _) end.
    split; [exact Q1|]. rewrite Q2. exact Hf1.
  - replace (now env' <? now env + 3600000 - 300000) with false
      by (symmetry; apply Z.ltb_ge; lia).
    unfold token_request. cbn. rewrite Hf1. auto.
Qed.

Lemma payload_without_credential env d st :
  match json_outcome env with
  | JsonData (Some tok) (Some url) => Js.truthy tok && Js.truthy url = false
  | JsonData _ _ => True
  | JsonRejected _ _ => False
  end ->
  getEmbedToken_on_json env d st
  = (logger env "Token ou URL ausentes na resposta" LError st, TokReturned None).
Proof.
  unfold getEmbedToken_on_json. destruct (json_outcome env) as [[tok|] [url|]|name m]; try tauto.
  intros H. apply andb_false_iff in H.
  destruct (Js.truthy tok), (Js.truthy url); cbn; try reflexivity. destruct H; discriminate.
Qed.

(** ** The handlers of a closure *)

Section Handlers.
Variable newURL : string -> Js.Parsed.

Lemma closure_of_session s st c :
  closure_of s st = Some c ->
  exists d, sessions st !! s = Some {| s_dashboard := d; s_pc := PcAttached c |}.
Proof.
  unfold closure_of. destruct (sessions st !! s) as [[d pc]|]; [|discriminate].
  destruct pc; try discriminate. intros [= ->]. eauto.
Qed.

Lemma resolved_closure_inert env s c st :
  closure_of s st = Some c -> isResolved c = true ->
  diagnostics_only st (step newURL env (Widget s Rendered) st)
  /\ (forall m, diagnostics_only st (step newURL env (Widget s (Errored m)) st))
  /\ kept (step newURL env (RenderTimeout s) st) = kept st.
Proof.
  intros Hc Hr. split; [|split].
  - cbn [step]. rewrite Hc. cbn [dispatch]. destruct (listensRendered c);
      [|apply diagnostics_only_refl].
    unfold handleRendered. rewrite Hr. cbn [orb].
    pose proof (endTimer_diagnostics env "embedReport" st) as H.
    destruct (endTimer env "embedReport" st) as [t st1]. exact H.
  - intros m. cbn [step]. rewrite Hc. cbn [dispatch]. destruct (listensError c);
      [|apply diagnostics_only_refl].
    unfold handleError. rewrite Hr. cbn [orb]. apply logger_diagnostics.
  - cbn [step]. unfold fire_timeout. destruct (closure_of_session _ _ _ Hc) as [d Hs].
    rewrite Hs. destruct (timeoutDue c) as [due|]; [|reflexivity].
    destruct (due <=? now env); [|reflexivity].
    unfold handleTimeout. rewrite Hr. cbn [negb andb]. unfold clear_timeout_due. rewrite Hc.
    apply kept_set_pc_same. cbn [kind_of isResolved set_timeoutDue].
    apply (kinds_closure _ _ _ Hc).
Qed.

Lemma loaded_is_unguarded env s c st :
  closure_of s st = Some c -> listensLoaded c = true ->
  let st' := step newURL env (Widget s Loaded) st in
  loadingProgress st' = 85 /\ loadingPhase st' = "finalizing"
  /\ isReady st' = isReady st /\ isLoading st' = isLoading st.
Proof. intros Hc Hl. cbn [step]. rewrite Hc. cbn [dispatch]. rewrite Hl. cbn. auto. Qed.

Lemma plain_error_surfaces env s d c m st :
  sessions st !! s = Some {| s_dashboard := d; s_pc := PcAttached c |} ->
  isResolved c = false -> listensError c = true -> isMounted st = true ->
  isUrlError (error_message m) = false ->
  let st' := step newURL env (Widget s (Errored m)) st in
  error st' = Some (error_message m) /\ isLoading st' = false
  /\ notifications st' = notifications st ++ [(s, onError (error_message m))]
  /\ jobs st' = jobs st
  /\ closure_of s st' = Some (set_isResolved true c).
Proof.
  intros Hs Hr Hl Hm Hu. cbn zeta. cbn [step]. rewrite (closure_of_attached _ _ _ _ Hs).
  cbn [dispatch]. rewrite Hl. unfold handleError. cbv zeta. rewrite Hr.
  replace (isMounted (logger env ("Erro na renderização: " +:+ error_message m) LError st))
    with (isMounted st) by reflexivity.
  rewrite Hm. cbn [orb negb]. unfold errored. rewrite Hu. cbn [andb].
  unfold surface_error.
  erewrite mark_resolved_attached by (cbn; exact Hs).
  cbn. unfold closure_of. cbn. rewrite lookup_insert_eq. auto.
Qed.

Lemma first_render_completes env s d c st :
  sessions st !! s = Some {| s_dashboard := d; s_pc := PcAttached c |} ->
  isResolved c = false -> listensRendered c = true -> isMounted st = true ->
  let st' := step newURL env (Widget s Rendered) st in
  face st' = (false, true, loadingPhase st, 100, None)
  /\ attemptCounter st' = 0
  /\ notifications st' = notifications st ++ [(s, onSuccess)]
  /\ closure_of s st' = Some (set_isResolved true c).
Proof.
  intros Hs Hr Hl Hm. cbn zeta. cbn [step]. rewrite (closure_of_attached _ _ _ _ Hs).
  cbn [dispatch]. rewrite Hl. unfold handleRendered. rewrite Hr. cbn [orb].
  pose proof (endTimer_diagnostics env "embedReport" st) as H.
  destruct (endTimer env "embedReport" st) as [t st1]. cbn [snd] in H.
  unfold diagnostics_only in H. rewrite H. cbn [isMounted set_logs set_timerRef].
  rewrite Hm. cbn [negb]. unfold rendered.
  erewrite mark_resolved_attached by (cbn; exact Hs).
  cbn. unfold closure_of. cbn. rewrite lookup_insert_eq. auto.
Qed.

(** ** The unmount cleanup *)

Lemma unmount_no_frames env st : powerbi_iframes (unmount env st) = [].
Proof.
  unfold unmount.
  match goal with |- context [remove_powerbi_iframes ?x] => generalize x end.
  intros st0. unfold powerbi_iframes, remove_powerbi_iframes. cbn.
  rewrite filter_app, filter_no_powerbi, app_nil_r.
  destruct (embedContainerRef st0) as [e|]; cbn; [apply filter_no_powerbi|reflexivity].
Qed.

Lemma closure_of_set_pc s c' st c :
  closure_of s st = Some c -> closure_of s (set_pc s (PcAttached c') st) = Some c'.
Proof.
  intros Hc. destruct (closure_of_session _ _ _ Hc) as [d Hs].
  rewrite (sessions_set_pc _ _ _ _ Hs). unfold closure_of. cbn. rewrite lookup_insert_eq.
  reflexivity.
Qed.

Lemma deaf_closure_ignores env s sig st :
  match closure_of s st with
  | Some c => listensLoaded c = false /\ listensRendered c = false /\ listensError c = false
  | None => True
  end ->
  step newURL env (Widget s sig) st = st.
Proof.
  cbn [step]. destruct (closure_of s st) as [c|]; [|reflexivity].
  intros (H1 & H2 & H3). unfold dispatch. rewrite H1, H2, H3. destruct sig; reflexivity.
Qed.

Lemma unmount_silences env env' r st sig :
  off_throws_at env = None -> powerBiReport st = Some r ->
  step newURL env' (Widget r sig) (unmount env st) = unmount env st.
Proof.
  intros Ho Hr. apply deaf_closure_ignores. unfold unmount. rewrite Hr.
  match goal with |- context [closure_of r (remove_powerbi_iframes ?x)] =>
    change (closure_of r (remove_powerbi_iframes x)) with (closure_of r x) end.
  unfold detach_report.
  change (closure_of r (set_isMounted false st)) with (closure_of r st).
  destruct (closure_of r st) as [c|] eqn:Hc; cbn [fst].
  - erewrite closure_of_set_pc by (change (closure_of r (set_isMounted false st))
                                     with (closure_of r st); exact Hc).
    rewrite Ho. cbn. auto.
  - change (closure_of r (set_isMounted false st)) with (closure_of r st). rewrite Hc. exact I.
Qed.

End Handlers.

End ViewerSteps.

(** The log and the cleanup of the radical viewer. *)
Module RadicalFacts.
Import Dom CleanupSpec CleanupFacts RadicalLog.

Lemma logs_addLog env m t st :
  Radical.logs (Radical.addLog env m t st)
  = Radical.slice_last 4 (Radical.logs st) ++ [line env m t].
Proof. reflexivity. Qed.

Lemma addLog_short env m t st : (length (Radical.logs (Radical.addLog env m t st)) <= 5)%nat.
Proof.
  rewrite logs_addLog, length_app. unfold Radical.slice_last. rewrite length_drop. cbn. lia.
Qed.

Lemma addLog_window env m t st :
  exists k, Radical.logs (Radical.addLog env m t st) = drop k (Radical.logs st ++ [line env m t]).
Proof.
  rewrite logs_addLog. unfold Radical.slice_last.
  exists (length (Radical.logs st) - 4)%nat. rewrite drop_app_le by lia. reflexivity.
Qed.

#[local] Arguments Radical.addLog : simpl never.

Lemma log_removed_short env l st :
  (length (Radical.logs st) <= 5)%nat ->
  (length (Radical.logs (Radical.log_removed_iframes env l st)) <= 5)%nat.
Proof.
  unfold Radical.log_removed_iframes. generalize (seq 0 (length l)) as idxs.
  intros idxs. revert st. induction idxs as [|i idxs IH]; intros st H; [exact H|].
  cbn [foldl]. apply IH, addLog_short.
Qed.

Lemma radicalCleanup_begin_short env st :
  (length (Radical.logs (Radical.radicalCleanup_begin env st).1) <= 5)%nat.
Proof.
  unfold Radical.radicalCleanup_begin.
  destruct (Radical.isCleaningRef st); cbn [fst]; [apply addLog_short|].
  cbv zeta.
  repeat match goal with
         | |- context [match ?x with _ => _ end] => destruct x eqn:?
         end;
    cbn [Radical.logs Radical.set_abortControllerRef Radical.set_reportRef Radical.set_serviceRef
         Radical.set_embedRef Radical.set_isCleaningRef];
    try apply addLog_short.
Qed.

Lemma radicalCleanup_finish_short env st :
  (length (Radical.logs (Radical.radicalCleanup_finish env st)) <= 5)%nat.
Proof. unfold Radical.radicalCleanup_finish. cbn. apply addLog_short. Qed.

Lemma validateEmbedUrl_short newURL env rid url st :
  (length (Radical.logs (Radical.validateEmbedUrl newURL env rid url st).2) <= 5)%nat.
Proof.
  unfold Radical.validateEmbedUrl. cbv zeta.
  destruct url as [url|ty]; [|apply addLog_short].
  destruct (_ || _); [apply addLog_short|].
  destruct (newURL url); cbn [snd]; apply addLog_short.
Qed.

Lemma dispose_short env1 env2 st st1 :
  Radical.dispose env1 env2 st = Some st1 -> (length (Radical.logs st1) <= 5)%nat.
Proof.
  unfold Radical.dispose, Radical.dispose_begin.
  destruct (Radical.abortControllerRef _); [destruct (Radical.abort_throws env1); [discriminate|]|];
    match goal with |- context [Radical.radicalCleanup_begin ?e ?s] =>
      pose proof (radicalCleanup_begin_short e s) as H;
      destruct (Radical.radicalCleanup_begin e s) as [st2 [|]] end;
    intros [= <-]; cbn [fst] in H; auto using radicalCleanup_finish_short.
Qed.

(** One undisturbed cleanup. *)
Lemma cleanup_verifies_clean env1 env2 st :
  Radical.isCleaningRef st = false ->
  let st1 := (Radical.radicalCleanup_begin env1 st).1 in
  let st2 := Radical.radicalCleanup_finish env2 st1 in
  Radical.embedRef st2 = Radical.clear_container <$> after_reset env1 st
  /\ Radical.isCleaningRef st2 = false
  /\ (is_Some (Radical.embedRef st) ->
      exists pre, Radical.logs st2
        = pre ++ [line env2 "✅ Container verificado: TOTALMENTE LIMPO" Radical.success;
                  line env2 "🎉 LIMPEZA RADICAL CONCLUÍDA" Radical.success]).
Proof.
  intros Hc. cbv zeta.
  destruct (held_radicalCleanup_begin env1 st Hc) as [Hh _].
  set (st1 := (Radical.radicalCleanup_begin env1 st).1) in *.
  assert (He : Radical.embedRef st1 = Radical.clear_container <$> after_reset env1 st)
    by (exact (f_equal (fun p => p.1.1.1.1.1) Hh)).
  assert (Hch : forall e, Radical.embedRef st1 = Some e -> children e = []).
  { intros e H. rewrite He in H. eapply fmap_children_nil, H. }
  pose proof (held_radicalCleanup_finish env2 st1 Hch) as Hf.
  split; [rewrite <- He; exact (f_equal (fun p => p.1.1.1.1.1) Hf)|].
  split; [exact (f_equal (fun p => p.2) Hf)|].
  intros Hs. assert (Hs1 : is_Some (Radical.embedRef st1)).
  { rewrite He. unfold after_reset. destruct Hs as [e Hs]. rewrite Hs.
    destruct (Radical.serviceRef st); cbn; eauto. }
  destruct Hs1 as [e1 He1]. unfold Radical.radicalCleanup_finish. cbv zeta.
  replace (Radical.embedRef (Radical.addLog env2 "Aguardando finalização da limpeza..."
                               Radical.info st1)) with (Radical.embedRef st1) by reflexivity.
  rewrite He1, (Hch e1 He1), !filter_nil. cbn [length Nat.ltb Nat.leb orb].
  cbn [Radical.logs Radical.set_isCleaningRef]. rewrite !logs_addLog.
  unfold Radical.slice_last at 1.
  match goal with |- context [drop ?k (?l ++ [?x])] =>
    exists (drop k l); rewrite drop_app_le by (rewrite length_app; cbn; lia) end.
  rewrite <- app_assoc. reflexivity.
Qed.

Lemma clear_container_keeps e k :
  Radical.is_custom_attribute k = false -> k <> "class" ->
  attributes (Radical.clear_container e) !! k = attributes e !! k.
Proof.
  intros Hk Hc. unfold Radical.clear_container, setCssText, setAttribute, setChildren. cbn.
  rewrite lookup_insert_ne by congruence. rewrite map_lookup_filter.
  destruct (attributes e !! k); cbn; [|reflexivity].
  rewrite option_guard_True by (cbn; congruence). reflexivity.
Qed.

Lemma clear_container_look e :
  attributes (Radical.clear_container e) !! "class" = Some "flex-1 bg-white"
  /\ style (Radical.clear_container e) = {[ "display" := "none" ]}.
Proof.
  unfold Radical.clear_container, setCssText, setAttribute, setChildren. cbn.
  rewrite lookup_insert_eq. auto.
Qed.

(** A second cleanup started during the wait of the first. *)
Lemma overlapping_cleanups env1 env2 env3 st :
  Radical.isCleaningRef st = false ->
  let st1 := (Radical.radicalCleanup_begin env1 st).1 in
  Radical.radicalCleanup_begin env2 st1
  = (Radical.addLog env2 "Limpeza já em andamento, aguardando..." Radical.info st1, false)
  /\ Radical.held (Radical.radicalCleanup_finish env3 (Radical.radicalCleanup_begin env2 st1).1)
     = Radical.held (Radical.radicalCleanup_finish env3 st1).
Proof.
  intros Hc. cbv zeta.
  destruct (held_radicalCleanup_begin env1 st Hc) as [Hh _].
  set (st1 := (Radical.radicalCleanup_begin env1 st).1) in *.
  assert (Hi : Radical.isCleaningRef st1 = true) by (exact (f_equal (fun p => p.2) Hh)).
  assert (He : Radical.embedRef st1 = Radical.clear_container <$> after_reset env1 st)
    by (exact (f_equal (fun p => p.1.1.1.1.1) Hh)).
  assert (Hch : forall e, Radical.embedRef st1 = Some e -> children e = []).
  { intros e H. rewrite He in H. eapply fmap_children_nil, H. }
  assert (Hb : Radical.radicalCleanup_begin env2 st1
               = (Radical.addLog env2 "Limpeza já em andamento, aguardando..." Radical.info st1,
                  false)).
  { unfold Radical.radicalCleanup_begin. rewrite Hi. reflexivity. }
  split; [exact Hb|]. rewrite Hb. cbn [fst].
  rewrite !held_radicalCleanup_finish by (exact Hch). reflexivity.
Qed.

Lemma held_validate newURL env rid url st :
  Radical.held (Radical.validateEmbedUrl newURL env rid url st).2 = Radical.held st.
Proof.
  unfold Radical.validateEmbedUrl. cbv zeta. destruct url as [url|ty]; [|reflexivity].
  destruct (_ || _); [reflexivity|]. destruct (newURL url); reflexivity.
Qed.

End RadicalFacts.

(** performEmbed and the commands around it. *)
Module EmbedFacts.
Import Dom CleanupSpec CleanupFacts RadicalLog RadicalFacts RadicalEmbed EmbedSpec.

#[local] Arguments Radical.addLog : simpl never.
#[local] Arguments pretty : simpl never.

Lemma validate_verdict_same newURL env env' rid url st st' :
  (Radical.validateEmbedUrl newURL env rid url st).1
  = (Radical.validateEmbedUrl newURL env' rid url st').1.
Proof.
  unfold Radical.validateEmbedUrl. destruct url as [url|ty]; [|reflexivity].
  destruct (negb (Js.truthy url) || _); [reflexivity|].
  destruct (newURL url); reflexivity.
Qed.

Lemma validate_other newURL env rid ty st :
  Radical.isValid (Radical.validateEmbedUrl newURL env rid (Radical.JsOther ty) st).1 = false.
Proof. reflexivity. Qed.

Lemma catch_frame env name m st :
  props (performEmbed_catch env name m st) = props st
  /\ embedded (performEmbed_catch env name m st) = embedded st
  /\ requests (performEmbed_catch env name m st) = requests st.
Proof.
  unfold performEmbed_catch. destruct (String.eqb name "AbortError"); [auto|].
  destruct (negb (mounted st)); auto.
Qed.

Lemma warnings_frame env ws st :
  let st' := foldl (fun st w => addLog env ("⚠️ " +:+ w) Radical.info st) st ws in
  props st' = props st /\ embedded st' = embedded st /\ requests st' = requests st
  /\ phase st' = phase st /\ error st' = error st /\ idCounter st' = idCounter st
  /\ Radical.held (core st') = Radical.held (core st).
Proof.
  revert st. induction ws as [|w ws IH]; intros st; cbn [foldl]; [auto 10|].
  destruct (IH (addLog env ("⚠️ " +:+ w) Radical.info st)) as (H1 & H2 & H3 & H4 & H5 & H6 & H7).
  cbv zeta. rewrite H1, H2, H3, H4, H5, H6, H7. auto 10.
Qed.

Ltac split_all :=
  repeat match goal with
         | |- context [match ?x with _ => _ end] => destruct x eqn:?
         end.

Lemma begin_frame env st :
  props (performEmbed_begin env st).1 = props st
  /\ embedded (performEmbed_begin env st).1 = embedded st
  /\ requests (performEmbed_begin env st).1 = requests st.
Proof.
  unfold performEmbed_begin. destruct (negb (mounted st)); [auto|]. cbv zeta.
  destruct (Radical.radicalCleanup_begin _ _) as [c w]. auto.
Qed.

Lemma request_frame env d st :
  props (performEmbed_request env d st).1 = props st
  /\ embedded (performEmbed_request env d st).1 = embedded st.
Proof.
  unfold performEmbed_request. cbv zeta.
  destruct (Radical.abortControllerRef _); [auto|].
  cbn [fst]. destruct (catch_frame env (thrown env).1 (thrown env).2
    (addLog env "🔐 Solicitando token..." Radical.info
       (set_phase "authenticating" (addLog env "Container disponível" Radical.success st))))
    as (H1 & H2 & _).
  rewrite H1, H2. auto.
Qed.

Lemma throw_frame env m st :
  props (throw env m st).1 = props st /\ embedded (throw env m st).1 = embedded st
  /\ requests (throw env m st).1 = requests st.
Proof. unfold throw. cbn [fst]. apply catch_frame. Qed.

Lemma poll_frame env d n st :
  props (performEmbed_poll env d n st).1 = props st
  /\ embedded (performEmbed_poll env d n st).1 = embedded st.
Proof.
  unfold performEmbed_poll. destruct (Radical.embedRef _); [apply request_frame|].
  destruct (n <? 20)%nat; [auto|]. destruct (throw_frame env "Container não inicializou" st).
  tauto.
Qed.

Lemma after_pause_frame env d st :
  props (performEmbed_after_pause env d st).1 = props st
  /\ embedded (performEmbed_after_pause env d st).1 = embedded st.
Proof.
  unfold performEmbed_after_pause. destruct (negb (mounted st)); [auto|]. cbv zeta.
  destruct (_ || _).
  - match goal with |- context [throw env ?m ?x] =>
      destruct (throw_frame env m x) as (H1 & H2 & _) end.
    rewrite H1, H2. auto.
  - match goal with |- context [performEmbed_poll env d 0%nat ?x] =>
      destruct (poll_frame env d 0%nat x) as (H1 & H2) end.
    rewrite H1, H2. auto.
Qed.

Lemma on_fetch_frame env st :
  props (performEmbed_on_fetch env st).1 = props st
  /\ embedded (performEmbed_on_fetch env st).1 = embedded st
  /\ requests (performEmbed_on_fetch env st).1 = requests st.
Proof.
  unfold performEmbed_on_fetch. destruct (fetch_outcome env) as [status|name m].
  - destruct (negb _); [apply throw_frame|]. destruct (negb _); auto.
  - cbn [fst]. apply catch_frame.
Qed.

Ltac guards st :=
  repeat match goal with
         | |- context [Radical.embedRef (core ?x)] =>
             lazymatch x with st => fail | _ => idtac end;
             change (Radical.embedRef (core x)) with (Radical.embedRef (core st))
         | |- context [mounted ?x] =>
             lazymatch x with st => fail | _ => idtac end;
             change (mounted x) with (mounted st)
         end.

Section Embed.
Variable newURL : string -> Js.Parsed.

Lemma attach_embeds env tok url st :
  let r := performEmbed_attach env tok url st in
  props r.1 = props st /\ requests r.1 = requests st
  /\ (embedded r.1 = embedded st /\ r.2 = PcDone false
      \/ mounted st = true /\ is_Some (Radical.embedRef (core st))
         /\ embedded r.1 = embedded st ++ [(url, tok)]).
Proof.
  unfold performEmbed_attach. cbv zeta. guards st.
  assert (T : forall m x, props x = props st -> requests x = requests st ->
                          embedded x = embedded st ->
            props (throw env m x).1 = props st /\ requests (throw env m x).1 = requests st
            /\ (embedded (throw env m x).1 = embedded st /\ (throw env m x).2 = PcDone false
                \/ mounted st = true /\ is_Some (Radical.embedRef (core st))
                   /\ embedded (throw env m x).1 = embedded st ++ [(url, tok)])).
  { intros m x H1 H2 H3. destruct (throw_frame env m x) as (F1 & F2 & F3).
    rewrite F1, F2, F3, H1, H2, H3. auto. }
  destruct (Radical.embedRef (core st)) as [e|] eqn:He; [|apply T; reflexivity].
  destruct (mounted st) eqn:Hm; cbn [negb]; [|apply T; reflexivity].
  destruct (0 <? length (filter (fun n => is_element n = true) (children e)))%nat;
    destruct (sdk_embed env _) as [e'|e']; cbn [fst snd].
  1,3: split; [reflexivity|]; split; [reflexivity|]; right; split; [reflexivity|];
       split; [eexists; reflexivity|reflexivity].
  all: match goal with |- context [performEmbed_catch ?v ?n ?m ?x] =>
         destruct (catch_frame v n m x) as (F1 & F2 & F3) end;
       rewrite F1, F2, F3; split; [reflexivity|]; split; [reflexivity|]; right;
       split; [reflexivity|]; split; [eexists; reflexivity|reflexivity].
Qed.

Lemma validate_embeds env d tok rawUrl st :
  let r := performEmbed_validate newURL env d tok rawUrl st in
  props r.1 = props st /\ requests r.1 = requests st
  /\ (embedded r.1 = embedded st /\ r.2 = PcDone false
      \/ exists raw, rawUrl = Radical.JsString raw
         /\ Radical.isValid (Radical.validateEmbedUrl newURL (base env) (Viewer.report_id d)
                              rawUrl (core st)).1 = true
         /\ mounted st = true
         /\ embedded r.1
            = embedded st ++ [(default raw (decodeURIComponent env raw), tok)]).
Proof.
  unfold performEmbed_validate.
  pose proof (held_validate newURL (base env) (Viewer.report_id d) rawUrl (core st)) as Hh.
  destruct (Radical.validateEmbedUrl newURL (base env) (Viewer.report_id d) rawUrl (core st))
    as [v c] eqn:Hv. cbn [fst snd] in *. cbv zeta.
  destruct (Radical.isValid v) eqn:Hi; cbn [negb].
  2:{ match goal with |- context [throw env ?m ?x] =>
        destruct (throw_frame env m x) as (H1 & H2 & H3) end.
      rewrite H1, H2, H3. auto. }
  destruct (warnings_frame env (Radical.warnings v) (set_core c st))
    as (W1 & W2 & W3 & _ & _ & _ & W7).
  destruct rawUrl as [raw|ty]; [|cbn [fst snd]; rewrite W1, W2, W3; auto].
  assert (Hm : mounted (foldl (fun st w => addLog env ("⚠️ " +:+ w) Radical.info st)
                          (set_core c st) (Radical.warnings v)) = mounted st).
  { unfold mounted. assert (E1 := f_equal (fun p => p.1.2) W7).
    assert (E2 := f_equal (fun p => p.1.2) Hh). cbn in E1, E2. congruence. }
  destruct (decodeURIComponent env raw) as [u|] eqn:Hd; cbv beta iota zeta; cbn [default];
    match goal with |- context [performEmbed_attach env tok ?u ?x] =>
      destruct (attach_embeds env tok u x) as (A1 & A2 & [[A3 A4]|(A3 & A4 & A5)]) end;
    cbv zeta in *; rewrite A1, A2.
  all: repeat (progress change (props (addLog env ?m ?t ?x)) with (props x) in * ).
  all: repeat (progress change (requests (addLog env ?m ?t ?x)) with (requests x) in * ).
  all: repeat (progress change (embedded (addLog env ?m ?t ?x)) with (embedded x) in * ).
  all: repeat (progress change (mounted (addLog env ?m ?t ?x)) with (mounted x) in * ).
  all: rewrite ?W1, ?W2, ?W3 in *.
  all: (split; [reflexivity|]); (split; [reflexivity|]).
  all: first [ left; split; [exact A3|exact A4]
             | right; exists raw; rewrite Hd; cbn [default];
               split; [reflexivity|]; split; [reflexivity|];
               split; [congruence|exact A5] ].
Qed.

Lemma on_json_embeds env d st :
  let r := performEmbed_on_json newURL env d st in
  props r.1 = props st /\ requests r.1 = requests st
  /\ (embedded r.1 = embedded st /\ r.2 = PcDone false
      \/ exists tok raw,
           json_outcome env = JsonMembers (Radical.JsString tok) (Radical.JsString raw)
           /\ Js.truthy tok = true
           /\ Radical.isValid (Radical.validateEmbedUrl newURL (base env) (Viewer.report_id d)
                                 (Radical.JsString raw) (core st)).1 = true
           /\ mounted st = true
           /\ embedded r.1
              = embedded st ++ [(default raw (decodeURIComponent env raw), tok)]).
Proof.
  unfold performEmbed_on_json.
  destruct (json_outcome env) as [token rawUrl| |name m] eqn:Hj.
  - cbv zeta. destruct token as [tok|ty].
    + destruct (Js.truthy tok) eqn:Ht; cbn [negb].
      * match goal with |- context [performEmbed_validate newURL env d tok rawUrl ?x] =>
          destruct (validate_embeds env d tok rawUrl x)
            as (V1 & V2 & [[V3 V4]|(raw & -> & V4 & V5 & V6)]) end;
          cbv zeta in *; rewrite V1, V2; (split; [reflexivity|]); (split; [reflexivity|]).
        -- left. split; [rewrite V3; reflexivity|exact V4].
        -- right. exists tok, raw. split; [reflexivity|]. split; [exact Ht|].
           split; [|split; [exact V5|rewrite V6; reflexivity]].
           rewrite <- V4. f_equal. apply validate_verdict_same.
      * match goal with |- context [throw env ?m ?x] =>
          destruct (throw_frame env m x) as (H1 & H2 & H3) end.
        rewrite H1, H2, H3. auto.
    + match goal with |- context [throw env ?m ?x] =>
        destruct (throw_frame env m x) as (H1 & H2 & H3) end.
      rewrite H1, H2, H3. auto.
  - cbn [fst snd].
    match goal with |- context [performEmbed_catch env ?n ?m ?x] =>
      destruct (catch_frame env n m x) as (H1 & H2 & H3) end.
    rewrite H1, H2, H3. auto.
  - cbn [fst snd]. destruct (catch_frame env name m st) as (H1 & H2 & H3).
    rewrite H1, H2, H3. auto.
Qed.


Lemma on_json_done env d st : exists b, (performEmbed_on_json newURL env d st).2 = PcDone b.
Proof.
  unfold performEmbed_on_json, performEmbed_validate, performEmbed_attach, throw.
  cbv zeta. split_all; cbn [snd]; eauto.
Qed.

Lemma resume_frame env d pc st :
  props (resume newURL env d pc st).1 = props st
  /\ (pc <> PcJson -> embedded (resume newURL env d pc st).1 = embedded st).
Proof.
  destruct pc as [| |n| | |b]; cbn [resume fst].
  - auto.
  - destruct (after_pause_frame env d st); auto.
  - destruct (poll_frame env d n st); auto.
  - destruct (on_fetch_frame env st) as (H1 & H2 & _); auto.
  - destruct (on_json_embeds env d st) as (H1 & _). split; [exact H1|congruence].
  - auto.
Qed.

Lemma valid_no_errors env rid url st :
  Radical.isValid (Radical.validateEmbedUrl newURL env rid url st).1 = true ->
  Radical.errors (Radical.validateEmbedUrl newURL env rid url st).1 = [].
Proof.
  intros H. pose proof (ValidatorFacts.validate_isValid newURL env rid url st) as Hv.
  cbv zeta in Hv. rewrite H in Hv. symmetry in Hv. apply Nat.eqb_eq in Hv.
  apply length_zero_iff_nil, Hv.
Qed.

Lemma run_embeds_once envs env0 d st :
  let r := performEmbed newURL env0 envs d st in
  props r.1 = props st
  /\ (embedded r.1 = embedded st
      \/ exists call, embedded r.1 = embedded st ++ [call] /\ vetted newURL envs d st call).
Proof.
  unfold performEmbed.
  assert (Hgen : forall envs done r0,
    props r0.1 = props st ->
    (embedded r0.1 = embedded st
     \/ (exists b, r0.2 = PcDone b)
        /\ exists call, embedded r0.1 = embedded st ++ [call] /\ vetted newURL done d st call) ->
    let r := foldl (fun r env => resume newURL env d r.2 r.1) r0 envs in
    props r.1 = props st
    /\ (embedded r.1 = embedded st
        \/ exists call, embedded r.1 = embedded st ++ [call]
                        /\ vetted newURL (done ++ envs) d st call)).
  { clear envs. induction envs as [|env envs IH]; intros done r0 Hp Hi; cbn [foldl].
    - split; [exact Hp|]. rewrite app_nil_r.
      destruct Hi as [Hi|(_ & call & Hc & Hv)]; eauto.
    - replace (done ++ env :: envs) with ((done ++ [env]) ++ envs)
        by (rewrite <- app_assoc; reflexivity).
      apply IH.
      + destruct (resume_frame env d r0.2 r0.1) as [H _]. rewrite H. exact Hp.
      + destruct Hi as [Hi|([b Hb] & call & Hc & env' & raw & Hin & Hrest)].
        * assert (Hd : r0.2 = PcJson \/ r0.2 <> PcJson)
            by (destruct r0.2; first [left; reflexivity|right; discriminate]).
          destruct Hd as [Hj|Hj].
          -- rewrite Hj. cbn [resume].
             destruct (on_json_done env d r0.1) as [b Hb].
             destruct (on_json_embeds env d r0.1)
               as (_ & _ & [[E1 _]|(tok & raw & J1 & J2 & J3 & J4 & J5)]).
             ++ left. congruence.
             ++ right. split; [eauto|].
                exists (default raw (decodeURIComponent env raw), tok).
                split; [rewrite J5, Hi; reflexivity|].
                exists env, raw. cbn [fst snd]. split; [apply elem_of_app; right; left|].
                split; [exact J1|]. split; [exact J2|]. split; [|reflexivity].
                erewrite validate_verdict_same. apply valid_no_errors. exact J3.
          -- left. destruct (resume_frame env d r0.2 r0.1) as [_ H]. rewrite (H Hj). exact Hi.
        * right. rewrite Hb. cbn [resume fst snd]. split; [eauto|].
          exists call. split; [exact Hc|]. exists env', raw.
          split; [apply elem_of_app; left; exact Hin|exact Hrest]. }
  cbv zeta. specialize (Hgen envs [] (performEmbed_begin env0 st)). cbv zeta in Hgen.
  rewrite app_nil_l in Hgen. apply Hgen.
  - apply begin_frame.
  - left. apply begin_frame.
Qed.


Lemma request_rank env d st : (rank (performEmbed_request env d st).2 <= 2)%nat.
Proof.
  unfold performEmbed_request. cbv zeta. destruct (Radical.abortControllerRef _); cbn; lia.
Qed.

Lemma poll_rank env d n st :
  (rank (performEmbed_poll env d n st).2 < 3 + (20 - n))%nat.
Proof.
  unfold performEmbed_poll. destruct (Radical.embedRef _).
  - pose proof (request_rank env d st). lia.
  - destruct (n <? 20)%nat eqn:E; cbn.
    + apply Nat.ltb_lt in E. lia.
    + lia.
Qed.

Lemma resume_rank env d pc st :
  (rank (resume newURL env d pc st).2 <= rank pc - 1)%nat.
Proof.
  destruct pc as [| |n| | |b]; cbn [resume].
  - cbn. lia.
  - unfold performEmbed_after_pause. destruct (negb _); [cbn; lia|]. cbv zeta.
    destruct (_ || _); [cbn; lia|].
    match goal with |- context [performEmbed_poll env d 0%nat ?x] =>
      pose proof (poll_rank env d 0%nat x) end. cbn [rank] in *. lia.
  - pose proof (poll_rank env d n st). cbn [rank] in *. lia.
  - unfold performEmbed_on_fetch. destruct (fetch_outcome env); [|cbn; lia].
    destruct (negb _); [cbn; lia|]. destruct (negb _); cbn; lia.
  - destruct (on_json_done env d st) as [b ->]. cbn. lia.
  - cbn. lia.
Qed.

Lemma run_rank envs d r0 :
  (rank (foldl (fun r env => resume newURL env d r.2 r.1) r0 envs).2 <= rank r0.2 - length envs)%nat.
Proof.
  revert r0. induction envs as [|env envs IH]; intros r0; cbn [foldl length]; [lia|].
  pose proof (resume_rank env d r0.2 r0.1) as H.
  etransitivity; [apply IH|]. cbn [fst snd]. lia.
Qed.

Lemma begin_rank env st : (rank (performEmbed_begin env st).2 <= 24)%nat.
Proof.
  unfold performEmbed_begin. destruct (negb _); [cbn; lia|]. cbv zeta.
  destruct (Radical.radicalCleanup_begin _ _) as [c [|]]; cbn; lia.
Qed.


Lemma performEmbed_returns env0 envs d st :
  (24 <= length envs)%nat -> exists b, (performEmbed newURL env0 envs d st).2 = PcDone b.
Proof.
  intros Hn. unfold performEmbed.
  pose proof (run_rank envs d (performEmbed_begin env0 st)) as H.
  pose proof (begin_rank env0 st).
  destruct (foldl _ _ envs).2 as [| |n| | |b] eqn:E; cbn [rank] in H; try lia; eauto.
Qed.


Lemma polls_wait envs d st n :
  Radical.embedRef (core st) = None -> (n + length envs <= 20)%nat ->
  foldl (fun r env => resume newURL env d r.2 r.1) (st, PcContainer n) envs
  = (st, PcContainer (n + length envs)).
Proof.
  intros He. revert n. induction envs as [|env envs IH]; intros n Hn; cbn [foldl length] in *.
  - rewrite Nat.add_0_r. reflexivity.
  - cbn [fst snd resume]. unfold performEmbed_poll. rewrite He.
    replace (n <? 20)%nat with true by (symmetry; apply Nat.ltb_lt; lia).
    rewrite IH by lia. f_equal. f_equal. lia.
Qed.

Lemma after_pause_waits env d st :
  mounted st = true -> Radical.embedRef (core st) = None ->
  Js.truthy (Viewer.report_id d) = true -> Js.truthy (Viewer.dataset_id d) = true ->
  exists st0,
    performEmbed_after_pause env d st = (st0, PcContainer 1)
    /\ Radical.embedRef (core st0) = None /\ mounted st0 = true
    /\ requests st0 = requests st /\ embedded st0 = embedded st /\ phase st0 = "validating".
Proof.
  intros Hm He Hr Hd. unfold performEmbed_after_pause. rewrite Hm, Hr, Hd. cbn [negb orb].
  cbv zeta. unfold performEmbed_poll.
  match goal with |- context [Radical.embedRef (core ?x)] =>
    change (Radical.embedRef (core x)) with (Radical.embedRef (core st)) end.
  rewrite He. cbn [Nat.ltb Nat.leb]. eexists. split; [reflexivity|].
  cbn. unfold mounted in Hm. auto.
Qed.

Lemma catch_error env m st :
  mounted st = true -> Js.truthy m = true ->
  let st' := performEmbed_catch env "Error" m st in
  error st' = Some m /\ phase st' = "error" /\ requests st' = requests st
  /\ embedded st' = embedded st /\ Radical.held (core st') = Radical.held (core st).
Proof.
  intros Hm Ht. unfold performEmbed_catch. cbn [String.eqb Ascii.eqb Bool.eqb].
  rewrite Hm, Ht. cbn. auto.
Qed.

Lemma catch_abort env m st :
  performEmbed_catch env "AbortError" m st = addLog env "Requisição abortada" Radical.info st.
Proof. reflexivity. Qed.

Lemma catch_unmounted env name m st :
  mounted st = false -> String.eqb name "AbortError" = false ->
  performEmbed_catch env name m st = st.
Proof. intros Hm Hn. unfold performEmbed_catch. rewrite Hn, Hm. reflexivity. Qed.

Lemma props_retries st st' : props st' = props st -> retries st' = retries st.
Proof. intros H. exact (f_equal (fun p => p.1.1.1) H). Qed.

Lemma handleRetry_retries env st :
  retries (handleRetry env st).1
  = if MAX_RETRIES <=? retries st then retries st else retries st + 1.
Proof.
  unfold handleRetry. destruct (MAX_RETRIES <=? retries st); [reflexivity|]. cbv zeta.
  match goal with |- context [performEmbed_begin env ?x] =>
    destruct (begin_frame env x) as (H & _) end.
  rewrite (props_retries _ _ H). reflexivity.
Qed.

Lemma handleStartLoading_retries env st : retries (handleStartLoading env st).1 = 0.
Proof.
  unfold handleStartLoading. cbv zeta.
  match goal with |- context [performEmbed_begin env ?x] =>
    destruct (begin_frame env x) as (H & _) end.
  rewrite (props_retries _ _ H). reflexivity.
Qed.

Lemma dashboard_effect_retries env d st :
  retries (dashboard_effect env d st).1 = retries st \/ retries (dashboard_effect env d st).1 = 0.
Proof.
  unfold dashboard_effect. cbv zeta. destruct (negb _); [|left; reflexivity].
  destruct (Radical.radicalCleanup_begin _ _) as [c w]. right. reflexivity.
Qed.

Lemma dashboard_effect_changed env d st :
  currentDashboardIdRef st <> Viewer.report_id d -> Radical.isCleaningRef (core st) = false ->
  let r := dashboard_effect env d st in
  r.2 = true /\ phase r.1 = "idle" /\ error r.1 = None /\ retries r.1 = 0
  /\ hasStarted r.1 = false /\ dashboard r.1 = d
  /\ currentDashboardIdRef r.1 = Viewer.report_id d
  /\ Radical.held (core r.1)
     = (Radical.clear_container <$> after_reset (base env) (core st), None, None, None,
        Radical.mountedRef (core st), true)
  /\ last (Radical.logs (core r.1))
     = Some (line (base env) ("Dashboard alterado: " +:+ Viewer.title d) Radical.info).
Proof.
  intros Hn Hc. unfold dashboard_effect. cbv zeta.
  replace (currentDashboardIdRef (set_dashboard d st)) with (currentDashboardIdRef st)
    by reflexivity.
  apply String.eqb_neq in Hn. rewrite Hn. cbn [negb].
  match goal with |- context [Radical.radicalCleanup_begin (base env) ?x] =>
    destruct (held_radicalCleanup_begin (base env) x) as [Hh Hw]; [exact Hc|];
    destruct (Radical.radicalCleanup_begin (base env) x) as [c w] end.
  cbn [fst snd] in *. subst w. split; [reflexivity|].
  cbn. rewrite logs_addLog, last_snoc. unfold after_reset in *. cbn in Hh.
  repeat split; auto.
Qed.

End Embed.

Section More.
Variable newURL : string -> Js.Parsed.

Lemma exec_retries st c :
  0 <= retries st <= MAX_RETRIES -> 0 <= retries (exec newURL st c) <= MAX_RETRIES.
Proof.
  intros H. destruct c as [env c]. unfold exec. cbn [fst snd]. destruct c.
  - rewrite handleStartLoading_retries. unfold MAX_RETRIES. lia.
  - rewrite handleRetry_retries. destruct (MAX_RETRIES <=? retries st) eqn:E; [exact H|].
    apply Z.leb_gt in E. lia.
  - destruct (resume_frame newURL env d pc st) as [Hp _].
    rewrite (props_retries _ _ Hp). exact H.
  - unfold onLoaded. destruct (negb (mounted st)); [exact H|]. cbn. unfold MAX_RETRIES. lia.
  - unfold onRendered. destruct (negb (mounted st)); exact H.
  - unfold onError. destruct (negb (mounted st)); exact H.
  - destruct (dashboard_effect_retries env d st) as [-> | ->]; [exact H|].
    unfold MAX_RETRIES. lia.
  - exact H.
  - destruct (Radical.dispose_begin _ _) as [[c w]|]; exact H.
Qed.

Lemma execs_retries cs st :
  0 <= retries st <= MAX_RETRIES -> 0 <= retries (execs newURL cs st) <= MAX_RETRIES.
Proof.
  revert st. induction cs as [|c cs IH]; intros st H; [exact H|].
  apply IH, exec_retries, H.
Qed.


Ltac ph :=
  unfold phase_known in *;
  repeat (cbn [phase addLog on_core set_core set_phase set_error set_retries set_hasStarted
               set_dashboard set_currentDashboardIdRef set_idCounter set_requests
               set_embedded fst snd throw];
          try match goal with
              | |- context [match ?x with _ => _ end] => destruct x eqn:?
              end);
  first [assumption | reflexivity].

Lemma known_catch env name m st :
  phase_known st = true -> phase_known (performEmbed_catch env name m st) = true.
Proof. intros H. unfold performEmbed_catch. ph. Qed.

Lemma known_warnings env ws st :
  phase (foldl (fun st w => addLog env ("⚠️ " +:+ w) Radical.info st) st ws) = phase st.
Proof. revert st. induction ws as [|w ws IH]; intros st; [reflexivity|]. cbn [foldl]. rewrite IH. reflexivity. Qed.

Lemma known_begin env st : phase_known st = true -> phase_known (performEmbed_begin env st).1 = true.
Proof. intros H. unfold performEmbed_begin. ph. Qed.

Lemma known_request env d st : phase_known st = true -> phase_known (performEmbed_request env d st).1 = true.
Proof. intros H. unfold performEmbed_request, performEmbed_catch. ph. Qed.

Lemma known_poll env d n st : phase_known st = true -> phase_known (performEmbed_poll env d n st).1 = true.
Proof.
  intros H. unfold performEmbed_poll. destruct (Radical.embedRef (core st)).
  - apply known_request, H.
  - destruct (n <? 20)%nat; [exact H|]. apply known_catch, H.
Qed.

Lemma known_after_pause env d st :
  phase_known st = true -> phase_known (performEmbed_after_pause env d st).1 = true.
Proof.
  intros H. unfold performEmbed_after_pause. destruct (negb (mounted st)); [exact H|].
  cbv zeta. destruct (_ || _).
  - apply known_catch. reflexivity.
  - apply known_poll. reflexivity.
Qed.

Lemma known_on_fetch env st : phase_known st = true -> phase_known (performEmbed_on_fetch env st).1 = true.
Proof.
  intros H. unfold performEmbed_on_fetch. destruct (fetch_outcome env).
  - destruct (negb _); [apply known_catch, H|]. destruct (negb _); exact H.
  - apply known_catch, H.
Qed.

Lemma known_attach env tok url st : phase_known (performEmbed_attach env tok url st).1 = true.
Proof.
  unfold performEmbed_attach. cbv zeta.
  repeat match goal with
         | |- phase_known (performEmbed_catch _ _ _ _, _).1 = true => apply known_catch; reflexivity
         | |- phase_known (throw _ _ _).1 = true => apply known_catch; reflexivity
         | |- phase_known (_, _).1 = true => reflexivity
         | |- context [(0 <? ?n)%nat] => destruct (0 <? n)%nat
         | |- context [match ?x with _ => _ end] => destruct x
         end.
Qed.

Lemma known_validate env d tok rawUrl st :
  phase_known st = true -> phase_known (performEmbed_validate newURL env d tok rawUrl st).1 = true.
Proof.
  intros H. unfold performEmbed_validate.
  destruct (Radical.validateEmbedUrl _ _ _ _ _) as [v c].
  destruct (negb _); [apply known_catch, H|]. cbv zeta.
  destruct rawUrl as [raw|ty].
  - destruct (decodeURIComponent env raw); apply known_attach.
  - cbn [fst]. unfold phase_known. rewrite known_warnings. exact H.
Qed.

Lemma known_on_json env d st :
  phase_known st = true -> phase_known (performEmbed_on_json newURL env d st).1 = true.
Proof.
  intros H. unfold performEmbed_on_json. destruct (json_outcome env) as [tok raw| |n m].
  - cbv zeta. destruct tok as [tok|ty].
    + destruct (negb _); [apply known_catch, H|]. apply known_validate, H.
    + apply known_catch, H.
  - apply known_catch, H.
  - apply known_catch, H.
Qed.

Lemma known_resume env d pc st :
  phase_known st = true -> phase_known (resume newURL env d pc st).1 = true.
Proof.
  intros H. destruct pc; cbn [resume fst].
  - exact H.
  - apply known_after_pause, H.
  - apply known_poll, H.
  - apply known_on_fetch, H.
  - apply known_on_json, H.
  - exact H.
Qed.

Lemma exec_known st c : phase_known st = true -> phase_known (exec newURL st c) = true.
Proof.
  intros H. destruct c as [env c]. unfold exec. cbn [fst snd]. destruct c.
  - unfold handleStartLoading. apply known_begin, H.
  - unfold handleRetry. destruct (MAX_RETRIES <=? retries st); [exact H|]. apply known_begin, H.
  - apply known_resume, H.
  - unfold onLoaded. destruct (negb (mounted st)); [exact H|reflexivity].
  - unfold onRendered. destruct (negb (mounted st)); exact H.
  - unfold onError. destruct (negb (mounted st)); [exact H|reflexivity].
  - unfold dashboard_effect. cbv zeta. destruct (negb _); [|exact H].
    destruct (Radical.radicalCleanup_begin _ _) as [c w]. reflexivity.
  - exact H.
  - destruct (Radical.dispose_begin _ _) as [[c w]|]; exact H.
Qed.

Lemma execs_known cs st : phase_known st = true -> phase_known (execs newURL cs st) = true.
Proof.
  revert st. induction cs as [|c cs IH]; intros st H; [exact H|].
  apply IH, exec_known, H.
Qed.


Lemma request_requests env d st :
  let r := performEmbed_request env d st in
  requests r.1 = requests st \/ requests r.1 = requests st ++ [token_url d] /\ r.2 = PcFetch.
Proof.
  unfold performEmbed_request. cbv zeta. destruct (Radical.abortControllerRef _).
  - right. split; reflexivity.
  - left. cbn [fst]. destruct (catch_frame env (thrown env).1 (thrown env).2
      (addLog env "🔐 Solicitando token..." Radical.info
         (set_phase "authenticating" (addLog env "Container disponível" Radical.success st))))
      as (_ & _ & H). rewrite H. reflexivity.
Qed.

Lemma poll_requests env d n st :
  let r := performEmbed_poll env d n st in
  requests r.1 = requests st \/ requests r.1 = requests st ++ [token_url d] /\ r.2 = PcFetch.
Proof.
  unfold performEmbed_poll. destruct (Radical.embedRef (core st)).
  - apply request_requests.
  - left. destruct (n <? 20)%nat; [reflexivity|]. apply throw_frame.
Qed.

Lemma after_pause_requests env d st :
  let r := performEmbed_after_pause env d st in
  requests r.1 = requests st \/ requests r.1 = requests st ++ [token_url d] /\ r.2 = PcFetch.
Proof.
  unfold performEmbed_after_pause. destruct (negb (mounted st)); [left; reflexivity|].
  cbv zeta. destruct (_ || _).
  - left. match goal with |- context [throw env ?m ?x] =>
      destruct (throw_frame env m x) as (_ & _ & H) end. rewrite H. reflexivity.
  - match goal with |- context [performEmbed_poll env d 0%nat ?x] =>
      destruct (poll_requests env d 0%nat x) as [H|[H H']] end.
    + left. rewrite H. reflexivity.
    + right. split; [rewrite H; reflexivity|exact H'].
Qed.

Lemma resume_requests env d pc st :
  let r := resume newURL env d pc st in
  requests r.1 = requests st
  \/ requests r.1 = requests st ++ [token_url d] /\ r.2 = PcFetch /\ (2 < rank pc)%nat.
Proof.
  destruct pc; cbn [resume rank].
  - left. reflexivity.
  - destruct (after_pause_requests env d st) as [H|[H H']]; [left; exact H|right].
    split; [exact H|]. split; [exact H'|lia].
  - destruct (poll_requests env d attempts st) as [H|[H H']]; [left; exact H|right].
    split; [exact H|]. split; [exact H'|lia].
  - left. apply on_fetch_frame.
  - left. apply (on_json_embeds newURL env d st).
  - left. reflexivity.
Qed.

Lemma steps_request_once envs d r0 :
  let r := foldl (fun r env => resume newURL env d r.2 r.1) r0 envs in
  requests r.1 = requests r0.1
  \/ requests r.1 = requests r0.1 ++ [token_url d] /\ (2 < rank r0.2)%nat.
Proof.
  revert r0. induction envs as [|env envs IH]; intros r0; cbn [foldl]; [left; reflexivity|].
  cbv zeta in IH. specialize (IH (resume newURL env d r0.2 r0.1)).
  pose proof (resume_rank newURL env d r0.2 r0.1) as Hr.
  destruct (resume_requests env d r0.2 r0.1) as [H|(H & H' & H'')].
  - rewrite H in IH. destruct IH as [IH|[IH IH']]; [left; exact IH|right].
    split; [exact IH|lia].
  - rewrite H in IH. destruct IH as [IH|[IH IH']].
    + right. split; [exact IH|exact H''].
    + rewrite H' in IH'. cbn in IH'. lia.
Qed.

Lemma run_requests_once env0 envs d st :
  let r := performEmbed newURL env0 envs d st in
  requests r.1 = requests st \/ requests r.1 = requests st ++ [token_url d].
Proof.
  unfold performEmbed. cbv zeta.
  destruct (steps_request_once envs d (performEmbed_begin env0 st)) as [H|[H _]];
    destruct (begin_frame env0 st) as (_ & _ & Hb); rewrite Hb in H; auto.
Qed.


Lemma attach_succeeds env tok url st e :
  mounted st = true -> Radical.embedRef (core st) = Some e ->
  (forall x, exists x', sdk_embed env x = Returns x') ->
  let r := performEmbed_attach env tok url st in
  r.2 = PcDone true /\ phase r.1 = "loading" /\ error r.1 = error st
  /\ embedded r.1 = embedded st ++ [(url, tok)]
  /\ is_Some (Radical.reportRef (core r.1)) /\ is_Some (Radical.serviceRef (core r.1)).
Proof.
  intros Hm He Hs. unfold performEmbed_attach. cbv zeta. guards st.
  rewrite He, Hm. cbn [negb].
  destruct (0 <? length (filter (fun n => is_element n = true) (children e)))%nat;
    match goal with |- context [sdk_embed env ?x] => destruct (Hs x) as [e' ->] end;
    cbn [fst snd]; (repeat split; try reflexivity); eexists; reflexivity.
Qed.

Lemma validate_succeeds env d tok raw st e :
  mounted st = true -> Radical.embedRef (core st) = Some e ->
  (forall x, exists x', sdk_embed env x = Returns x') ->
  Radical.isValid (Radical.validateEmbedUrl newURL (base env) (Viewer.report_id d)
                     (Radical.JsString raw) (core st)).1 = true ->
  let r := performEmbed_validate newURL env d tok (Radical.JsString raw) st in
  r.2 = PcDone true /\ phase r.1 = "loading" /\ error r.1 = error st
  /\ embedded r.1 = embedded st ++ [(default raw (decodeURIComponent env raw), tok)]
  /\ is_Some (Radical.reportRef (core r.1)) /\ is_Some (Radical.serviceRef (core r.1)).
Proof.
  intros Hm He Hs Hv. unfold performEmbed_validate.
  pose proof (held_validate newURL (base env) (Viewer.report_id d) (Radical.JsString raw) (core st))
    as Hh.
  destruct (Radical.validateEmbedUrl newURL (base env) (Viewer.report_id d) (Radical.JsString raw)
              (core st)) as [v c] eqn:Ev. cbn [fst snd] in *. rewrite Hv. cbn [negb]. cbv zeta.
  destruct (warnings_frame env (Radical.warnings v) (set_core c st))
    as (_ & W2 & _ & _ & W5 & _ & W7).
  set (st1 := foldl (fun st w => addLog env ("⚠️ " +:+ w) Radical.info st)
                (set_core c st) (Radical.warnings v)) in *.
  cbv zeta in W2, W5, W7. fold st1 in W2, W5, W7.
  assert (Hh1 : Radical.held (core st1) = Radical.held (core st)) by (rewrite W7; exact Hh).
  assert (Hm1 : mounted st1 = true).
  { unfold mounted. assert (E := f_equal (fun p => p.1.2) Hh1). cbn in E. rewrite E. exact Hm. }
  assert (He1 : Radical.embedRef (core st1) = Some e).
  { assert (E := f_equal (fun p => p.1.1.1.1.1) Hh1). cbn in E. rewrite E. exact He. }
  destruct (decodeURIComponent env raw) as [u|]; cbv beta iota zeta; cbn [default];
    match goal with |- context [performEmbed_attach env tok ?u ?x] =>
      destruct (attach_succeeds env tok u x e) as (A1 & A2 & A3 & A4 & A5 & A6);
        [exact Hm1|exact He1|exact Hs|] end;
    cbv zeta in *; rewrite A1, A2, A3, A4; cbn [error embedded addLog on_core set_core];
    rewrite ?W2, ?W5; cbn [error embedded set_core]; auto 10.
Qed.

Lemma on_json_succeeds env d tok raw st e :
  mounted st = true -> Radical.embedRef (core st) = Some e ->
  (forall x, exists x', sdk_embed env x = Returns x') ->
  json_outcome env = JsonMembers (Radical.JsString tok) (Radical.JsString raw) ->
  Js.truthy tok = true ->
  Radical.isValid (Radical.validateEmbedUrl newURL (base env) (Viewer.report_id d)
                     (Radical.JsString raw) (core st)).1 = true ->
  let r := performEmbed_on_json newURL env d st in
  r.2 = PcDone true /\ phase r.1 = "loading" /\ error r.1 = error st
  /\ embedded r.1 = embedded st ++ [(default raw (decodeURIComponent env raw), tok)]
  /\ is_Some (Radical.reportRef (core r.1)) /\ is_Some (Radical.serviceRef (core r.1)).
Proof.
  intros Hm He Hs Hj Ht Hv. unfold performEmbed_on_json. rewrite Hj, Ht. cbn [negb]. cbv zeta.
  match goal with |- context [performEmbed_validate newURL env d tok _ ?x] =>
    destruct (validate_succeeds env d tok raw x e) as (A1 & A2 & A3 & A4 & A5 & A6);
      [exact Hm|exact He|exact Hs| |] end.
  - rewrite <- Hv. f_equal. apply validate_verdict_same.
  - cbv zeta in *. auto 10.
Qed.


Lemma begin_starts env st e :
  mounted st = true -> Radical.isCleaningRef (core st) = false ->
  Radical.embedRef (core st) = Some e ->
  exists st0 e0,
    performEmbed_begin env st = (st0, PcCleanup)
    /\ Radical.held (core st0) = (Some e0, None, None, None, true, true)
    /\ children e0 = [] /\ error st0 = error st /\ requests st0 = requests st
    /\ embedded st0 = embedded st.
Proof.
  intros Hm Hc He. unfold performEmbed_begin. rewrite Hm. cbn [negb]. cbv zeta.
  match goal with |- context [Radical.radicalCleanup_begin (base env) ?x] =>
    destruct (held_radicalCleanup_begin (base env) x) as [Hh Hw]; [exact Hc|];
    destruct (Radical.radicalCleanup_begin (base env) x) as [c w] end.
  cbn [fst snd] in Hh, Hw. subst w.
  assert (Ha : exists e1, after_reset (base env) (core st) = Some e1).
  { unfold after_reset. rewrite He. destruct (Radical.serviceRef (core st)); eauto. }
  destruct Ha as [e1 Ha].
  change (after_reset (base env) _) with (after_reset (base env) (core st)) in Hh.
  rewrite Ha in Hh. cbn [fmap option_fmap option_map] in Hh.
  change (Radical.mountedRef _) with (mounted st) in Hh. rewrite Hm in Hh.
  eexists _, _. split; [reflexivity|]. split; [exact Hh|].
  split; [apply clear_container_children|]. auto.
Qed.

Lemma after_pause_requests_token env d st e :
  mounted st = true -> Radical.embedRef (core st) = Some e ->
  Js.truthy (Viewer.report_id d) = true -> Js.truthy (Viewer.dataset_id d) = true ->
  let r := performEmbed_after_pause env d st in
  r.2 = PcFetch /\ requests r.1 = requests st ++ [token_url d] /\ embedded r.1 = embedded st
  /\ error r.1 = error st /\ mounted r.1 = true /\ Radical.embedRef (core r.1) = Some e.
Proof.
  intros Hm He Hr Hd. unfold performEmbed_after_pause. rewrite Hm, Hr, Hd. cbn [negb orb].
  cbv zeta. unfold performEmbed_poll. guards st. rewrite He.
  unfold performEmbed_request. cbv zeta.
  change (Radical.abortControllerRef _) with (Some false). cbn [fst snd].
  repeat split; assumption.
Qed.

Lemma run_attaches env0 env1 env2 env3 env4 d st e status tok raw :
  mounted st = true -> Radical.isCleaningRef (core st) = false ->
  Radical.embedRef (core st) = Some e ->
  Js.truthy (Viewer.report_id d) = true -> Js.truthy (Viewer.dataset_id d) = true ->
  fetch_outcome env3 = FetchResponse status -> Viewer.response_ok status = true ->
  json_outcome env4 = JsonMembers (Radical.JsString tok) (Radical.JsString raw) ->
  Js.truthy tok = true ->
  Radical.isValid (Radical.validateEmbedUrl newURL (base env4) (Viewer.report_id d)
                     (Radical.JsString raw) (core st)).1 = true ->
  (forall x, exists x', sdk_embed env4 x = Returns x') ->
  let r := performEmbed newURL env0 [env1; env2; env3; env4] d st in
  r.2 = PcDone true /\ phase r.1 = "loading" /\ error r.1 = error st
  /\ requests r.1 = requests st ++ [token_url d]
  /\ embedded r.1 = embedded st ++ [(default raw (decodeURIComponent env4 raw), tok)]
  /\ is_Some (Radical.reportRef (core r.1)) /\ is_Some (Radical.serviceRef (core r.1)).
Proof.
  intros Hm Hc He Hr Hd Hf Hok Hj Ht Hv Hs. unfold performEmbed. cbn [foldl].
  destruct (begin_starts env0 st e Hm Hc He) as (st0 & e0 & -> & Hh0 & Hk0 & E0 & R0 & M0).
  cbn [fst snd resume].
  set (st1 := on_core (Radical.radicalCleanup_finish (base env1)) st0).
  apply held_fields in Hh0. destruct Hh0 as (H1 & H2 & H3 & H4 & H5 & H6).
  assert (Hh1 : Radical.held (core st1) = (Some e0, None, None, None, true, false)).
  { unfold st1. cbn [core on_core set_core]. rewrite held_radicalCleanup_finish.
    - rewrite H1, H2, H3, H4, H5. reflexivity.
    - intros x Hx. rewrite H1 in Hx. injection Hx as <-. exact Hk0. }
  apply held_fields in Hh1. destruct Hh1 as (G1 & _ & _ & _ & G5 & _).
  destruct (after_pause_requests_token env2 d st1 e0 G5 G1 Hr Hd)
    as (P1 & P2 & P3 & P4 & P5 & P6). cbv zeta in *.
  destruct (performEmbed_after_pause env2 d st1) as [st2 pc2]. cbn [fst snd] in *. subst pc2.
  cbn [resume]. unfold performEmbed_on_fetch. rewrite Hf, Hok, P5. cbn [negb fst snd resume].
  destruct (on_json_succeeds env4 d tok raw st2 e0 P5 P6 Hs Hj Ht)
    as (A1 & A2 & A3 & A4 & A5 & A6).
  { rewrite <- Hv. f_equal. apply validate_verdict_same. }
  cbv zeta in *.
  destruct (on_json_embeds newURL env4 d st2) as (_ & Rq & _). cbv zeta in Rq.
  rewrite A1, A2, A3, A4, Rq, P2, P3, P4. unfold st1. cbn [error requests embedded on_core set_core].
  rewrite E0, R0, M0. auto 10.
Qed.

End More.

End EmbedFacts.

(** * Teardown *)

Section Teardown.
Import CleanupSpec CleanupFacts RadicalFacts ViewerSteps.

Lemma held_radicalCleanup env1 env2 st :
  Radical.isCleaningRef st = false ->
  Radical.held (radicalCleanup env1 env2 st)
  = (Radical.clear_container <$> after_reset env1 st, None, None, None,
     Radical.mountedRef st, false).
Proof.
  intros Hc. unfold radicalCleanup.
  destruct (held_radicalCleanup_begin env1 st Hc) as [Hh Hw].
  destruct (Radical.radicalCleanup_begin env1 st) as [st1 w]. cbn [fst snd] in *. subst w.
  apply held_fields in Hh. destruct Hh as (H1 & H2 & H3 & H4 & H5 & H6).
  rewrite held_radicalCleanup_finish.
  - rewrite H1, H2, H3, H4, H5. reflexivity.
  - intros e He. rewrite H1 in He. eapply fmap_children_nil, He.
Qed.

Lemma radicalCleanup_twice env1 env2 env3 env4 st :
  Radical.isCleaningRef st = false ->
  Radical.held (radicalCleanup env3 env4 (radicalCleanup env1 env2 st))
  = Radical.held (radicalCleanup env1 env2 st).
Proof.
  intros Hc. pose proof (held_radicalCleanup env1 env2 st Hc) as H1.
  pose proof H1 as H1'. apply held_fields in H1'. destruct H1' as (E1 & E2 & E3 & E4 & E5 & E6).
  rewrite (held_radicalCleanup env3 env4 _ E6), H1.
  unfold after_reset at 1. rewrite E3, E1, E5.
  destruct (after_reset env1 st) as [e|]; cbn; [rewrite clear_container_idem|]; reflexivity.
Qed.

Lemma held_dispose_first env1 env2 st :
  Radical.isCleaningRef st = false ->
  match Radical.dispose env1 env2 st with
  | Some d1 =>
      Radical.held d1
      = (Radical.clear_container <$> after_reset env1 st, None, None, None, false, false)
  | None => is_Some (Radical.abortControllerRef st) /\ Radical.abort_throws env1 = true
  end.
Proof.
  intros Hc. destruct (Radical.dispose env1 env2 st) as [d1|] eqn:Hd.
  - rewrite (held_dispose env1 env2 st d1 Hd), Hc. reflexivity.
  - unfold Radical.dispose, Radical.dispose_begin in Hd.
    change (Radical.abortControllerRef (Radical.set_mountedRef false st))
      with (Radical.abortControllerRef st) in Hd.
    destruct (Radical.abortControllerRef st) as [a|].
    + destruct (Radical.abort_throws env1); [eauto|].
      destruct (Radical.radicalCleanup_begin _ _); discriminate.
    + destruct (Radical.radicalCleanup_begin _ _); discriminate.
Qed.

Lemma vheld_unmount env st :
  vheld (unmount env st)
  = ((fun e => setChildren (filter (fun n => is_powerbi_iframe n = false) (children e)) e)
       <$> embedContainerRef st,
     filter (fun n => is_powerbi_iframe n = false) (documentIframes st),
     powerBiReport st, powerBiService st, false).
Proof.
  unfold unmount.
  destruct (powerBiReport st) as [r|] eqn:Hr; [|unfold vheld; cbn; rewrite Hr; reflexivity].
  rewrite detach_report_only_sessions. unfold vheld. cbn. rewrite Hr. reflexivity.
Qed.

Lemma dispose_begin_twice env1 env2 env3 st :
  Radical.isCleaningRef st = false ->
  match Radical.dispose_begin env1 st with
  | Some (w1, waiting) =>
      waiting = true
      /\ Radical.dispose_begin env3 w1
         = Some (Radical.addLog env3 "Limpeza já em andamento, aguardando..." Radical.info w1,
                 false)
      /\ Radical.held (Radical.radicalCleanup_finish env2
                         (Radical.addLog env3 "Limpeza já em andamento, aguardando..."
                            Radical.info w1))
         = Radical.held (Radical.radicalCleanup_finish env2 w1)
  | None => is_Some (Radical.abortControllerRef st) /\ Radical.abort_throws env1 = true
  end.
Proof.
  intros Hc. unfold Radical.dispose_begin.
  change (Radical.abortControllerRef (Radical.set_mountedRef false st))
    with (Radical.abortControllerRef st).
  assert (G : forall s0, Radical.isCleaningRef s0 = false -> Radical.mountedRef s0 = false ->
    let r := Radical.radicalCleanup_begin env1 s0 in
    r.2 = true
    /\ match Radical.abortControllerRef (Radical.set_mountedRef false r.1) with
       | Some _ =>
           if Radical.abort_throws env3 then None
           else Some (Radical.radicalCleanup_begin env3
                        (Radical.set_abortControllerRef (Some true)
                           (Radical.set_mountedRef false r.1)))
       | None => Some (Radical.radicalCleanup_begin env3 (Radical.set_mountedRef false r.1))
       end
       = Some (Radical.addLog env3 "Limpeza já em andamento, aguardando..." Radical.info r.1,
               false)
    /\ Radical.held (Radical.radicalCleanup_finish env2
                       (Radical.addLog env3 "Limpeza já em andamento, aguardando..."
                          Radical.info r.1))
       = Radical.held (Radical.radicalCleanup_finish env2 r.1)).
  { intros s0 H0 Hm. cbv zeta.
    destruct (held_radicalCleanup_begin env1 s0 H0) as [Hh Hw].
    destruct (Radical.radicalCleanup_begin env1 s0) as [w1 w]. cbn [fst snd] in *.
    split; [exact Hw|].
    apply held_fields in Hh. destruct Hh as (E1 & E2 & E3 & E4 & E5 & E6).
    assert (Hsame : Radical.set_mountedRef false w1 = w1).
    { rewrite Hm in E5. destruct w1; cbn in *. subst. reflexivity. }
    rewrite Hsame, E4. split.
    - unfold Radical.radicalCleanup_begin. rewrite E6. reflexivity.
    - assert (Hch : forall e, Radical.embedRef w1 = Some e -> children e = []).
      { intros e H. rewrite E1 in H. eapply fmap_children_nil, H. }
      rewrite !held_radicalCleanup_finish by (exact Hch). reflexivity. }
  destruct (Radical.abortControllerRef st) as [a|].
  - destruct (Radical.abort_throws env1); [eauto|].
    match goal with |- context [Radical.radicalCleanup_begin env1 ?x] =>
      specialize (G x Hc eq_refl); cbv zeta in G;
      destruct (Radical.radicalCleanup_begin env1 x) as [w1 w] end.
    exact G.
  - match goal with |- context [Radical.radicalCleanup_begin env1 ?x] =>
      specialize (G x Hc eq_refl); cbv zeta in G;
      destruct (Radical.radicalCleanup_begin env1 x) as [w1 w] end.
    exact G.
Qed.

(** C9: the cleanup called twice.  One radicalCleanup, started while
    none is running, releases the report, the service and the abort
    controller and its own guard, and leaves the container, when the
    ref holds one, without children and without the attributes it
    strips.  A second call changes none of this, whether it is made
    after the first has completed or while the first is in its wait, in
    which case it returns at the guard.  The unmount cleanup of the
    radical viewer, which React runs after it has cleared the ref of the
    container, raises only if [AbortController.abort] does; otherwise it
    leaves the same state with the viewer marked unmounted, a second run
    raises nothing and changes nothing, and a second run started while
    the first waits returns at the guard.  The unmount cleanup of the
    session-based viewer marks the viewer unmounted and removes every
    PowerBI frame of the document, keeping the references; a second run
    leaves container, frames and references as the first did. *)
Theorem dispose_idempotent env1 env2 env3 env4 st (Hc : Radical.isCleaningRef st = false) :
  let once := radicalCleanup env1 env2 st in
  let waiting := (Radical.radicalCleanup_begin env1 st).1 in
  Radical.held once
  = (Radical.clear_container <$> after_reset env1 st, None, None, None,
     Radical.mountedRef st, false)
  /\ (forall e, children (Radical.clear_container e) = []
                /\ forall k, Radical.is_custom_attribute k = true ->
                             attributes (Radical.clear_container e) !! k = None)
  /\ Radical.held (radicalCleanup env3 env4 once) = Radical.held once
  /\ Radical.radicalCleanup_begin env3 waiting
     = (Radical.addLog env3 "Limpeza já em andamento, aguardando..." Radical.info waiting, false)
  /\ Radical.held (Radical.radicalCleanup_finish env2 (Radical.radicalCleanup_begin env3 waiting).1)
     = Radical.held once
  /\ match Radical.dispose env1 env2 st with
     | Some d1 =>
         Radical.held d1
         = (Radical.clear_container <$> after_reset env1 st, None, None, None, false, false)
         /\ exists d2, Radical.dispose env3 env4 d1 = Some d2 /\ Radical.held d2 = Radical.held d1
     | None => is_Some (Radical.abortControllerRef st) /\ Radical.abort_throws env1 = true
     end
  /\ match Radical.dispose_begin env1 st with
     | Some (w1, waiting) =>
         waiting = true
         /\ Radical.dispose_begin env3 w1
            = Some (Radical.addLog env3 "Limpeza já em andamento, aguardando..." Radical.info w1,
                    false)
         /\ Radical.held (Radical.radicalCleanup_finish env2
                            (Radical.addLog env3 "Limpeza já em andamento, aguardando..."
                               Radical.info w1))
            = Radical.held (Radical.radicalCleanup_finish env2 w1)
     | None => is_Some (Radical.abortControllerRef st) /\ Radical.abort_throws env1 = true
     end
  /\ (forall venv1 venv2 vst,
        vheld (unmount venv1 vst)
        = ((fun e => setChildren (filter (fun n => is_powerbi_iframe n = false) (children e)) e)
             <$> embedContainerRef vst,
           filter (fun n => is_powerbi_iframe n = false) (documentIframes vst),
           powerBiReport vst, powerBiService vst, false)
        /\ powerbi_iframes (unmount venv1 vst) = []
        /\ vheld (unmount venv2 (unmount venv1 vst)) = vheld (unmount venv1 vst)).
Proof.
  cbv zeta. pose proof (held_radicalCleanup env1 env2 st Hc) as H1.
  split; [exact H1|].
  split; [intros e; split; [apply clear_container_children|intros k; apply clear_container_no_custom]|].
  split; [exact (radicalCleanup_twice env1 env2 env3 env4 st Hc)|].
  destruct (overlapping_cleanups env1 env3 env2 st Hc) as [O1 O2]. cbv zeta in O1, O2.
  split; [exact O1|]. split.
  { rewrite O2. unfold radicalCleanup.
    destruct (held_radicalCleanup_begin env1 st Hc) as [_ Hw].
    destruct (Radical.radicalCleanup_begin env1 st) as [s1 w]. cbn [fst snd] in *. subst w.
    reflexivity. }
  split.
  { pose proof (held_dispose_first env1 env2 st Hc) as Hd.
    destruct (Radical.dispose env1 env2 st) as [d1|] eqn:E; [|exact Hd].
    split; [exact Hd|].
    destruct (dispose_twice env1 env2 env3 env4 st d1 E (or_introl Hc)) as (d2 & D1 & D2).
    exists d2. split; [exact D1|exact D2]. }
  split; [exact (dispose_begin_twice env1 env2 env3 st Hc)|].
  intros venv1 venv2 vst. split; [apply vheld_unmount|].
  split; [apply unmount_no_frames|apply unmount_twice].
Qed.

Lemma dispose_idempotent_witness :
  Radical.isCleaningRef holding = false
  /\ Radical.isCleaningRef unmounting = false
  /\ Radical.held (radicalCleanup calm calm (radicalCleanup calm calm holding))
     = Radical.held (radicalCleanup calm calm holding)
  /\ (exists d1 d2,
        Radical.dispose calm calm unmounting = Some d1
        /\ Radical.held d1 = (None, None, None, None, false, false)
        /\ Radical.dispose calm calm d1 = Some d2 /\ Radical.held d2 = Radical.held d1).
Proof.
  split; [reflexivity|]. split; [reflexivity|]. split.
  - exact (proj1 (proj2 (proj2 (dispose_idempotent calm calm calm calm holding eq_refl)))).
  - pose proof (dispose_idempotent calm calm calm calm unmounting eq_refl) as T.
    cbv zeta in T. destruct T as (_ & _ & _ & _ & _ & T & _ & _).
    destruct (Radical.dispose calm calm unmounting) as [d1|] eqn:E;
      [|vm_compute in E; discriminate E].
    destruct T as (H1 & d2 & H2 & H3). exists d1, d2.
    split; [reflexivity|]. split; [exact H1|]. split; [exact H2|exact H3].
Defined.

End Teardown.


(** * Further properties of the session-based viewer *)

Section SessionViewer.
Import ViewerView ViewerRun Cases ViewerEvolution ViewerSteps.

(** X1: whatever the events, the log of the session-based viewer never
    holds more than 100 entries; each call of logger leaves a suffix of
    the previous log followed by the new entry, which is the last one. *)
Theorem log_stays_within_capacity newURL trace d e :
  (length (logs (run newURL trace (initial d e))) <= 100)%nat
  /\ (forall env m t st,
        logs (logger env m t st) `suffix_of` logs st ++ [entry env m t]
        /\ last (logs (logger env m t st)) = Some (entry env m t)).
Proof.
  split.
  - destruct (E_run newURL trace (initial d e)) as (H & _). apply H. apply Nat.le_0_l.
  - intros env m t st. unfold logger, push_log. cbn [logs set_logs]. cbv zeta.
    fold (entry env m t).
    destruct (100 <? length (logs st ++ [entry env m t]))%nat eqn:E.
    + unfold slice_last. split; [apply suffix_drop|].
      rewrite drop_app_le by (rewrite length_app; cbn; lia).
      apply last_snoc.
    + split; [reflexivity|apply last_snoc].
Qed.

(** X2: a timer started at a time other than 0 and ended later yields
    the time elapsed, logs the start and the duration, and is forgotten:
    ending it again, like ending a timer never started, yields 0 and
    changes nothing. *)
Theorem timer_round_trip env0 env1 env2 l st (H0 : now env0 <> 0) :
  let r := endTimer env1 l (startTimer env0 l st) in
  r.1 = now env1 - now env0
  /\ timerRef r.2 = delete l (timerRef st)
  /\ (exists pre, logs r.2
        = pre ++ [entry env0 ("Timer iniciado: " +:+ l) LDebug;
                  entry env1 (l +:+ ": " +:+ pretty (now env1 - now env0) +:+ ".00ms") LDebug])
  /\ endTimer env2 l r.2 = (0, r.2).
Proof.
  cbv zeta. destruct (timer_measures env0 env1 l st H0) as (H1 & H2 & H3).
  split; [exact H1|]. split; [exact H2|]. split; [exact H3|].
  apply endTimer_absent. rewrite H2. apply lookup_delete_eq.
Qed.

Lemma timer_round_trip_witness :
  now (serving A 1000) <> 0
  /\ (endTimer (serving A 1250) "hygiene" (startTimer (serving A 1000) "hygiene" (initial A box))).1
     = 250.
Proof.
  assert (H : now (serving A 1000) <> 0) by (cbn; lia).
  split; [exact H|].
  exact (proj1 (timer_round_trip (serving A 1000) (serving A 1250) (serving A 1250) "hygiene"
                  (initial A box) H)).
Defined.

(** X3: nothing ever sets domStable again.  Once verifyDomSanity has run
    without a container, it answers false after any further events, even
    with the container back and the document clean. *)
Theorem missing_container_is_remembered newURL env0 st trace env e
  (Hc : embedContainerRef st = None) :
  let st1 := run newURL trace (verifyDomSanity env0 st).2 in
  domStable (environmentChecks st1) = false
  /\ (verifyDomSanity env st1).1 = false
  /\ (verifyDomSanity env (set_documentIframes [] (set_embedContainerRef (Some e) st1))).1 = false.
Proof.
  cbv zeta.
  assert (H0 : domStable (environmentChecks (verifyDomSanity env0 st).2) = false).
  { pose proof (verifyDomSanity_records env0 st) as H. cbv zeta in H. rewrite Hc in H. tauto. }
  destruct (E_run newURL trace (verifyDomSanity env0 st).2) as (_ & _ & _ & _ & H & _).
  specialize (H H0). split; [exact H|].
  split; apply verifyDomSanity_unstable; [exact H|exact H].
Qed.

Lemma missing_container_is_remembered_witness :
  embedContainerRef bare = None
  /\ (verifyDomSanity (serving A 9000)
        (set_documentIframes []
           (set_embedContainerRef (Some box)
              (run Js.parseURL (timed A 1000 (mount A)) (verifyDomSanity (serving A 0) bare).2)))).1
     = false.
Proof.
  split; [reflexivity|].
  exact (proj2 (proj2 (missing_container_is_remembered Js.parseURL (serving A 0) bare
                         (timed A 1000 (mount A)) (serving A 9000) box eq_refl))).
Defined.

(** X4: a shallow cleanup of a mounted viewer that holds a service
    instance keeps that instance.  It still empties the container and
    strips the three widget attributes, reports the domStable check, and
    waits 200 ms, or 300 ms when it had frames to remove. *)
Theorem shallow_hygiene_keeps_service env1 env2 env3 st k
  (Hm : isMounted st = true) (He : is_Some (embedContainerRef st))
  (Hk : powerBiService st = Some k) :
  exists st' e' w,
    performHygiene_run env1 env2 env3 false st
      = (st', HygReturned (Some (domStable (environmentChecks st))), w)
    /\ (w = 200 \/ w = 300)
    /\ embedContainerRef st' = Some e'
    /\ children e' = []
    /\ (forall a, a ∈ widget_attributes -> attributes e' !! a = None)
    /\ workspaceClean st' = domStable (environmentChecks st)
    /\ powerBiService st' = Some k.
Proof. apply hygiene_shallow; assumption. Qed.

Lemma shallow_hygiene_keeps_service_witness :
  isMounted served = true /\ powerBiService served = Some 0%nat
  /\ exists st' e' w,
      performHygiene_run (serving A 0) (serving A 100) (serving A 300) false served
      = (st', HygReturned (Some true), w)
      /\ (w = 200 \/ w = 300)
      /\ embedContainerRef st' = Some e' /\ children e' = []
      /\ (forall a, a ∈ widget_attributes -> attributes e' !! a = None)
      /\ workspaceClean st' = true
      /\ powerBiService st' = Some 0%nat.
Proof.
  split; [reflexivity|]. split; [reflexivity|].
  refine (shallow_hygiene_keeps_service (serving A 0) (serving A 100) (serving A 300) served
            0%nat eq_refl _ eq_refl).
  eexists. reflexivity.
Defined.

(** X5: the session-based viewer accepts a locator exactly when it is a
    non-blank string that starts with https://, starts with
    https://app.powerbi.com/ in any letter case, contains /reportEmbed,
    parses, and carries the non-empty reportId of the dashboard.  The
    verdict is recorded in the urlValidated check, except for a blank
    locator, which leaves the checks alone and the validateUrl timer
    running. *)
Theorem locator_accepted_iff newURL env d url st :
  let r := validateEmbedUrl newURL env d url st in
  (r.1 = true <-> accepted newURL d url)
  /\ (if negb (Js.truthy url) || (Js.strlen (Js.trim url) =? 0)%nat
      then r.1 = false /\ environmentChecks r.2 = environmentChecks st
           /\ timerRef r.2 !! "validateUrl" = Some (now env)
      else urlValidated (environmentChecks r.2) = r.1).
Proof.
  cbv zeta. split; [apply validateEmbedUrl_accepts|apply validateEmbedUrl_records].
Qed.

(** X6: a credential obtained from the backend is cached for 55 minutes.
    For the dashboard being shown, a request made before that time is
    answered with the same credential and no network call; one made at
    or after it asks the backend again. *)
Theorem stored_token_served_until_expiry env env' d tok url st
  (Hj : json_outcome env = JsonData (Some tok) (Some url))
  (Ht : Js.truthy tok = true) (Hu : Js.truthy url = true)
  (Hm : isMounted st = true) (Hr : currentReportId st = report_id d) :
  let r := getEmbedToken_on_json env d st in
  let r' := getEmbedToken_begin env' d r.1 in
  r.2 = TokReturned (Some {| td_token := tok; td_embedUrl := url |})
  /\ (now env' < now env + 3300000 ->
      r'.2 = TokReturned (Some {| td_token := tok; td_embedUrl := url |})
      /\ fetchCalls r'.1 = fetchCalls st)
  /\ (now env + 3300000 <= now env' ->
      r'.2 = TokAwait (PcFetch (now env' + 15000))
      /\ fetchCalls r'.1 = fetchCalls st ++ [token_url d]).
Proof. apply stored_token_served; assumption. Qed.

Lemma stored_token_served_until_expiry_witness :
  json_outcome (serving A 1000) = JsonData (Some "token-R1") (Some (locator A))
  /\ isMounted showing_A = true /\ currentReportId showing_A = report_id A
  /\ (getEmbedToken_begin (serving A 3300999) A
        (getEmbedToken_on_json (serving A 1000) A showing_A).1).2
     = TokReturned (Some {| td_token := "token-R1"; td_embedUrl := locator A |})
  /\ (getEmbedToken_begin (serving A 3301000) A
        (getEmbedToken_on_json (serving A 1000) A showing_A).1).2
     = TokAwait (PcFetch 3316000).
Proof.
  split; [reflexivity|]. split; [reflexivity|]. split; [reflexivity|].
  split.
  - refine (proj1 (proj1 (proj2 (stored_token_served_until_expiry (serving A 1000)
              (serving A 3300999) A "token-R1" (locator A) showing_A
              eq_refl eq_refl eq_refl eq_refl eq_refl)) _)).
    cbn. lia.
  - refine (proj1 (proj2 (proj2 (stored_token_served_until_expiry (serving A 1000)
              (serving A 3301000) A "token-R1" (locator A) showing_A
              eq_refl eq_refl eq_refl eq_refl eq_refl)) _)).
    cbn. lia.
Defined.

(** X7: an answer of the backend that lacks the token or the locator, or
    holds an empty one, makes getEmbedToken resolve to null; nothing is
    cached and only the log changes. *)
Theorem payload_without_credential_is_dropped env d st
  (Hj : match json_outcome env with
        | JsonData (Some tok) (Some url) => Js.truthy tok && Js.truthy url = false
        | JsonData _ _ => True
        | JsonRejected _ _ => False
        end) :
  let r := getEmbedToken_on_json env d st in
  r.2 = TokReturned None
  /\ r.1 = logger env "Token ou URL ausentes na resposta" LError st
  /\ tokenCache r.1 = tokenCache st
  /\ tokenValid (environmentChecks r.1) = tokenValid (environmentChecks st).
Proof. cbv zeta. rewrite (payload_without_credential env d st Hj). cbn. auto. Qed.

Lemma payload_without_credential_is_dropped_witness :
  json_outcome half_answer = JsonData (Some "token-R1") None
  /\ (getEmbedToken_on_json half_answer A showing_A).2 = TokReturned None
  /\ tokenCache (getEmbedToken_on_json half_answer A showing_A).1 = ∅.
Proof.
  split; [reflexivity|].
  destruct (payload_without_credential_is_dropped half_answer A showing_A I) as (H1 & _ & H3 & _).
  split; [exact H1|exact H3].
Defined.

(** X8: once the viewer is unmounted, whatever events follow, it stays
    unmounted, no new session is started, no request is sent to the
    backend and the host is never told of a success. *)
Theorem nothing_starts_after_unmount newURL trace st (Hm : isMounted st = false) :
  let st' := run newURL trace st in
  isMounted st' = false
  /\ currentSessionId st' = currentSessionId st
  /\ fetchCalls st' = fetchCalls st
  /\ successes st' = successes st.
Proof.
  cbv zeta. destruct (E_run newURL trace st) as (_ & _ & _ & _ & _ & _ & H).
  destruct (H Hm) as (H1 & H2 & _ & H4 & H5). auto.
Qed.

Lemma nothing_starts_after_unmount_witness :
  isMounted gone = false
  /\ successes (run Js.parseURL
                  (timed A 30000 [Widget 1 Loaded; Widget 1 Rendered; ClickReload; RenderTimeout 1])
                  gone) = successes gone.
Proof.
  assert (H : isMounted gone = false) by (vm_compute; reflexivity).
  split; [exact H|].
  exact (proj2 (proj2 (proj2 (nothing_starts_after_unmount Js.parseURL
           (timed A 30000 [Widget 1 Loaded; Widget 1 Rendered; ClickReload; RenderTimeout 1])
           gone H)))).
Defined.

(** X9: whatever the events, the phase shown is one of seven names and
    the progress one of eight marks between 0 and 100; the attempt
    counter is never negative; and getPhaseText falls back to its
    default text for the phase "initial" only. *)
Theorem shown_phase_and_progress newURL trace d e :
  let st := run newURL trace (initial d e) in
  loadingPhase st ∈ phases
  /\ loadingProgress st ∈ progress_marks
  /\ 0 <= loadingProgress st <= 100
  /\ 0 <= attemptCounter st
  /\ (getPhaseText (loadingPhase st) = "Iniciando..." <-> loadingPhase st = "initial").
Proof.
  cbv zeta. destruct (E_run newURL trace (initial d e)) as (_ & H2 & H3 & H4 & _).
  specialize (H2 eq_refl). specialize (H3 eq_refl).
  assert (H4' : 0 <= attemptCounter (run newURL trace (initial d e))) by (apply H4; cbn; lia).
  clear H4. revert H2 H3 H4'. generalize (run newURL trace (initial d e)) as st. intros st H2 H3 H4.
  assert (Hp : loadingPhase st ∈ phases).
  { unfold known_phase in H2. apply existsb_exists in H2 as (p & Hin & Hp).
    apply String.eqb_eq in Hp. subst p. apply list_elem_of_In, Hin. }
  assert (Hq : loadingProgress st ∈ progress_marks).
  { unfold known_progress in H3. apply existsb_exists in H3 as (p & Hin & Hq).
    apply Z.eqb_eq in Hq. subst p. apply list_elem_of_In, Hin. }
  split; [exact Hp|]. split; [exact Hq|]. split; [|split; [exact H4|]].
  - unfold progress_marks in Hq. rewrite !elem_of_cons, elem_of_nil in Hq. lia.
  - unfold phases in Hp. rewrite !elem_of_cons, elem_of_nil in Hp.
    destruct Hp as [->|[->|[->|[->|[->|[->|[->|[]]]]]]]]; vm_compute;
      (split; [try discriminate; reflexivity|try discriminate; reflexivity]).
Qed.

(** X10: whatever the events, while the viewer is loading it shows
    neither a ready dashboard nor an error. *)
Theorem loading_excludes_ready_and_error newURL trace d e
  (Hl : isLoading (run newURL trace (initial d e)) = true) :
  isReady (run newURL trace (initial d e)) = false
  /\ error (run newURL trace (initial d e)) = None.
Proof.
  destruct (E_run newURL trace (initial d e)) as (_ & _ & _ & _ & _ & H & _).
  apply H; [|exact Hl]. cbn. discriminate.
Qed.

Lemma loading_excludes_ready_and_error_witness :
  isLoading (run Js.parseURL (timed A 1000 (mount A)) (initial A box)) = true
  /\ isReady (run Js.parseURL (timed A 1000 (mount A)) (initial A box)) = false.
Proof.
  assert (H : isLoading (run Js.parseURL (timed A 1000 (mount A)) (initial A box)) = true)
    by (vm_compute; reflexivity).
  split; [exact H|].
  exact (proj1 (loading_excludes_ready_and_error Js.parseURL (timed A 1000 (mount A)) A box H)).
Defined.

(** X11: once the closure of a session is resolved, a rendered or an
    error signal for it changes nothing but the log and the timers, and
    its render timeout leaves what the host sees, the notifications, the
    pending work and the attempt counter as they were. *)
Theorem resolved_closure_is_inert newURL env s c st
  (Hc : closure_of s st = Some c) (Hr : isResolved c = true) :
  diagnostics_only st (step newURL env (Widget s Rendered) st)
  /\ (forall m, diagnostics_only st (step newURL env (Widget s (Errored m)) st))
  /\ kept (step newURL env (RenderTimeout s) st) = kept st.
Proof. exact (resolved_closure_inert newURL env s c st Hc Hr). Qed.

Lemma resolved_closure_is_inert_witness :
  (exists c, closure_of 1 shown = Some c /\ isResolved c = true)
  /\ kept (step Js.parseURL (serving A 60000) (RenderTimeout 1) shown) = kept shown.
Proof.
  assert (Hc : closure_of 1 shown = Some (set_isResolved true first_closure))
    by (vm_compute; reflexivity).
  split; [eexists; split; [exact Hc|reflexivity]|].
  exact (proj2 (proj2 (resolved_closure_is_inert Js.parseURL (serving A 60000) 1 _ shown
                         Hc eq_refl))).
Defined.

(** X12: an error signal whose message names neither an embed nor a URL
    is surfaced at once, whatever the attempt counter: the message (or
    "Erro desconhecido" when the signal carries none) becomes the error,
    the loading ends, the host is told once and nothing is queued. *)
Theorem plain_error_is_surfaced newURL env s d c m st
  (Hs : sessions st !! s = Some {| s_dashboard := d; s_pc := PcAttached c |})
  (Hr : isResolved c = false) (Hl : listensError c = true) (Hm : isMounted st = true)
  (Hu : isUrlError (error_message m) = false) :
  let st' := step newURL env (Widget s (Errored m)) st in
  error st' = Some (error_message m) /\ isLoading st' = false
  /\ notifications st' = notifications st ++ [(s, onError (error_message m))]
  /\ jobs st' = jobs st
  /\ closure_of s st' = Some (set_isResolved true c)
  /\ error_message None = "Erro desconhecido"
  /\ isUrlError "Erro desconhecido" = false.
Proof.
  cbv zeta.
  destruct (plain_error_surfaces newURL env s d c m st Hs Hr Hl Hm Hu) as (H1 & H2 & H3 & H4 & H5).
  repeat split; auto.
Qed.

Lemma plain_error_is_surfaced_witness :
  sessions first_attach !! 1%nat = Some {| s_dashboard := A; s_pc := PcAttached first_closure |}
  /\ isUrlError (error_message None) = false
  /\ error (step Js.parseURL (serving A 12000) (Widget 1 (Errored None)) first_attach)
     = Some "Erro desconhecido".
Proof.
  assert (Hs : sessions first_attach !! 1%nat
               = Some {| s_dashboard := A; s_pc := PcAttached first_closure |})
    by (vm_compute; reflexivity).
  assert (Hm : isMounted first_attach = true) by (vm_compute; reflexivity).
  split; [exact Hs|]. split; [reflexivity|].
  exact (proj1 (plain_error_is_surfaced Js.parseURL (serving A 12000) 1 A first_closure None
                  first_attach Hs eq_refl eq_refl Hm eq_refl)).
Defined.

(** X13: the first rendered signal of an unresolved closure, while
    mounted, ends the loading: the viewer is ready at progress 100 with
    no error, the attempt counter is back at 0, the host is told of the
    success once and the closure is resolved. *)
Theorem first_render_completes_the_load newURL env s d c st
  (Hs : sessions st !! s = Some {| s_dashboard := d; s_pc := PcAttached c |})
  (Hr : isResolved c = false) (Hl : listensRendered c = true) (Hm : isMounted st = true) :
  let st' := step newURL env (Widget s Rendered) st in
  face st' = (false, true, loadingPhase st, 100, None)
  /\ attemptCounter st' = 0
  /\ notifications st' = notifications st ++ [(s, onSuccess)]
  /\ closure_of s st' = Some (set_isResolved true c).
Proof. exact (first_render_completes newURL env s d c st Hs Hr Hl Hm). Qed.

Lemma first_render_completes_the_load_witness :
  sessions first_attach !! 1%nat = Some {| s_dashboard := A; s_pc := PcAttached first_closure |}
  /\ isMounted first_attach = true
  /\ notifications (step Js.parseURL (serving A 12000) (Widget 1 Rendered) first_attach)
     = notifications first_attach ++ [(1%nat, onSuccess)].
Proof.
  assert (Hs : sessions first_attach !! 1%nat
               = Some {| s_dashboard := A; s_pc := PcAttached first_closure |})
    by (vm_compute; reflexivity).
  assert (Hm : isMounted first_attach = true) by (vm_compute; reflexivity).
  split; [exact Hs|]. split; [exact Hm|].
  exact (proj1 (proj2 (proj2 (first_render_completes_the_load Js.parseURL (serving A 12000) 1 A
                                first_closure first_attach Hs eq_refl eq_refl Hm)))).
Defined.

(** X14: the unmount cleanup leaves no PowerBI frame in the document or
    the container and, when the three [off] calls go through, silences
    the report held: none of its signals changes the state any more. *)
Theorem unmount_clears_and_silences newURL env env' r st sig
  (Ho : off_throws_at env = None) (Hr : powerBiReport st = Some r) :
  powerbi_iframes (unmount env st) = []
  /\ isMounted (unmount env st) = false
  /\ step newURL env' (Widget r sig) (unmount env st) = unmount env st.
Proof.
  split; [apply unmount_no_frames|]. split.
  - unfold unmount. rewrite Hr, detach_report_only_sessions. reflexivity.
  - apply unmount_silences; assumption.
Qed.

Lemma unmount_clears_and_silences_witness :
  off_throws_at (serving A 20000) = None /\ powerBiReport first_attach = Some 1%nat
  /\ step Js.parseURL (serving A 21000) (Widget 1 Loaded) gone = gone.
Proof.
  assert (Hr : powerBiReport first_attach = Some 1%nat) by (vm_compute; reflexivity).
  split; [reflexivity|]. split; [exact Hr|].
  exact (proj2 (proj2 (unmount_clears_and_silences Js.parseURL (serving A 20000)
                         (serving A 21000) 1 first_attach Loaded eq_refl Hr))).
Defined.

(** X15: a session that has been superseded is dropped where embedReport
    re-checks its token: after the cleanup and after the stabilisation
    wait it leaves what the host sees and the notifications as they
    were. *)
Theorem superseded_session_is_dropped newURL env s d td st
  (Hs : s <> currentSessionId st) :
  face (embed_after_hygiene newURL env s d st) = face st
  /\ notifications (embed_after_hygiene newURL env s d st) = notifications st
  /\ face (embed_after_stabilize env s td st) = face st
  /\ notifications (embed_after_stabilize env s td st) = notifications st.
Proof. apply superseded_dropped, Hs. Qed.

Lemma superseded_session_is_dropped_witness :
  7%nat <> currentSessionId first_attach
  /\ face (embed_after_hygiene Js.parseURL (serving A 12000) 7 A first_attach) = face first_attach.
Proof.
  assert (H : 7%nat <> currentSessionId first_attach) by (vm_compute; discriminate).
  split; [exact H|].
  exact (proj1 (superseded_session_is_dropped Js.parseURL (serving A 12000) 7 A
                  {| td_token := "t"; td_embedUrl := locator A |} first_attach H)).
Defined.

End SessionViewer.

(** * Further properties of the radical cleanup *)

Section RadicalCleanup.
Import CleanupSpec CleanupFacts RadicalLog RadicalFacts.

(** X16: the log of the radical viewer is a window of five lines: addLog
    formats the line, appends it and keeps the last five, so that after
    validateEmbedUrl, after either half of radicalCleanup and after a
    dispose the log never holds more than five lines. *)
Theorem radical_log_window newURL env m t st :
  (exists k, Radical.logs (Radical.addLog env m t st)
             = drop k (Radical.logs st ++ [line env m t]))
  /\ last (Radical.logs (Radical.addLog env m t st)) = Some (line env m t)
  /\ (length (Radical.logs (Radical.addLog env m t st)) <= 5)%nat
  /\ (forall rid url,
        (length (Radical.logs (Radical.validateEmbedUrl newURL env rid url st).2) <= 5)%nat)
  /\ (length (Radical.logs (Radical.radicalCleanup_begin env st).1) <= 5)%nat
  /\ (length (Radical.logs (Radical.radicalCleanup_finish env st)) <= 5)%nat
  /\ (forall env2 st1, Radical.dispose env env2 st = Some st1 ->
                       (length (Radical.logs st1) <= 5)%nat).
Proof.
  split; [apply addLog_window|]. split; [rewrite logs_addLog; apply last_snoc|].
  split; [apply addLog_short|]. split; [intros; apply validateEmbedUrl_short|].
  split; [apply radicalCleanup_begin_short|]. split; [apply radicalCleanup_finish_short|].
  intros env2 st1 H. eapply dispose_short, H.
Qed.

(** X17: one undisturbed radicalCleanup, started while none is running,
    releases its guard and leaves the container as the service reset
    left it, minus its children and its powerbi-, data-, aria- and
    tabindex attributes, with the class "flex-1 bg-white" and the inline
    style "display: none;"; every other attribute is kept.  Its final
    verification then always finds the container clean: the log ends
    with that verdict and the closing line. *)
Theorem cleanup_leaves_a_verified_container env1 env2 st e
  (Hc : Radical.isCleaningRef st = false) (He : Radical.embedRef st = Some e) :
  let st2 := Radical.radicalCleanup_finish env2 (Radical.radicalCleanup_begin env1 st).1 in
  exists e0 e',
    after_reset env1 st = Some e0 /\ Radical.embedRef st2 = Some e'
    /\ children e' = []
    /\ attributes e' !! "class" = Some "flex-1 bg-white"
    /\ style e' = {[ "display" := "none" ]}
    /\ (forall k, Radical.is_custom_attribute k = true -> attributes e' !! k = None)
    /\ (forall k, Radical.is_custom_attribute k = false -> k <> "class" ->
                  attributes e' !! k = attributes e0 !! k)
    /\ Radical.isCleaningRef st2 = false
    /\ exists pre, Radical.logs st2
         = pre ++ [line env2 "✅ Container verificado: TOTALMENTE LIMPO" Radical.success;
                   line env2 "🎉 LIMPEZA RADICAL CONCLUÍDA" Radical.success].
Proof.
  cbv zeta. destruct (cleanup_verifies_clean env1 env2 st Hc) as (H1 & H2 & H3).
  assert (Hs : exists e0, after_reset env1 st = Some e0).
  { unfold after_reset. rewrite He. destruct (Radical.serviceRef st); eauto. }
  destruct Hs as [e0 He0]. rewrite He0 in H1. cbn [fmap option_fmap option_map] in H1.
  exists e0, (Radical.clear_container e0). split; [exact He0|]. split; [exact H1|].
  split; [apply clear_container_children|].
  destruct (clear_container_look e0) as [Hk Hy]. split; [exact Hk|]. split; [exact Hy|].
  split; [intros k; apply clear_container_no_custom|].
  split; [intros k; apply clear_container_keeps|]. split; [exact H2|].
  apply H3. rewrite He. eauto.
Qed.

Lemma cleanup_leaves_a_verified_container_witness :
  Radical.isCleaningRef holding = false
  /\ exists e',
      Radical.embedRef (Radical.radicalCleanup_finish calm (Radical.radicalCleanup_begin calm holding).1)
      = Some e'
      /\ children e' = [] /\ attributes e' !! "class" = Some "flex-1 bg-white".
Proof.
  split; [reflexivity|].
  destruct (cleanup_leaves_a_verified_container calm calm holding _ eq_refl eq_refl)
    as (e0 & e' & _ & H1 & H2 & H3 & _).
  exists e'. split; [exact H1|]. split; [exact H2|exact H3].
Defined.

(** X18: a radicalCleanup started while another one is waiting returns at
    its guard after writing one log line, and the first cleanup still
    completes as if it had been alone: same container, same references,
    guard released. *)
Theorem overlapping_cleanup_is_a_no_op env1 env2 env3 st
  (Hc : Radical.isCleaningRef st = false) :
  let st1 := (Radical.radicalCleanup_begin env1 st).1 in
  Radical.radicalCleanup_begin env2 st1
  = (Radical.addLog env2 "Limpeza já em andamento, aguardando..." Radical.info st1, false)
  /\ Radical.held (Radical.radicalCleanup_finish env3 (Radical.radicalCleanup_begin env2 st1).1)
     = Radical.held (Radical.radicalCleanup_finish env3 st1)
  /\ Radical.isCleaningRef
       (Radical.radicalCleanup_finish env3 (Radical.radicalCleanup_begin env2 st1).1) = false.
Proof.
  cbv zeta. destruct (overlapping_cleanups env1 env2 env3 st Hc) as [H1 H2].
  split; [exact H1|]. split; [exact H2|]. reflexivity.
Qed.

Lemma overlapping_cleanup_is_a_no_op_witness :
  Radical.isCleaningRef holding = false
  /\ (Radical.radicalCleanup_begin calm (Radical.radicalCleanup_begin calm holding).1).2 = false.
Proof.
  split; [reflexivity|].
  exact (f_equal snd (proj1 (overlapping_cleanup_is_a_no_op calm calm calm holding eq_refl))).
Defined.

End RadicalCleanup.

(** * Further properties of performEmbed and of the commands around it *)

Section RadicalEmbedding.
Import CleanupSpec CleanupFacts RadicalLog RadicalFacts RadicalEmbed EmbedSpec EmbedFacts.

(** X19: one invocation of performEmbed of the radical viewer, resumed
    without interference, has returned after at most 24 resumptions
    (the cleanup, the pause, at most 20 waits for the container, the
    request and its payload).  Whatever the environment answers, it
    leaves the retry count, the started flag and the dashboard alone,
    sends at most one token request, to the address of the captured
    dashboard, and hands service.embed at most one configuration, whose
    token is a non-empty string of the payload and whose locator is the
    decoded (or, when decoding throws, the raw) form of a string in which
    validateEmbedUrl found no error. *)
Theorem one_invocation_embeds_at_most_once newURL env0 envs d st
  (Hn : (24 <= length envs)%nat) :
  let r := performEmbed newURL env0 envs d st in
  (exists attached, r.2 = PcDone attached)
  /\ props r.1 = props st
  /\ (requests r.1 = requests st \/ requests r.1 = requests st ++ [token_url d])
  /\ (embedded r.1 = embedded st
      \/ exists call, embedded r.1 = embedded st ++ [call] /\ vetted newURL envs d st call).
Proof.
  cbv zeta. split; [exact (performEmbed_returns newURL env0 envs d st Hn)|].
  destruct (run_embeds_once newURL envs env0 d st) as [Hp He].
  split; [exact Hp|]. split; [exact (run_requests_once newURL env0 envs d st)|exact He].
Qed.

Lemma one_invocation_embeds_at_most_once_witness :
  (24 <= length (replicate 24 fair))%nat
  /\ exists attached,
       (performEmbed Js.parseURL fair (replicate 24 fair) Scenario.A fresh).2 = PcDone attached.
Proof.
  assert (H : (24 <= length (replicate 24 fair))%nat) by (vm_compute; lia).
  split; [exact H|].
  exact (proj1 (one_invocation_embeds_at_most_once Js.parseURL fair (replicate 24 fair)
                  Scenario.A fresh H)).
Defined.

(** X20: the wait for the container is bounded.  When performEmbed passes
    its pause on a mounted viewer whose container React has not attached,
    with both ids present, it waits; while the container stays missing
    it is still waiting after 19 further resumptions, having requested
    and embedded nothing, and the 20th (one second in all) gives up: the
    phase is error, the message is that the container did not
    initialise, and no token was requested. *)
Theorem container_wait_is_bounded newURL env envs env' d st
  (Hm : mounted st = true) (He : Radical.embedRef (core st) = None)
  (Hr : Js.truthy (Viewer.report_id d) = true) (Hd : Js.truthy (Viewer.dataset_id d) = true)
  (Hn : length envs = 19%nat) :
  let waiting := foldl (fun r env => resume newURL env d r.2 r.1)
                       (performEmbed_after_pause env d st) envs in
  let r := resume newURL env' d waiting.2 waiting.1 in
  waiting.2 = PcContainer 20
  /\ requests waiting.1 = requests st /\ embedded waiting.1 = embedded st
  /\ r.2 = PcDone false
  /\ phase r.1 = "error" /\ error r.1 = Some "Container não inicializou"
  /\ requests r.1 = requests st /\ embedded r.1 = embedded st.
Proof.
  cbv zeta. destruct (after_pause_waits env d st Hm He Hr Hd)
    as (st0 & -> & He0 & Hm0 & Hq & Hb & Hp).
  rewrite (polls_wait newURL envs d st0 1 He0) by lia. rewrite Hn. cbn [fst snd Nat.add].
  split; [reflexivity|]. split; [exact Hq|]. split; [exact Hb|].
  cbn [resume]. unfold performEmbed_poll. rewrite He0. cbn [Nat.ltb Nat.leb]. unfold throw.
  cbn [fst snd]. split; [reflexivity|].
  destruct (catch_error env' "Container não inicializou" st0 Hm0 eq_refl)
    as (C1 & C2 & C3 & C4 & _).
  rewrite C1, C2, C3, C4. auto.
Qed.

Lemma container_wait_is_bounded_witness :
  mounted unattached = true /\ Radical.embedRef (core unattached) = None
  /\ Js.truthy (Viewer.report_id Scenario.A) = true
  /\ Js.truthy (Viewer.dataset_id Scenario.A) = true
  /\ length (replicate 19 fair) = 19%nat
  /\ (foldl (fun r env => resume Js.parseURL env Scenario.A r.2 r.1)
            (performEmbed_after_pause fair Scenario.A unattached) (replicate 19 fair)).2
     = PcContainer 20.
Proof.
  split; [reflexivity|]. split; [reflexivity|]. split; [reflexivity|]. split; [reflexivity|].
  split; [reflexivity|].
  exact (proj1 (container_wait_is_bounded Js.parseURL fair (replicate 19 fair) fair Scenario.A
                  unattached eq_refl eq_refl eq_refl eq_refl eq_refl)).
Defined.

(** X21: a token request answered outside 200..299 ends the invocation
    before the payload is read.  On a mounted viewer the phase becomes
    error and the message names the status; on an unmounted one nothing
    at all changes.  Nothing is embedded either way. *)
Theorem refused_token_request_is_reported env st status
  (Hf : fetch_outcome env = FetchResponse status) (Hs : Viewer.response_ok status = false) :
  let r := performEmbed_on_fetch env st in
  r.2 = PcDone false /\ requests r.1 = requests st /\ embedded r.1 = embedded st
  /\ if mounted st
     then phase r.1 = "error"
          /\ error r.1 = Some ("HTTP " +:+ pretty status +:+ ": Falha ao obter token")
          /\ last (Radical.logs (core r.1))
             = Some (line (base env)
                       ("❌ ERRO: HTTP " +:+ pretty status +:+ ": Falha ao obter token")
                       Radical.error)
     else r.1 = st.
Proof.
  cbv zeta. unfold performEmbed_on_fetch. rewrite Hf, Hs. cbn [negb]. unfold throw.
  cbn [fst snd]. split; [reflexivity|].
  destruct (catch_frame env "Error" ("HTTP " +:+ pretty status +:+ ": Falha ao obter token") st)
    as (_ & F2 & F3).
  split; [exact F3|]. split; [exact F2|].
  destruct (mounted st) eqn:Hm.
  - destruct (catch_error env ("HTTP " +:+ pretty status +:+ ": Falha ao obter token") st Hm
                eq_refl) as (C1 & C2 & _).
    split; [exact C2|]. split; [exact C1|].
    unfold performEmbed_catch. cbn [String.eqb Ascii.eqb Bool.eqb]. rewrite Hm.
    cbn [negb Js.truthy]. cbn [core set_error set_phase addLog on_core set_core].
    rewrite logs_addLog. apply last_snoc.
  - apply catch_unmounted; [exact Hm|reflexivity].
Qed.

Lemma refused_token_request_is_reported_witness :
  fetch_outcome failing = FetchResponse 503 /\ Viewer.response_ok 503 = false
  /\ error (performEmbed_on_fetch failing fresh).1 = Some "HTTP 503: Falha ao obter token".
Proof.
  split; [reflexivity|]. split; [reflexivity|].
  exact (proj1 (proj2 (proj2 (proj2 (proj2
           (refused_token_request_is_reported failing fresh 503 eq_refl eq_refl)))))).
Defined.

(** X22: a token request rejected with an AbortError ends the invocation
    without an error: phase, error, retry count, requests and embeds stay
    as they were, and the refs too.  The one thing written is the log
    line, and it is written whether or not the viewer is still
    mounted. *)
Theorem aborted_request_is_silent env m st
  (Hf : fetch_outcome env = FetchRejected "AbortError" m) :
  let r := performEmbed_on_fetch env st in
  r.2 = PcDone false /\ phase r.1 = phase st /\ error r.1 = error st
  /\ props r.1 = props st /\ requests r.1 = requests st /\ embedded r.1 = embedded st
  /\ Radical.held (core r.1) = Radical.held (core st)
  /\ last (Radical.logs (core r.1))
     = Some (line (base env) "Requisição abortada" Radical.info).
Proof.
  cbv zeta. unfold performEmbed_on_fetch. rewrite Hf. cbn [fst snd]. rewrite catch_abort.
  repeat (split; [reflexivity|]). cbn [core addLog on_core set_core].
  rewrite logs_addLog. apply last_snoc.
Qed.

Lemma aborted_request_is_silent_witness :
  fetch_outcome aborted = FetchRejected "AbortError" "The user aborted a request."
  /\ error (performEmbed_on_fetch
              aborted
              worn).1 = error worn.
Proof.
  split; [reflexivity|].
  exact (proj1 (proj2 (proj2
           (aborted_request_is_silent
              aborted
              "The user aborted a request." worn eq_refl)))).
Defined.

(** X23: whatever the user, React, the report and the timers do to the
    radical viewer, and in whatever order, the retry count stays between
    0 and MAX_RETRIES and the phase stays one of the eight that
    getPhaseInfo has a text and a colour for. *)
Theorem retries_bounded_and_phase_known newURL cs st
  (Hr : 0 <= retries st <= MAX_RETRIES) (Hp : phase_known st = true) :
  0 <= retries (execs newURL cs st) <= MAX_RETRIES /\ phase_known (execs newURL cs st) = true.
Proof. split; [exact (execs_retries newURL cs st Hr)|exact (execs_known newURL cs st Hp)]. Qed.

Lemma retries_bounded_and_phase_known_witness :
  0 <= retries fresh <= MAX_RETRIES /\ phase_known fresh = true
  /\ 0 <= retries (execs Js.parseURL
                     [(fair, CStart); (failing, CResume Scenario.A PcFetch); (fair, CRetry);
                      (fair, CRetry); (fair, CRetry); (fair, CRetry); (fair, CRender Scenario.B)]
                     fresh) <= MAX_RETRIES.
Proof.
  assert (H : 0 <= retries fresh <= MAX_RETRIES) by (vm_compute; split; discriminate).
  split; [exact H|]. split; [reflexivity|].
  exact (proj1 (retries_bounded_and_phase_known Js.parseURL
                  [(fair, CStart); (failing, CResume Scenario.A PcFetch); (fair, CRetry);
                   (fair, CRetry); (fair, CRetry); (fair, CRetry); (fair, CRender Scenario.B)]
                  fresh H eq_refl)).
Defined.

(** X24: a render with the props of another dashboard resets the radical
    viewer: phase idle, no error, no retries, not started, the new id
    remembered, and a radical cleanup started that has emptied the
    container and released the report, the service and the abort
    controller; the last log line names the new dashboard.  A render
    with the same report id changes nothing but the props. *)
Theorem dashboard_change_resets_viewer env d st
  (Hc : Radical.isCleaningRef (core st) = false) :
  let r := dashboard_effect env d st in
  if String.eqb (currentDashboardIdRef st) (Viewer.report_id d)
  then r = (set_dashboard d st, false)
  else r.2 = true /\ phase r.1 = "idle" /\ error r.1 = None /\ retries r.1 = 0
       /\ hasStarted r.1 = false /\ dashboard r.1 = d
       /\ currentDashboardIdRef r.1 = Viewer.report_id d
       /\ Radical.held (core r.1)
          = (Radical.clear_container <$> after_reset (base env) (core st), None, None, None,
             Radical.mountedRef (core st), true)
       /\ last (Radical.logs (core r.1))
          = Some (line (base env) ("Dashboard alterado: " +:+ Viewer.title d) Radical.info).
Proof.
  cbv zeta. destruct (String.eqb _ _) eqn:E.
  - unfold dashboard_effect. cbv zeta.
    change (currentDashboardIdRef (set_dashboard d st)) with (currentDashboardIdRef st).
    rewrite E. reflexivity.
  - apply String.eqb_neq in E. exact (dashboard_effect_changed env d st E Hc).
Qed.

Lemma dashboard_change_resets_viewer_witness :
  Radical.isCleaningRef (core worn) = false
  /\ retries (dashboard_effect fair Scenario.B worn).1 = 0.
Proof.
  split; [reflexivity|].
  exact (proj1 (proj2 (proj2 (proj2
           (dashboard_change_resets_viewer fair Scenario.B worn eq_refl))))).
Defined.

(** X25: the path on which a report is attached.  On a mounted viewer
    with its container, no cleanup running and both ids present, when
    the token request is answered in 200..299, the payload carries a
    non-empty token string and a locator validateEmbedUrl accepts, and
    the SDK does not throw, the invocation started by performEmbed has
    attached a report after four resumptions: it is in phase loading,
    has sent exactly one token request, handed service.embed exactly the
    decoded locator and the token, and holds a report and a service.
    The error shown is not touched on this path. *)
Theorem undisturbed_embed_attaches newURL env0 env1 env2 env3 env4 d st e status tok raw
  (Hm : mounted st = true) (Hc : Radical.isCleaningRef (core st) = false)
  (He : Radical.embedRef (core st) = Some e)
  (Hr : Js.truthy (Viewer.report_id d) = true) (Hd : Js.truthy (Viewer.dataset_id d) = true)
  (Hf : fetch_outcome env3 = FetchResponse status) (Hok : Viewer.response_ok status = true)
  (Hj : json_outcome env4 = JsonMembers (Radical.JsString tok) (Radical.JsString raw))
  (Ht : Js.truthy tok = true)
  (Hv : Radical.isValid (Radical.validateEmbedUrl newURL (base env4) (Viewer.report_id d)
                           (Radical.JsString raw) (core st)).1 = true)
  (Hs : forall x, exists x', sdk_embed env4 x = Returns x') :
  let r := performEmbed newURL env0 [env1; env2; env3; env4] d st in
  r.2 = PcDone true /\ phase r.1 = "loading" /\ error r.1 = error st
  /\ requests r.1 = requests st ++ [token_url d]
  /\ embedded r.1 = embedded st ++ [(default raw (decodeURIComponent env4 raw), tok)]
  /\ is_Some (Radical.reportRef (core r.1)) /\ is_Some (Radical.serviceRef (core r.1)).
Proof.
  exact (run_attaches newURL env0 env1 env2 env3 env4 d st e status tok raw
           Hm Hc He Hr Hd Hf Hok Hj Ht Hv Hs).
Qed.

Lemma undisturbed_embed_attaches_witness :
  mounted fresh = true /\ Radical.isCleaningRef (core fresh) = false
  /\ Radical.embedRef (core fresh) = Some Scenario.box
  /\ Js.truthy (Viewer.report_id Scenario.A) = true
  /\ Js.truthy (Viewer.dataset_id Scenario.A) = true
  /\ fetch_outcome fair = FetchResponse 200 /\ Viewer.response_ok 200 = true
  /\ json_outcome fair
     = JsonMembers (Radical.JsString "token-R1")
         (Radical.JsString "https://app.powerbi.com/reportEmbed?reportId=R1&groupId=G1")
  /\ Js.truthy "token-R1" = true
  /\ Radical.isValid
       (Radical.validateEmbedUrl Js.parseURL (base fair) (Viewer.report_id Scenario.A)
          (Radical.JsString "https://app.powerbi.com/reportEmbed?reportId=R1&groupId=G1")
          (core fresh)).1 = true
  /\ (forall x, exists x', sdk_embed fair x = Returns x')
  /\ (performEmbed Js.parseURL fair [fair; fair; fair; fair] Scenario.A fresh).2 = PcDone true.
Proof.
  assert (Hv : Radical.isValid
       (Radical.validateEmbedUrl Js.parseURL (base fair) (Viewer.report_id Scenario.A)
          (Radical.JsString "https://app.powerbi.com/reportEmbed?reportId=R1&groupId=G1")
          (core fresh)).1 = true) by (vm_compute; reflexivity).
  assert (Hs : forall x, exists x', sdk_embed fair x = Returns x')
    by (intros x; eexists; reflexivity).
  split; [reflexivity|]. split; [reflexivity|]. split; [reflexivity|]. split; [reflexivity|].
  split; [reflexivity|]. split; [reflexivity|]. split; [reflexivity|]. split; [reflexivity|].
  split; [reflexivity|]. split; [exact Hv|]. split; [exact Hs|].
  exact (proj1 (undisturbed_embed_attaches Js.parseURL fair fair fair fair fair Scenario.A fresh
                  Scenario.box 200 "token-R1"
                  "https://app.powerbi.com/reportEmbed?reportId=R1&groupId=G1"
                  eq_refl eq_refl eq_refl eq_refl eq_refl eq_refl eq_refl eq_refl eq_refl Hv Hs)).
Defined.

End RadicalEmbedding.
